(** * Semantic search backend: a shallow embedding of the request flow

    The backend (src/zappa_backend) is Python glue over three external
    services: an embedding / text model (Bedrock), a vector index
    (OpenSearch, reached by signed HTTP requests) and a push channel (API
    Gateway WebSocket management API).

    The embedding keeps the shape of the code:
    - Python values that travel through the handlers are JSON values
      ([json]); a [dict] is an association list, looked up by key;
    - Python exceptions are values of [exn]; a computation that may raise
      returns a [result];
    - code that talks to the outside is written in a state-and-error monad
      [M] whose state is the trace of events performed so far; the outside
      itself is a [world] of oracles that answer a call given that trace;
    - a [str] is a [string]; its characters are the characters of the
      string;
    - the interpreter services the code relies on ([str] of a non-string,
      the format spec [.3f]) and the prompt template, which is not part of
      the sources, are parameters ([runtime]). *)

From Stdlib Require Import String Ascii List ZArith Lia Bool.
From Stdlib Require Import PrimFloat DecimalString.
Import ListNotations.
Set Warnings "-register-all,-inexact-float".
Open Scope list_scope.
Open Scope string_scope.

(* ===================================================================== *)
(** ** Python values and exceptions *)
(* ===================================================================== *)

Module Py.

(** JSON values as Python sees them after [json.loads]: [None], [bool],
    [int], [float], [str], [list], [dict]. *)
Inductive json : Type :=
| JNull
| JBool (b : bool)
| JInt (z : Z)
| JFloat (f : float)
| JStr (s : string)
| JList (l : list json)
| JDict (d : list (string * json)).

(** The exception classes the code can meet.  The only class the code
    tells apart is [GoneException]; every class below is an [Exception]. *)
Inductive exn : Type :=
| GoneException (msg : string)
| Exception (msg : string)
| TypeError (msg : string)
| AttributeError (msg : string)
| IndexError (msg : string)
| KeyError (key_repr : string).

(** [str(e)]; for a [KeyError] it is the [repr] of the key. *)
Definition str_exn (e : exn) : string :=
  match e with
  | GoneException m | Exception m | TypeError m | AttributeError m
  | IndexError m => m
  | KeyError k => k
  end.

Inductive result (A : Type) : Type :=
| Ok (a : A)
| Raise (e : exn).
Arguments Ok {A} a.
Arguments Raise {A} e.

Definition rbind {A B} (r : result A) (k : A -> result B) : result B :=
  match r with
  | Ok a => k a
  | Raise e => Raise e
  end.

Definition is_ok {A} (r : result A) : bool :=
  match r with Ok _ => true | Raise _ => false end.

(** Truth value of a Python object ([if not x]). *)
Definition truthy (v : json) : bool :=
  match v with
  | JNull => false
  | JBool b => b
  | JInt z => negb (Z.eqb z 0)
  | JFloat f => negb (PrimFloat.eqb f 0%float)
  | JStr s => negb (String.eqb s "")
  | JList l => match l with [] => false | _ :: _ => true end
  | JDict d => match d with [] => false | _ :: _ => true end
  end.

(** Lookup in a dict's items. *)
Fixpoint lookup (k : string) (d : list (string * json)) : option json :=
  match d with
  | [] => None
  | (k', v) :: d' => if String.eqb k k' then Some v else lookup k d'
  end.

Definition type_name (v : json) : string :=
  match v with
  | JNull => "NoneType"
  | JBool _ => "bool"
  | JInt _ => "int"
  | JFloat _ => "float"
  | JStr _ => "str"
  | JList _ => "list"
  | JDict _ => "dict"
  end.

(** [v.get(k, default)]: only a dict has the method. *)
Definition get (v : json) (k : string) (default : json) : result json :=
  match v with
  | JDict d => Ok (match lookup k d with Some x => x | None => default end)
  | _ => Raise (AttributeError
                  ("'" ++ type_name v ++ "' object has no attribute 'get'"))
  end.

(** [v[k]] for a string key [k]. *)
Definition getitem (v : json) (k : string) : result json :=
  match v with
  | JDict d => match lookup k d with
               | Some x => Ok x
               | None => Raise (KeyError ("'" ++ k ++ "'"))
               end
  | JList _ | JStr _ =>
      Raise (TypeError (type_name v ++ " indices must be integers"))
  | _ => Raise (TypeError
                  ("'" ++ type_name v ++ "' object is not subscriptable"))
  end.

Definition is_substring (k s : string) : bool :=
  match String.index 0 k s with Some _ => true | None => false end.

Definition eq_str (v : json) (k : string) : bool :=
  match v with JStr s => String.eqb s k | _ => false end.

(** [k in v] for a string [k]: key of a dict, element of a list,
    substring of a string; other objects are not containers. *)
Definition contains (k : string) (v : json) : result bool :=
  match v with
  | JDict d => Ok (match lookup k d with Some _ => true | None => false end)
  | JList l => Ok (existsb (fun x => eq_str x k) l)
  | JStr s => Ok (is_substring k s)
  | _ => Raise (TypeError
                  ("argument of type '" ++ type_name v ++ "' is not iterable"))
  end.

Fixpoint chars (s : string) : list json :=
  match s with
  | EmptyString => []
  | String c s' => JStr (String c EmptyString) :: chars s'
  end.

(** [for x in v]: the elements of a list, the keys of a dict, the
    characters of a string. *)
Definition iter (v : json) : result (list json) :=
  match v with
  | JList l => Ok l
  | JDict d => Ok (map (fun kv => JStr (fst kv)) d)
  | JStr s => Ok (chars s)
  | _ => Raise (TypeError ("'" ++ type_name v ++ "' object is not iterable"))
  end.

(** [v[:200] + '...'] *)
Definition slice200_dots (v : json) : result json :=
  match v with
  | JStr s => Ok (JStr (String.substring 0 200 s ++ "..."))
  | JList _ =>
      Raise (TypeError "can only concatenate list (not 'str') to list")
  | _ => Raise (TypeError
                  ("'" ++ type_name v ++ "' object is not subscriptable"))
  end.

(** [len(v)] *)
Definition len (v : json) : result nat :=
  match v with
  | JStr s => Ok (String.length s)
  | JList l => Ok (List.length l)
  | JDict d => Ok (List.length d)
  | _ => Raise (TypeError
                  ("object of type '" ++ type_name v ++ "' has no len()"))
  end.

(** [v[0]] *)
Definition getitem0 (v : json) : result json :=
  match v with
  | JList (x :: _) => Ok x
  | JList [] => Raise (IndexError "list index out of range")
  | JStr (String c _) => Ok (JStr (String c EmptyString))
  | JStr EmptyString => Raise (IndexError "string index out of range")
  | JDict _ => Raise (KeyError "0")
  | _ => Raise (TypeError
                  ("'" ++ type_name v ++ "' object is not subscriptable"))
  end.

(** [l.append(x)] *)
Definition append {A} (l : list A) (x : A) : list A := (l ++ [x])%list.

(** [str(n)] for a length or a counter. *)
Definition str_nat (n : nat) : string :=
  NilEmpty.string_of_uint (Nat.to_uint n).

Definition str_Z (z : Z) : string :=
  NilEmpty.string_of_int (Z.to_int z).

Definition nl : string := String (ascii_of_nat 10) EmptyString.
Definition dquote : string := String (ascii_of_nat 34) EmptyString.

(** ['\n'.join(parts)] *)
Definition join_lines (parts : list string) : string :=
  String.concat nl parts.

(** What the code takes from the interpreter and from files that are not
    part of the sources. *)
Record runtime : Type := {
  (** [str(v)] / [f"{v}"] for a value that is not a [str] *)
  repr : json -> string;
  (** [f"{v:.3f}"]; [None] when the format spec raises for [v] *)
  format_3f : json -> option string;
  (** [template.render(snippets=s)] for llm_prompt_template.j2 *)
  render_template : string -> string
}.

(** [f"{v}"] *)
Definition str (rt : runtime) (v : json) : string :=
  match v with
  | JStr s => s
  | _ => repr rt v
  end.

(** [f"{v:.3f}"] *)
Definition fmt3 (rt : runtime) (v : json) : result string :=
  match format_3f rt v with
  | Some s => Ok s
  | None => Raise (TypeError "unsupported format string")
  end.

End Py.

(* ===================================================================== *)
(** ** The outside world and the effect monad *)
(* ===================================================================== *)

Module Eff.
Import Py.

(** A [requests] response: [response.ok], [response.status_code],
    [response.text] and [response.json()] (which raises on a body that is
    not JSON). *)
Record http_response : Type := {
  ok : bool;
  status_code : Z;
  text : string;
  json_body : result json
}.

(** What the process does that is visible from outside.  The three
    outbound calls carry the request as built by the code, before
    [json.dumps]; the request signature (SigV4 headers) is not modelled. *)
Inductive event : Type :=
| InvokeModel (region model_id : string) (body : json)
| HttpPost (url : string) (lines : list json)
| PostToConnection (connection_id : json) (data : json)
| Stdout (line : string)
| StdoutTraceback.

Definition trace : Type := list event.

Definition is_outbound (e : event) : bool :=
  match e with
  | InvokeModel _ _ _ | HttpPost _ _ | PostToConnection _ _ => true
  | Stdout _ | StdoutTraceback => false
  end.

Definition outbound (t : trace) : list event := filter is_outbound t.

(** The external services.  Each oracle sees the trace so far, so that an
    answer may depend on everything that happened before.
    - [get_credentials]: [boto3.Session().get_credentials()] is not [None];
    - [invoke_model]: creating the [bedrock-runtime] client for a region,
      [bedrock.invoke_model(...)] for a model id and a body, and
      [json.loads(response.get('body').read())];
    - [requests_post]: [requests.post(url, data, headers)];
    - [post_to_connection]: the API Gateway management call. *)
Record world : Type := {
  get_credentials : trace -> bool;
  invoke_model : trace -> string -> string -> json -> result json;
  requests_post : trace -> string -> list json -> result http_response;
  post_to_connection : trace -> json -> json -> result unit
}.

(** Process configuration, read from the environment at import time, with
    the defaults of the code already applied to the last four. *)
Record config : Type := {
  OPENSEARCH_ENDPOINT : option string;
  WEBSOCKET_API_ENDPOINT : option string;
  MODEL_ID : string;
  AWS_REGION : string;
  INDEX_NAME : string;
  LLM_MODEL_ID : string
}.

(** Truth value of [os.environ.get(name)]. *)
Definition env_truthy (o : option string) : bool :=
  match o with
  | Some s => negb (String.eqb s "")
  | None => false
  end.

Definition env_str (o : option string) : string :=
  match o with Some s => s | None => "None" end.

(** State (the trace) and exceptions. *)
Definition M (A : Type) : Type := trace -> result A * trace.

Definition ret {A} (a : A) : M A := fun t => (Ok a, t).

Definition raise {A} (e : exn) : M A := fun t => (Raise e, t).

Definition bind {A B} (c : M A) (k : A -> M B) : M B :=
  fun t =>
    match c t with
    | (Ok a, t') => k a t'
    | (Raise e, t') => (Raise e, t')
    end.

Definition lift {A} (r : result A) : M A := fun t => (r, t).

(** [try: c  except Exception as e: h e] *)
Definition try_except {A} (c : M A) (h : exn -> M A) : M A :=
  fun t =>
    match c t with
    | (Ok a, t') => (Ok a, t')
    | (Raise e, t') => h e t'
    end.

Definition emit (e : event) : M unit := fun t => (Ok tt, append t e).

Definition print (line : string) : M unit := emit (Stdout line).

Definition print_traceback : M unit := emit StdoutTraceback.

Definition call_invoke_model (w : world) (region model_id : string)
  (body : json) : M json :=
  fun t => (invoke_model w t region model_id body,
            append t (InvokeModel region model_id body)).

Definition call_requests_post (w : world) (url : string) (lines : list json)
  : M http_response :=
  fun t => (requests_post w t url lines, append t (HttpPost url lines)).

Definition call_post_to_connection (w : world) (connection_id data : json)
  : M unit :=
  fun t => (post_to_connection w t connection_id data,
            append t (PostToConnection connection_id data)).

Definition session_get_credentials (w : world) : M bool :=
  fun t => (Ok (get_credentials w t), t).

End Eff.

Declare Scope py_scope.
Delimit Scope py_scope with py.
Notation "x <- c ;; k" := (Eff.bind c (fun x => k))
  (at level 61, c at next level, right associativity) : py_scope.
Notation "c ;; k" := (Eff.bind c (fun _ => k))
  (at level 61, right associativity) : py_scope.
Notation "x <~ r ;; k" := (Py.rbind r (fun x => k))
  (at level 61, r at next level, right associativity) : py_scope.
Open Scope py_scope.

(* ===================================================================== *)
(** ** app.py *)
(* ===================================================================== *)

Module App.
Import Py Eff.

(** A Flask request: its method and [request.json], the parsed body
    ([None] for the body [null]). *)
Record request : Type := {
  method : string;
  json : Py.json
}.

Section Handlers.

Variable rt : runtime.
Variable cfg : config.
Variable w : world.

(** [apigw_management_client] is created only when the endpoint is set. *)
Definition apigw_management_client : bool :=
  env_truthy (WEBSOCKET_API_ENDPOINT cfg).

Definition get_bedrock_embedding (text : Py.json) : M Py.json :=
  try_except
    (response_body <-
       call_invoke_model w (AWS_REGION cfg) (MODEL_ID cfg)
         (JDict [("inputText", text)]) ;;
     embedding <- lift (get response_body "embedding" JNull) ;;
     ret embedding)
    (fun e =>
       print ("Error getting Bedrock embedding: " ++ str_exn e) ;;
       raise e).

Definition search_opensearch_by_embedding (embedding : Py.json) (k : Z)
  : M Py.json :=
  try_except
    (if negb (env_truthy (OPENSEARCH_ENDPOINT cfg))
     then raise (Exception "OpenSearch endpoint not configured")
     else
       credentials <- session_get_credentials w ;;
       if negb credentials
       then raise (Exception "Unable to get AWS credentials")
       else
         let endpoint := env_str (OPENSEARCH_ENDPOINT cfg) in
         let url :=
           "https://" ++ endpoint ++ "/" ++ INDEX_NAME cfg ++ "/_search" in
         let query :=
           JDict [("size", JInt k);
                  ("query",
                   JDict [("knn",
                           JDict [("embedding",
                                   JDict [("vector", embedding);
                                          ("k", JInt k)])])]);
                  ("_source",
                   JList [JStr "title"; JStr "summary"; JStr "content";
                          JStr "sentiment_label"; JStr "sentiment_score";
                          JStr "category"])] in
         response <- call_requests_post w url [query] ;;
         if negb (ok response)
         then raise (Exception ("OpenSearch query failed: "
                                ++ str_Z (status_code response) ++ " "
                                ++ text response))
         else lift (json_body response))
    (fun e =>
       print ("Error searching OpenSearch: " ++ str_exn e) ;;
       raise e).

(** The body of the formatting loop.  The default of the summary is an
    argument of [source.get], so Python evaluates it whether or not the
    summary is present. *)
Definition format_hit (hit : Py.json) : result Py.json :=
  source <~ get hit "_source" (JDict []) ;;
  title <~ get source "title" (JStr "Untitled") ;;
  content0 <~ get source "content" (JStr "") ;;
  fallback <~ slice200_dots content0 ;;
  summary <~ get source "summary" fallback ;;
  content <~ get source "content" (JStr "") ;;
  score <~ get hit "_score" (JInt 0) ;;
  sentiment_label <~ get source "sentiment_label" (JStr "Unknown") ;;
  sentiment_score <~ get source "sentiment_score" (JInt 0) ;;
  category <~ get source "category" (JStr "Unknown") ;;
  Ok (JDict [("title", title);
             ("summary", summary);
             ("content", content);
             ("score", score);
             ("sentiment", JDict [("label", sentiment_label);
                                  ("score", sentiment_score)]);
             ("category", category)]).

(** [for hit in hits: ... formatted_results.append(result)] *)
Fixpoint format_hits (hits formatted_results : list Py.json)
  : result (list Py.json) :=
  match hits with
  | [] => Ok formatted_results
  | hit :: hits' =>
      result <~ format_hit hit ;;
      format_hits hits' (append formatted_results result)
  end.

Definition perform_semantic_search (query_text : Py.json)
  : M (list Py.json) :=
  try_except
    (embedding <- get_bedrock_embedding query_text ;;
     if negb (truthy embedding) then ret []
     else
       search_results <- search_opensearch_by_embedding embedding 10 ;;
       outer <- lift (get search_results "hits" (JDict [])) ;;
       hits <- lift (get outer "hits" (JList [])) ;;
       if negb (truthy hits) then ret []
       else
         hit_list <- lift (iter hits) ;;
         formatted_results <- lift (format_hits hit_list []) ;;
         ret formatted_results)
    (fun e =>
       print ("Error in semantic search: " ++ str_exn e) ;;
       print_traceback ;;
       ret []).

Definition send_websocket_message (connection_id message_data : Py.json)
  : M unit :=
  if negb apigw_management_client
  then print "WebSocket API endpoint not configured, cannot send message."
  else
    try_except
      (call_post_to_connection w connection_id message_data ;;
       print ("Message sent to connection " ++ str rt connection_id))
      (fun e =>
         match e with
         | GoneException _ =>
             print ("Connection " ++ str rt connection_id ++ " is gone.")
         | _ =>
             print ("Error sending WebSocket message to "
                    ++ str rt connection_id ++ ": " ++ str_exn e) ;;
             print_traceback
         end).

(** [[r for r in results if r['sentiment']['label'] == label]] *)
Fixpoint select_label (label : string) (results : list Py.json)
  : result (list Py.json) :=
  match results with
  | [] => Ok []
  | r :: results' =>
      sentiment <~ getitem r "sentiment" ;;
      l <~ getitem sentiment "label" ;;
      rest <~ select_label label results' ;;
      Ok (if eq_str l label then r :: rest else rest)
  end.

(** The loop of a sentiment section:
    [for i, result in enumerate(items, i): response_parts.append(...)] *)
Fixpoint append_sentiment_items (i : nat) (items : list Py.json)
  (response_parts : list string) : result (list string) :=
  match items with
  | [] => Ok response_parts
  | result :: items' =>
      title <~ getitem result "title" ;;
      let parts1 :=
        append response_parts (str_nat i ++ ". **" ++ str rt title ++ "**")
      in
      summary <~ getitem result "summary" ;;
      let parts2 := append parts1 ("   " ++ str rt summary) in
      score <~ getitem result "score" ;;
      score_text <~ fmt3 rt score ;;
      sentiment <~ getitem result "sentiment" ;;
      sentiment_score <~ getitem sentiment "score" ;;
      sentiment_text <~ fmt3 rt sentiment_score ;;
      let parts3 :=
        append parts2 ("   Score: " ++ score_text ++ " | Sentiment: "
                       ++ sentiment_text ++ nl)
      in
      append_sentiment_items (S i) items' parts3
  end.

(** The loop of the flat listing. *)
Fixpoint append_top_items (i : nat) (items : list Py.json)
  (response_parts : list string) : result (list string) :=
  match items with
  | [] => Ok response_parts
  | result :: items' =>
      title <~ getitem result "title" ;;
      let parts1 :=
        append response_parts (str_nat i ++ ". **" ++ str rt title ++ "**")
      in
      summary <~ getitem result "summary" ;;
      let parts2 := append parts1 ("   " ++ str rt summary) in
      score <~ getitem result "score" ;;
      score_text <~ fmt3 rt score ;;
      let parts3 := append parts2 ("   Score: " ++ score_text ++ nl) in
      append_top_items (S i) items' parts3
  end.

(** Lines 227-255 of app.py: from the formatted results to
    [response_message]. *)
Definition compose_message (query_text : Py.json) (results : list Py.json)
  : result string :=
  positive_results <~ select_label "POSITIVE" results ;;
  negative_results <~ select_label "NEGATIVE" results ;;
  let parts0 :=
    ["Found " ++ str_nat (length results) ++ " results for " ++ dquote
     ++ str rt query_text ++ dquote ++ nl] in
  parts1 <~ (if truthy (JList positive_results)
             then append_sentiment_items 1 (firstn 3 positive_results)
                    (append parts0 "**Positive Sentiment Results:**")
             else Ok parts0) ;;
  parts2 <~ (if truthy (JList negative_results)
             then append_sentiment_items 1 (firstn 3 negative_results)
                    (append parts1 "**Negative Sentiment Results:**")
             else Ok parts1) ;;
  parts3 <~ (if negb (truthy (JList positive_results))
                && negb (truthy (JList negative_results))
             then append_top_items 1 (firstn 5 results)
                    (append parts2 "**Top Results:**")
             else Ok parts2) ;;
  Ok (join_lines parts3).

(** The background task.  [@task] hands the call to the platform; here the
    flow runs in place, which is what the decorator does outside Lambda. *)
Definition process_semantic_search (query_text connection_id : Py.json)
  : M Py.json :=
  try_except
    (send_websocket_message connection_id
       (JDict [("status", JStr "processing");
               ("message", JStr ("Processing semantic search for: "
                                 ++ str rt query_text))]) ;;
     results <- perform_semantic_search query_text ;;
     if negb (truthy (JList results))
     then
       send_websocket_message connection_id
         (JDict [("status", JStr "no_results");
                 ("message", JStr ("No results found for '"
                                   ++ str rt query_text
                                   ++ "'. Try rephrasing your query."));
                 ("results", JList []);
                 ("query", query_text)]) ;;
       ret (JDict [("status", JStr "no_results");
                   ("message", JStr "No results found")])
     else
       response_message <- lift (compose_message query_text results) ;;
       send_websocket_message connection_id
         (JDict [("status", JStr "search_complete");
                 ("message", JStr response_message);
                 ("results", JList results);
                 ("query", query_text);
                 ("total_results", JInt (Z.of_nat (length results)))]) ;;
       ret (JDict [("status", JStr "success");
                   ("message", JStr "Search completed successfully")]))
    (fun e =>
       let error_msg := "Error in semantic search: " ++ str_exn e in
       print error_msg ;;
       print_traceback ;;
       send_websocket_message connection_id
         (JDict [("status", JStr "search_error");
                 ("message",
                  JStr ("Sorry, I encountered an error while searching: "
                        ++ str_exn e));
                 ("results", JList []);
                 ("query", query_text)]) ;;
       ret (JDict [("status", JStr "error");
                   ("message", JStr error_msg)])).

(** [jsonify(error=msg)] *)
Definition jsonify_error (msg : string) : Py.json :=
  JDict [("error", JStr msg)].

(** A Flask view returns the response body and the status code. *)
Definition search_endpoint (request : request) : M (Py.json * nat) :=
  if String.eqb (method request) "OPTIONS" then ret (JStr "", 204)
  else
    try_except
      (let body := json request in
       missing <- lift (if negb (truthy body) then Ok true
                        else (has <~ contains "query" body ;;
                              Ok (negb has))) ;;
       if (missing : bool)
       then ret (jsonify_error "Missing query in request body.", 400)
       else
         query_text <- lift (getitem body "query") ;;
         connection_id <- lift (get body "connection_id" JNull) ;;
         results <- perform_semantic_search query_text ;;
         (if truthy connection_id && apigw_management_client
          then send_websocket_message connection_id
                 (JDict [("message", JStr ("Search results for: "
                                           ++ str rt query_text));
                         ("results", JList results);
                         ("query", query_text)])
          else ret tt) ;;
         ret (JDict [("query", query_text);
                     ("results", JList results);
                     ("total_results", JInt (Z.of_nat (length results)))],
              200))
      (fun e => ret (jsonify_error ("Search failed: " ++ str_exn e), 500)).

Definition process_search_endpoint (request : request)
  : M (Py.json * nat) :=
  if String.eqb (method request) "OPTIONS" then ret (JStr "", 204)
  else
    try_except
      (let body := json request in
       missing <- lift (if negb (truthy body) then Ok true
                        else (has_query <~ contains "query" body ;;
                              if negb has_query then Ok true
                              else (has_id <~ contains "connection_id" body ;;
                                    Ok (negb has_id)))) ;;
       if (missing : bool)
       then ret (jsonify_error
                   "Missing query or connection_id in request body.", 400)
       else
         query_text <- lift (getitem body "query") ;;
         connection_id <- lift (getitem body "connection_id") ;;
         process_semantic_search query_text connection_id ;;
         ret (JDict [("message",
                      JStr ("Semantic search processing started. "
                            ++ "Results will be sent via WebSocket."));
                     ("query", query_text);
                     ("connection_id", connection_id)],
              202))
      (fun e =>
         ret (jsonify_error ("Failed to start semantic search: "
                             ++ str_exn e), 500)).

End Handlers.
End App.

(* ===================================================================== *)
(** ** bedrock_embeddings.py *)
(* ===================================================================== *)

Module BedrockEmbeddings.
Import Py Eff.

Section Client.

Variable w : world.

Definition get_bedrock_embedding (text : json) (model_id region : string)
  : M json :=
  try_except
    (response_body <-
       call_invoke_model w region model_id (JDict [("inputText", text)]) ;;
     embedding <- lift (get response_body "embedding" JNull) ;;
     if truthy embedding
     then
       n <- lift (len embedding) ;;
       print ("Generated embedding with " ++ str_nat n ++ " dimensions") ;;
       ret embedding
     else
       print "No embedding returned from Bedrock" ;;
       ret JNull)
    (fun e =>
       print ("Error getting Bedrock embedding: " ++ str_exn e) ;;
       print_traceback ;;
       raise e).

End Client.
End BedrockEmbeddings.

(* ===================================================================== *)
(** ** opensearch_client.py *)
(* ===================================================================== *)

Module OpensearchClient.
Import Py Eff.

Section Client.

Variable cfg : config.
Variable w : world.

Definition search_opensearch_by_embedding (embedding : json) (k : Z)
  : M json :=
  try_except
    (if negb (env_truthy (OPENSEARCH_ENDPOINT cfg))
     then raise (Exception "OpenSearch endpoint not configured")
     else
       credentials <- session_get_credentials w ;;
       if negb credentials
       then raise (Exception "Unable to get AWS credentials")
       else
         let endpoint := env_str (OPENSEARCH_ENDPOINT cfg) in
         let url :=
           "https://" ++ endpoint ++ "/" ++ INDEX_NAME cfg ++ "/_search" in
         let query :=
           JDict [("size", JInt k);
                  ("query",
                   JDict [("knn",
                           JDict [("embedding",
                                   JDict [("vector", embedding);
                                          ("k", JInt k)])])]);
                  ("_source",
                   JList [JStr "title"; JStr "summary"; JStr "content";
                          JStr "sentiment_label"; JStr "sentiment_score";
                          JStr "category"; JStr "url"; JStr "timestamp"])] in
         response <- call_requests_post w url [query] ;;
         if negb (ok response)
         then raise (Exception ("OpenSearch query failed: "
                                ++ str_Z (status_code response) ++ " "
                                ++ text response))
         else lift (json_body response))
    (fun e =>
       print ("Error searching OpenSearch: " ++ str_exn e) ;;
       print_traceback ;;
       raise e).

(** [for i, doc in enumerate(documents)]: an index action, then the
    document; [i] counts from 0. *)
Fixpoint bulk_lines (i : nat) (documents bulk_data : list json) : list json :=
  match documents with
  | [] => bulk_data
  | doc :: documents' =>
      let action :=
        JDict [("index", JDict [("_index", JStr (INDEX_NAME cfg));
                                ("_id", JStr (str_nat (i + 1)))])] in
      bulk_lines (S i) documents' (append (append bulk_data action) doc)
  end.

(** [[item for item in items if 'error' in item.get('index', {})]] *)
Fixpoint select_errors (items : list json) : result (list json) :=
  match items with
  | [] => Ok []
  | item :: items' =>
      index <~ get item "index" (JDict []) ;;
      has_error <~ contains "error" index ;;
      rest <~ select_errors items' ;;
      Ok (if has_error then item :: rest else rest)
  end.

Definition bulk_add_documents (documents : list json) : M bool :=
  try_except
    (if negb (env_truthy (OPENSEARCH_ENDPOINT cfg))
     then raise (Exception "OpenSearch endpoint not configured")
     else
       credentials <- session_get_credentials w ;;
       if negb credentials
       then raise (Exception "Unable to get AWS credentials")
       else
         let endpoint := env_str (OPENSEARCH_ENDPOINT cfg) in
         let bulk_data := bulk_lines 0 documents [] in
         let url := "https://" ++ endpoint ++ "/_bulk" in
         response <- call_requests_post w url bulk_data ;;
         if ok response
         then
           result <- lift (json_body response) ;;
           items <- lift (get result "items" (JList [])) ;;
           item_list <- lift (iter items) ;;
           errors <- lift (select_errors item_list) ;;
           if truthy (JList errors)
           then
             print ("⚠️ Bulk operation completed with "
                    ++ str_nat (length errors) ++ " errors") ;;
             ret false
           else
             print ("✅ Bulk operation completed successfully - "
                    ++ str_nat (length documents) ++ " documents added") ;;
             ret true
         else
           print ("❌ Bulk operation failed: "
                  ++ str_Z (status_code response) ++ " " ++ text response) ;;
           ret false)
    (fun e =>
       print ("❌ Error in bulk operation: " ++ str_exn e) ;;
       print_traceback ;;
       ret false).

End Client.
End OpensearchClient.

(* ===================================================================== *)
(** ** llm_summarize_from_opensearch.py *)
(* ===================================================================== *)

Module LlmSummarize.
Import Py Eff.

Section Composer.

Variable rt : runtime.
Variable cfg : config.
Variable w : world.

(** The request body of the text model: one shape for the Titan Text
    family, another for every other model. *)
Definition request_body (model_id prompt : string) : json :=
  if String.prefix "amazon.titan-text" model_id
  then JDict [("inputText", JStr prompt);
              ("textGenerationConfig",
               JDict [("maxTokenCount", JInt 1024);
                      ("temperature", JFloat 0.2%float)])]
  else JDict [("prompt", JStr prompt);
              ("max_tokens_to_sample", JInt 1024);
              ("temperature", JFloat 0.2%float)].

(** Called as [get_bedrock_llm_response(prompt)]: the model id and the
    region come from the environment. *)
Definition get_bedrock_llm_response (prompt : string) : M json :=
  let model_id := LLM_MODEL_ID cfg in
  let region := AWS_REGION cfg in
  let body := request_body model_id prompt in
  response_body <- call_invoke_model w region model_id body ;;
  has_results <- lift (contains "results" response_body) ;;
  titan <- lift (if (has_results : bool)
                 then (results <~ getitem response_body "results" ;;
                       Ok (if truthy results then Some results else None))
                 else Ok None) ;;
  match titan with
  | Some results =>
      first <- lift (getitem0 results) ;;
      lift (get first "outputText" (JStr ""))
  | None =>
      completion <- lift (get response_body "completion" JNull) ;;
      if truthy completion then ret completion
      else lift (get response_body "outputText" JNull)
  end.

(** [for i, hit in enumerate(snippets): formatted.append(...)] *)
Fixpoint format_snippets (i : nat) (snippets : list json)
  (formatted : list string) : result (list string) :=
  match snippets with
  | [] => Ok formatted
  | hit :: snippets' =>
      src <~ get hit "_source" (JDict []) ;;
      title <~ get src "title" (JStr "") ;;
      summary <~ get src "summary" (JStr "") ;;
      content <~ get src "content" (JStr "") ;;
      sentiment <~ get src "sentiment_label" (JStr "") ;;
      format_snippets (S i) snippets'
        (append formatted
           ("Snippet " ++ str_nat (i + 1) ++ " (Sentiment: "
            ++ str rt sentiment ++ "):" ++ nl
            ++ "Title: " ++ str rt title ++ nl
            ++ "Summary: " ++ str rt summary ++ nl
            ++ "Content: " ++ str rt content ++ nl))
  end.

Definition format_snippets_for_prompt (snippets : json) : result string :=
  hit_list <~ iter snippets ;;
  formatted <~ format_snippets 0 hit_list [] ;;
  Ok (join_lines formatted).

Definition llm_summarize (query : json) (k : Z) : M string :=
  embedding <-
    BedrockEmbeddings.get_bedrock_embedding w query
      (MODEL_ID cfg) (AWS_REGION cfg) ;;
  results <- OpensearchClient.search_opensearch_by_embedding cfg w
               embedding k ;;
  outer <- lift (get results "hits" (JDict [])) ;;
  hits <- lift (get outer "hits" (JList [])) ;;
  if negb (truthy hits) then ret "No relevant results found."
  else
    snippets_text <- lift (format_snippets_for_prompt hits) ;;
    let prompt := render_template rt snippets_text in
    llm_response <- get_bedrock_llm_response prompt ;;
    ret (str rt llm_response).

End Composer.
End LlmSummarize.

(* ===================================================================== *)
(** ** bedrock_embeddings.py: batch and connection test *)
(* ===================================================================== *)

Module BedrockTools.
Import Py Eff.

Section Client.

Variable w : world.

(** [for i, text in enumerate(texts)] of [get_bedrock_embedding_batch]:
    each text has its own [try]; [total] is [len(texts)]. *)
Fixpoint batch_loop (i total : nat) (texts embeddings : list json)
  (model_id region : string) : M (list json) :=
  match texts with
  | [] => ret embeddings
  | text :: texts' =>
      embeddings' <-
        try_except
          (embedding <-
             BedrockEmbeddings.get_bedrock_embedding w text model_id region ;;
           print ("Processed embedding " ++ str_nat (i + 1) ++ "/"
                  ++ str_nat total) ;;
           ret (append embeddings embedding))
          (fun e =>
             print ("Failed to get embedding for text " ++ str_nat (i + 1)
                    ++ ": " ++ str_exn e) ;;
             ret (append embeddings JNull)) ;;
      batch_loop (S i) total texts' embeddings' model_id region
  end.

Definition get_bedrock_embedding_batch (texts : list json)
  (model_id region : string) : M (list json) :=
  batch_loop 0 (length texts) texts [] model_id region.

Definition test_text : json := JStr "This is a test sentence for embedding.".

Definition test_bedrock_connection (model_id region : string) : M bool :=
  try_except
    (embedding <-
       BedrockEmbeddings.get_bedrock_embedding w test_text model_id region ;;
     usable <- lift (if truthy embedding
                     then (n <~ len embedding ;; Ok (Nat.ltb 0 n))
                     else Ok false) ;;
     if (usable : bool)
     then
       print "✅ Bedrock connection successful!" ;;
       print ("   Model: " ++ model_id) ;;
       print ("   Region: " ++ region) ;;
       n <- lift (len embedding) ;;
       print ("   Embedding dimensions: " ++ str_nat n) ;;
       ret true
     else
       print "❌ Bedrock connection failed: No embedding returned" ;;
       ret false)
    (fun e =>
       print ("❌ Bedrock connection failed: " ++ str_exn e) ;;
       ret false).

End Client.
End BedrockTools.

(* ===================================================================== *)
(** ** opensearch_client.py: index administration *)
(* ===================================================================== *)

(** The administration functions use [requests.put] and [requests.get];
    they get a trace of their own, of the same making as the one of the
    request flow. *)
Module OpensearchAdmin.
Import Py.

Inductive http_request : Type :=
| Put (url : string) (data : json)
| Get (url : string).

Inductive admin_event : Type :=
| Sent (request : http_request)
| Printed (line : string)
| PrintedTraceback.

Definition log : Type := list admin_event.

Definition requests_sent (l : log) : list http_request :=
  flat_map (fun e => match e with Sent r => [r] | _ => [] end) l.

(** The search cluster as these functions see it. *)
Record cluster : Type := {
  credentials : log -> bool;
  answer : log -> http_request -> result Eff.http_response
}.

Definition A (X : Type) : Type := log -> result X * log.

Definition ret {X} (x : X) : A X := fun l => (Ok x, l).

Definition raise {X} (e : exn) : A X := fun l => (Raise e, l).

Definition bind {X Y} (c : A X) (k : X -> A Y) : A Y :=
  fun l =>
    match c l with
    | (Ok x, l') => k x l'
    | (Raise e, l') => (Raise e, l')
    end.

Definition lift {X} (r : result X) : A X := fun l => (r, l).

Definition try_except {X} (c : A X) (h : exn -> A X) : A X :=
  fun l =>
    match c l with
    | (Ok x, l') => (Ok x, l')
    | (Raise e, l') => h e l'
    end.

Definition print (line : string) : A unit :=
  fun l => (Ok tt, append l (Printed line)).

Definition print_traceback : A unit :=
  fun l => (Ok tt, append l PrintedTraceback).

Definition send (c : cluster) (request : http_request)
  : A Eff.http_response :=
  fun l => (answer c l request, append l (Sent request)).

Definition session_get_credentials (c : cluster) : A bool :=
  fun l => (Ok (credentials c l), l).

Declare Scope admin_scope.
Notation "x <- c ;; k" := (bind c (fun x => k))
  (at level 61, c at next level, right associativity) : admin_scope.
Notation "c ;; k" := (bind c (fun _ => k))
  (at level 61, right associativity) : admin_scope.
Local Open Scope admin_scope.

(** The index definition sent by [create_opensearch_index]. *)
Definition index_mapping : json :=
  JDict
    [("settings",
      JDict [("index", JDict [("knn", JBool true);
                              ("knn.algo_param.ef_search", JInt 100)])]);
     ("mappings",
      JDict
        [("properties",
          JDict
            [("title", JDict [("type", JStr "text");
                              ("analyzer", JStr "standard")]);
             ("content", JDict [("type", JStr "text");
                                ("analyzer", JStr "standard")]);
             ("summary", JDict [("type", JStr "text");
                                ("analyzer", JStr "standard")]);
             ("embedding",
              JDict [("type", JStr "knn_vector");
                     ("dimension", JInt 1536);
                     ("method",
                      JDict [("name", JStr "hnsw");
                             ("space_type", JStr "cosinesimil");
                             ("engine", JStr "lucene");
                             ("parameters",
                              JDict [("ef_construction", JInt 128);
                                     ("m", JInt 24)])])]);
             ("sentiment_label", JDict [("type", JStr "keyword")]);
             ("sentiment_score", JDict [("type", JStr "float")]);
             ("timestamp", JDict [("type", JStr "date")]);
             ("url", JDict [("type", JStr "keyword")]);
             ("category", JDict [("type", JStr "keyword")])])])].

Section Client.

Variable rt : runtime.
Variable cfg : Eff.config.
Variable c : cluster.

(** [str(hash(document.get('title', '') + document.get('content', '')))]:
    the hash is the interpreter's. *)
Variable generated_id : json -> result string.

Definition endpoint : string := Eff.env_str (Eff.OPENSEARCH_ENDPOINT cfg).

Definition create_opensearch_index : A bool :=
  if negb (Eff.env_truthy (Eff.OPENSEARCH_ENDPOINT cfg))
  then print "OpenSearch endpoint not configured" ;; ret false
  else
    has_credentials <- session_get_credentials c ;;
    if negb has_credentials
    then raise (Exception "Unable to get AWS credentials")
    else
      try_except
        (let url := "https://" ++ endpoint ++ "/" ++ Eff.INDEX_NAME cfg in
         response <- send c (Put url index_mapping) ;;
         if Eff.ok response
         then
           print ("✅ Index '" ++ Eff.INDEX_NAME cfg
                  ++ "' created successfully!") ;;
           ret true
         else
           print ("❌ Failed to create index: "
                  ++ str_Z (Eff.status_code response) ++ " "
                  ++ Eff.text response) ;;
           ret false)
        (fun e =>
           print ("❌ Error creating index: " ++ str_exn e) ;;
           print_traceback ;;
           ret false).

Definition add_document_to_opensearch (document doc_id : json) : A bool :=
  try_except
    (if negb (Eff.env_truthy (Eff.OPENSEARCH_ENDPOINT cfg))
     then raise (Exception "OpenSearch endpoint not configured")
     else
       has_credentials <- session_get_credentials c ;;
       if negb has_credentials
       then raise (Exception "Unable to get AWS credentials")
       else
         id <- lift (if negb (truthy doc_id) then generated_id document
                     else Ok (str rt doc_id)) ;;
         let url := "https://" ++ endpoint ++ "/" ++ Eff.INDEX_NAME cfg
                    ++ "/_doc/" ++ id in
         response <- send c (Put url document) ;;
         if Eff.ok response
         then print ("✅ Document '" ++ id ++ "' added successfully") ;;
              ret true
         else
           print ("❌ Failed to add document: "
                  ++ str_Z (Eff.status_code response) ++ " "
                  ++ Eff.text response) ;;
           ret false)
    (fun e =>
       print ("❌ Error adding document: " ++ str_exn e) ;;
       print_traceback ;;
       ret false).

(** [resp.json() if resp.ok else f"Error: {resp.text}"] *)
Definition json_or_error (response : Eff.http_response) : result json :=
  if Eff.ok response then Eff.json_body response
  else Ok (JStr ("Error: " ++ Eff.text response)).

Definition get_index_info : A json :=
  try_except
    (if negb (Eff.env_truthy (Eff.OPENSEARCH_ENDPOINT cfg))
     then raise (Exception "OpenSearch endpoint not configured")
     else
       has_credentials <- session_get_credentials c ;;
       if negb has_credentials
       then raise (Exception "Unable to get AWS credentials")
       else
         let stats_url := "https://" ++ endpoint ++ "/" ++ Eff.INDEX_NAME cfg
                          ++ "/_stats" in
         stats_resp <- send c (Get stats_url) ;;
         let mapping_url := "https://" ++ endpoint ++ "/"
                            ++ Eff.INDEX_NAME cfg ++ "/_mapping" in
         mapping_resp <- send c (Get mapping_url) ;;
         stats <- lift (json_or_error stats_resp) ;;
         mapping <- lift (json_or_error mapping_resp) ;;
         ret (JDict [("stats", stats); ("mapping", mapping)]))
    (fun e =>
       print ("Error getting index info: " ++ str_exn e) ;;
       ret (JDict [("error", JStr (str_exn e))])).

Definition test_opensearch_connection : A bool :=
  try_except
    (if negb (Eff.env_truthy (Eff.OPENSEARCH_ENDPOINT cfg))
     then print "❌ OpenSearch endpoint not configured" ;; ret false
     else
       has_credentials <- session_get_credentials c ;;
       if negb has_credentials
       then print "❌ Unable to get AWS credentials" ;; ret false
       else
         let url := "https://" ++ endpoint ++ "/_cluster/health" in
         response <- send c (Get url) ;;
         if Eff.ok response
         then
           health <- lift (Eff.json_body response) ;;
           print "✅ OpenSearch connection successful!" ;;
           print ("   Endpoint: " ++ endpoint) ;;
           status <- lift (get health "status" (JStr "unknown")) ;;
           print ("   Cluster status: " ++ str rt status) ;;
           nodes <- lift (get health "number_of_nodes" (JInt 0)) ;;
           print ("   Number of nodes: " ++ str rt nodes) ;;
           ret true
         else
           print ("❌ OpenSearch connection failed: "
                  ++ str_Z (Eff.status_code response) ++ " "
                  ++ Eff.text response) ;;
           ret false)
    (fun e =>
       print ("❌ OpenSearch connection error: " ++ str_exn e) ;;
       ret false).

End Client.
End OpensearchAdmin.

(* ===================================================================== *)
(** ** Concrete runtimes, configurations and worlds *)
(* ===================================================================== *)

Module Scenario.
Import Py Eff.

(** A runtime that prints the values met in the scenarios below. *)
Definition demo_runtime : runtime := {|
  repr := fun v =>
            match v with
            | JNull => "None"
            | JBool true => "True"
            | JBool false => "False"
            | JInt z => str_Z z
            | _ => "<object>"
            end;
  format_3f := fun v =>
                 match v with
                 | JInt z => Some (str_Z z ++ ".000")
                 | _ => None
                 end;
  render_template := fun snippets => "Summarize the snippets." ++ nl ++ snippets
|}.

Definition demo_config : config := {|
  OPENSEARCH_ENDPOINT := Some "search.example.com";
  WEBSOCKET_API_ENDPOINT := Some "https://ws.example.com";
  MODEL_ID := "amazon.titan-embed-text-v1";
  AWS_REGION := "us-east-1";
  INDEX_NAME := "semantic-search-index";
  LLM_MODEL_ID := "amazon.titan-text-lite-v1"
|}.

(** The same process with no push endpoint configured. *)
Definition quiet_config : config := {|
  OPENSEARCH_ENDPOINT := Some "search.example.com";
  WEBSOCKET_API_ENDPOINT := None;
  MODEL_ID := "amazon.titan-embed-text-v1";
  AWS_REGION := "us-east-1";
  INDEX_NAME := "semantic-search-index";
  LLM_MODEL_ID := "amazon.titan-text-lite-v1"
|}.

(** A world that gives the same answers whatever happened before: one
    answer for the embedding model, one for any other model, one for the
    search cluster, one for the push channel. *)
Definition scripted_world (embed llm : result json)
  (search : result http_response) (push : result unit) : world := {|
  get_credentials := fun _ => true;
  invoke_model := fun _ _ model_id _ =>
                    if String.prefix "amazon.titan-embed" model_id
                    then embed else llm;
  requests_post := fun _ _ _ => search;
  post_to_connection := fun _ _ _ => push
|}.

Definition http_ok (body : json) : http_response := {|
  ok := true; status_code := 200; text := ""; json_body := Ok body
|}.

Definition http_error (code : Z) (message : string) : http_response := {|
  ok := false; status_code := code; text := message;
  json_body := Raise (Exception "Expecting value")
|}.

Definition embedding_body : json :=
  JDict [("embedding", JList [JInt 1; JInt 0; JInt 0])].

Definition search_body (hits : list json) : json :=
  JDict [("hits", JDict [("hits", JList hits)])].

Definition hit (title : string) (label : string) (score : Z) : json :=
  JDict [("_score", JInt score);
         ("_source", JDict [("title", JStr title);
                            ("summary", JStr ("About " ++ title));
                            ("content", JStr title);
                            ("sentiment_label", JStr label);
                            ("sentiment_score", JInt 1);
                            ("category", JStr "news")])].

Definition two_hits : list json :=
  [hit "Good day" "POSITIVE" 2; hit "Bad day" "NEGATIVE" 1].

(** Everything answers. *)
Definition healthy_world (hits : list json) : world :=
  scripted_world (Ok embedding_body)
    (Ok (JDict [("results", JList [JDict [("outputText", JStr "A summary.")]])]))
    (Ok (http_ok (search_body hits))) (Ok tt).

(** The embedding model is unreachable and the client has gone away. *)
Definition broken_world : world :=
  scripted_world (Raise (Exception "model unavailable"))
    (Raise (Exception "model unavailable"))
    (Ok (http_error 503 "unavailable")) (Raise (GoneException "410")).

(** The model answers, the search cluster refuses. *)
Definition search_down_world : world :=
  scripted_world (Ok embedding_body) (Raise (Exception "model unavailable"))
    (Ok (http_error 503 "unavailable")) (Raise (Exception "timeout")).

(** What the formatter makes of [two_hits]. *)
Definition two_results : list json :=
  [JDict [("title", JStr "Good day");
          ("summary", JStr "About Good day");
          ("content", JStr "Good day");
          ("score", JInt 2);
          ("sentiment", JDict [("label", JStr "POSITIVE");
                               ("score", JInt 1)]);
          ("category", JStr "news")];
   JDict [("title", JStr "Bad day");
          ("summary", JStr "About Bad day");
          ("content", JStr "Bad day");
          ("score", JInt 1);
          ("sentiment", JDict [("label", JStr "NEGATIVE");
                               ("score", JInt 1)]);
          ("category", JStr "news")]].


(** The model answers, but its answer carries no vector. *)
Definition no_vector_world : world :=
  scripted_world (Ok (JDict [("inputTextTokenCount", JInt 1)]))
    (Raise (Exception "model unavailable"))
    (Ok (http_ok (search_body []))) (Ok tt).

(** A bulk response in which the second item was rejected. *)
Definition bulk_response_with_error : json :=
  JDict [("errors", JBool true);
         ("items",
          JList [JDict [("index", JDict [("_id", JStr "1");
                                         ("status", JInt 201)])];
                 JDict [("index",
                         JDict [("_id", JStr "2");
                                ("status", JInt 400);
                                ("error",
                                 JDict [("type",
                                         JStr "mapper_parsing_exception")])])]])].

Definition bulk_response_clean : json :=
  JDict [("errors", JBool false);
         ("items",
          JList [JDict [("index", JDict [("_id", JStr "1");
                                         ("status", JInt 201)])]])].

Definition bulk_world (body : json) : world :=
  scripted_world (Ok embedding_body) (Raise (Exception "model unavailable"))
    (Ok (http_ok body)) (Ok tt).



(** A hit with a summary whose [content] is [null]. *)
Definition null_content_hit : json :=
  JDict [("_score", JInt 2);
         ("_source", JDict [("title", JStr "Good day");
                            ("summary", JStr "About Good day");
                            ("content", JNull)])].

Definition post (body : json) : App.request :=
  {| App.method := "POST"; App.json := body |}.

Definition hello_body : list (string * json) :=
  [("query", JStr "hello"); ("connection_id", JStr "abc")].

End Scenario.

(* ===================================================================== *)
(** ** app.py: the parts of the message *)
(* ===================================================================== *)

Module AppMessage.
Import Py Eff App.

(** Lines 227-253 of app.py: [response_parts] as it stands just before
    ['\n'.join(response_parts)]. *)
Definition response_parts (rt : runtime) (query_text : Py.json)
  (results : list Py.json) : result (list string) :=
  positive_results <~ select_label "POSITIVE" results ;;
  negative_results <~ select_label "NEGATIVE" results ;;
  let parts0 :=
    ["Found " ++ str_nat (length results) ++ " results for " ++ dquote
     ++ str rt query_text ++ dquote ++ nl] in
  parts1 <~ (if truthy (JList positive_results)
             then append_sentiment_items rt 1 (firstn 3 positive_results)
                    (append parts0 "**Positive Sentiment Results:**")
             else Ok parts0) ;;
  parts2 <~ (if truthy (JList negative_results)
             then append_sentiment_items rt 1 (firstn 3 negative_results)
                    (append parts1 "**Negative Sentiment Results:**")
             else Ok parts1) ;;
  parts3 <~ (if negb (truthy (JList positive_results))
                && negb (truthy (JList negative_results))
             then append_top_items rt 1 (firstn 5 results)
                    (append parts2 "**Top Results:**")
             else Ok parts2) ;;
  Ok parts3.

End AppMessage.

(* ===================================================================== *)
(** ** Notions of the specification *)
(* ===================================================================== *)

Module Spec.
Import Py Eff.

(** A request body lacks field [k]: there is no body, or the body is an
    object without the key. *)
Definition missing_field (k : string) (body : json) : Prop :=
  body = JNull \/ exists d, body = JDict d /\ lookup k d = None.

(** A request body does not give field [k]: it is not an object with
    that key.  Every JSON value that is not an object lacks every field. *)
Definition lacks_field (k : string) (body : json) : Prop :=
  forall d, body = JDict d -> lookup k d = None.

Definition is_gone (e : exn) : bool :=
  match e with GoneException _ => true | _ => false end.

Definition or_default (o : option json) (default : json) : json :=
  match o with Some v => v | None => default end.

(** The [_source] object of a raw hit (empty when the hit has none). *)
Definition source_of (hit : json) : list (string * json) :=
  match get hit "_source" (JDict []) with
  | Ok (JDict src) => src
  | _ => []
  end.

Definition content_text (src : list (string * json)) : string :=
  match lookup "content" src with
  | Some (JStr c) => c
  | _ => ""
  end.

(** A raw hit as the search service returns it: an object whose
    [_source], when present, is an object, and whose [content], when
    present, is a string. *)
Definition well_formed_hit (hit : json) : Prop :=
  exists h,
    hit = JDict h /\
    (lookup "_source" h = None
     \/ exists src, lookup "_source" h = Some (JDict src)) /\
    (lookup "content" (source_of hit) = None
     \/ exists c, lookup "content" (source_of hit) = Some (JStr c)).

(** The result record of section 4.3: source fields copied through,
    with the stated defaults. *)
Definition formatted (hit : json) : json :=
  let src := source_of hit in
  JDict [("title", or_default (lookup "title" src) (JStr "Untitled"));
         ("summary",
          or_default (lookup "summary" src)
            (JStr (String.substring 0 200 (content_text src) ++ "...")));
         ("content", or_default (lookup "content" src) (JStr ""));
         ("score",
          match get hit "_score" (JInt 0) with
          | Ok v => v
          | Raise _ => JInt 0
          end);
         ("sentiment",
          JDict [("label",
                  or_default (lookup "sentiment_label" src) (JStr "Unknown"));
                 ("score",
                  or_default (lookup "sentiment_score" src) (JInt 0))]);
         ("category", or_default (lookup "category" src) (JStr "Unknown"))].

(** [r[k]], [None] when there is no such entry. *)
Definition field (r : json) (k : string) : json :=
  match getitem r k with
  | Ok v => v
  | Raise _ => JNull
  end.

(** A formatted result: an output of the formatter. *)
Definition is_formatted (r : json) : Prop :=
  exists hit, App.format_hit hit = Ok r.

(** Both scores of a result can be printed with three decimals. *)
Definition printable (rt : runtime) (r : json) : Prop :=
  (exists s, format_3f rt (field r "score") = Some s) /\
  (exists s, format_3f rt (field (field r "sentiment") "score") = Some s).

Definition label_is (label : string) (r : json) : bool :=
  eq_str (field (field r "sentiment") "label") label.

Definition three_decimals (rt : runtime) (v : json) : string :=
  match format_3f rt v with Some s => s | None => "" end.

(** The three lines of item number [i]; a sentiment section also shows
    the sentiment score. *)
Definition item_lines (rt : runtime) (with_sentiment : bool) (i : nat)
  (r : json) : list string :=
  [str_nat i ++ ". **" ++ str rt (field r "title") ++ "**";
   "   " ++ str rt (field r "summary");
   if with_sentiment
   then "   Score: " ++ three_decimals rt (field r "score")
        ++ " | Sentiment: "
        ++ three_decimals rt (field (field r "sentiment") "score") ++ nl
   else "   Score: " ++ three_decimals rt (field r "score") ++ nl].

Fixpoint numbered (rt : runtime) (with_sentiment : bool) (i : nat)
  (items : list json) : list string :=
  match items with
  | [] => []
  | r :: items' =>
      (item_lines rt with_sentiment i r
       ++ numbered rt with_sentiment (S i) items')%list
  end.

(** A section is a header line followed by its items; it is left out
    when [shown] is false. *)
Definition section (shown : bool) (header : string) (lines : list string)
  : list string :=
  if shown then header :: lines else [].

Definition nonempty {A} (l : list A) : bool :=
  match l with [] => false | _ :: _ => true end.

Definition found_line (rt : runtime) (query_text : json) (n : nat) : string :=
  "Found " ++ str_nat n ++ " results for " ++ dquote ++ str rt query_text
  ++ dquote ++ nl.

(** The message of the [search_complete] notification as section 4.6
    describes it: results grouped by sentiment, at most 3 per group, and
    a flat listing of the first 5 when neither group has a member. *)
Definition message_parts (rt : runtime) (query_text : json)
  (results : list json) : list string :=
  let positive := filter (label_is "POSITIVE") results in
  let negative := filter (label_is "NEGATIVE") results in
  (found_line rt query_text (length results)
   :: section (nonempty positive) "**Positive Sentiment Results:**"
        (numbered rt true 1 (firstn 3 positive))
   ++ section (nonempty negative) "**Negative Sentiment Results:**"
        (numbered rt true 1 (firstn 3 negative))
   ++ section (negb (nonempty positive) && negb (nonempty negative))
        "**Top Results:**" (numbered rt false 1 (firstn 5 results)))%list.


(** An item of a bulk response reports an error for its index action. *)
Definition carries_error (item : json) : Prop :=
  exists d e x,
    item = JDict d /\
    lookup "index" d = Some (JDict e) /\
    lookup "error" e = Some x.

(** The format spec [.3f] accepts the value. *)
Definition can_print (rt : runtime) (v : json) : bool :=
  match format_3f rt v with Some _ => true | None => false end.

(** The scores the message prints for a listed item: the relevance
    score, and in a sentiment section the sentiment score as well. *)
Definition item_printable (rt : runtime) (with_sentiment : bool) (r : json)
  : bool :=
  can_print rt (field r "score")
  && (negb with_sentiment
      || can_print rt (field (field r "sentiment") "score")).

(** Every score the message has to print can be printed: those of the
    first 3 results of each sentiment group, and those of the first 5
    results when both groups are empty. *)
Definition listed_printable (rt : runtime) (results : list json) : bool :=
  let positive := filter (label_is "POSITIVE") results in
  let negative := filter (label_is "NEGATIVE") results in
  forallb (item_printable rt true) (firstn 3 positive)
  && forallb (item_printable rt true) (firstn 3 negative)
  && (if negb (nonempty positive) && negb (nonempty negative)
      then forallb (item_printable rt false) (firstn 5 results)
      else true).


(** The payloads handed to the push channel, oldest first. *)
Definition notification (e : event) : list json :=
  match e with
  | PostToConnection _ data => [data]
  | _ => []
  end.

Definition notifications (t : trace) : list json := flat_map notification t.

(** The payload's [status] is [s]. *)
Definition has_status (s : string) (data : json) : bool :=
  match getitem data "status" with
  | Ok v => eq_str v s
  | Raise _ => false
  end.

(** A computation that sends nothing over the push channel. *)
Definition quiet {A} (c : M A) : Prop :=
  forall t r t', c t = (r, t') -> notifications t' = notifications t.

(** The search cluster answers with a success status and no hit. *)
Definition zero_hits (answer : result http_response) : Prop :=
  exists response body outer hits,
    answer = Ok response /\
    ok response = true /\
    json_body response = Ok body /\
    get body "hits" (JDict []) = Ok outer /\
    get outer "hits" (JList []) = Ok hits /\
    truthy hits = false.

(** The embedding step or the search step of the search flow raises. *)
Definition upstream_failure (cfg : config) (w : world) (query_text : json)
  (t : trace) : Prop :=
  (exists e, fst (App.get_bedrock_embedding cfg w query_text t) = Raise e)
  \/
  (exists embedding t1 e,
      App.get_bedrock_embedding cfg w query_text t = (Ok embedding, t1) /\
      truthy embedding = true /\
      fst (App.search_opensearch_by_embedding cfg w embedding 10 t1)
        = Raise e).

End Spec.

(* ===================================================================== *)
(** ** Properties of app.py *)
(* ===================================================================== *)

Module AppProps.
Import Py Eff App AppMessage Spec.

(** Runs one step of a handler: names the answer of the computation under
    the next [match]. *)
Ltac step_run r t :=
  match goal with
  | |- context [match ?c ?t0 with pair _ _ => _ end] =>
      destruct (c t0) as [r t] eqn:?
  end.

Section Facts.

Variable rt : runtime.
Variable cfg : config.
Variable w : world.

Lemma perform_semantic_search_returns (query_text : Py.json) (t : trace) :
  exists results t',
    perform_semantic_search cfg w query_text t = (Ok results, t').
Proof.
  unfold perform_semantic_search, try_except.
  step_run r t1. destruct r as [results | e].
  - exists results, t1. reflexivity.
  - eexists. eexists. reflexivity.
Qed.

Lemma send_websocket_message_returns (connection_id data : Py.json)
  (t : trace) :
  exists t', send_websocket_message rt cfg w connection_id data t = (Ok tt, t').
Proof.
  unfold send_websocket_message.
  destruct (apigw_management_client cfg); simpl.
  - unfold try_except, bind, call_post_to_connection.
    destruct (post_to_connection w t connection_id data) as [[] | e].
    + eexists. reflexivity.
    + destruct e; eexists; reflexivity.
  - eexists. reflexivity.
Qed.

(** The 200 path of [/search]: a body that is an object with a [query]
    entry always reaches the final [jsonify]. *)
Lemma search_endpoint_with_query (req : request) d (q : Py.json) (t : trace) :
  String.eqb (method req) "OPTIONS" = false ->
  json req = JDict d ->
  lookup "query" d = Some q ->
  exists results t1 t',
    perform_semantic_search cfg w q t = (Ok results, t1) /\
    search_endpoint rt cfg w req t =
      (Ok (JDict [("query", q);
                  ("results", JList results);
                  ("total_results", JInt (Z.of_nat (length results)))],
           200), t').
Proof.
  intros Hm Hb Hq.
  destruct (perform_semantic_search_returns q t) as (results & t1 & Hs).
  unfold search_endpoint. rewrite Hm, Hb.
  assert (Ht : truthy (JDict d) = true).
  { destruct d; [discriminate Hq | reflexivity]. }
  unfold try_except, bind, lift, ret.
  rewrite Ht. cbn [negb contains rbind getitem get].
  rewrite Hq. cbn [negb]. rewrite Hs.
  destruct (truthy _ && apigw_management_client cfg).
  - match goal with
    | |- context [send_websocket_message rt cfg w ?c ?m ?t0] =>
        destruct (send_websocket_message_returns c m t0) as (t2 & Hw)
    end.
    rewrite Hw. eauto.
  - eauto.
Qed.

(** Only the last [return] of the view answers 200. *)
Lemma search_endpoint_200_shape (req : request) (t t' : trace) resp :
  search_endpoint rt cfg w req t = (Ok (resp, 200), t') ->
  exists q results,
    resp = JDict [("query", q);
                  ("results", JList results);
                  ("total_results", JInt (Z.of_nat (length results)))].
Proof.
  unfold search_endpoint.
  destruct (String.eqb (method req) "OPTIONS"); [discriminate |].
  unfold try_except, bind, lift, ret.
  destruct (if negb (truthy (json req)) then _ else _) as [[|] | e];
    try discriminate.
  destruct (getitem (json req) "query") as [q | e]; try discriminate.
  destruct (get (json req) "connection_id" JNull) as [c | e];
    try discriminate.
  destruct (perform_semantic_search_returns q t) as (results & t1 & Hs).
  rewrite Hs.
  destruct (truthy c && apigw_management_client cfg).
  - match goal with
    | |- context [send_websocket_message rt cfg w ?c ?m ?t0] =>
        destruct (send_websocket_message_returns c m t0) as (t2 & Hw)
    end.
    rewrite Hw. intros H. inversion H. eauto.
  - intros H. inversion H. eauto.
Qed.

End Facts.

(** C1.  A [POST /search] whose body is an object with a [query] entry
    (empty or not) is answered 200 with an object whose [results] is a list
    and whose [total_results] is the length of that list; and whatever the
    request, a 200 answer of the view has that shape. *)
Theorem search_endpoint_total_results (rt : runtime) (cfg : config)
  (w : world) (req : request) (t : trace) :
  (forall d q,
      method req = "POST" ->
      json req = JDict d ->
      lookup "query" d = Some q ->
      exists results t',
        search_endpoint rt cfg w req t =
          (Ok (JDict [("query", q);
                      ("results", JList results);
                      ("total_results", JInt (Z.of_nat (length results)))],
               200), t')) /\
  (forall resp t',
      search_endpoint rt cfg w req t = (Ok (resp, 200), t') ->
      exists results,
        getitem resp "results" = Ok (JList results) /\
        getitem resp "total_results" = Ok (JInt (Z.of_nat (length results)))).
Proof.
  split.
  - intros d q Hm Hb Hq.
    destruct (search_endpoint_with_query rt cfg w req d q t)
      as (results & t1 & t' & _ & H); auto.
    + rewrite Hm. reflexivity.
    + eauto.
  - intros resp t' H.
    destruct (search_endpoint_200_shape rt cfg w req t t' resp H)
      as (q & results & ->).
    exists results. split; reflexivity.
Qed.

Lemma search_endpoint_total_results_witness :
  (exists results t',
      search_endpoint Scenario.demo_runtime Scenario.demo_config
        (Scenario.healthy_world Scenario.two_hits)
        (Scenario.post (JDict Scenario.hello_body)) [] =
        (Ok (JDict [("query", JStr "hello");
                    ("results", JList results);
                    ("total_results", JInt (Z.of_nat (length results)))],
             200), t')) /\
  (exists results,
      getitem (JDict [("query", JStr "hello");
                      ("results", JList []);
                      ("total_results", JInt 0)]) "results"
        = Ok (JList results) /\
      getitem (JDict [("query", JStr "hello");
                      ("results", JList []);
                      ("total_results", JInt 0)]) "total_results"
        = Ok (JInt (Z.of_nat (length results)))).
Proof.
  split.
  - apply (proj1 (search_endpoint_total_results
                    Scenario.demo_runtime Scenario.demo_config
                    (Scenario.healthy_world Scenario.two_hits)
                    (Scenario.post (JDict Scenario.hello_body)) [])
             Scenario.hello_body (JStr "hello"));
      reflexivity.
  - apply (proj2 (search_endpoint_total_results
                    Scenario.demo_runtime Scenario.demo_config
                    Scenario.broken_world
                    (Scenario.post (JDict Scenario.hello_body)) [])
             _ ([InvokeModel "us-east-1" "amazon.titan-embed-text-v1"
                   (JDict [("inputText", JStr "hello")]);
                 Stdout "Error getting Bedrock embedding: model unavailable";
                 Stdout "Error in semantic search: model unavailable";
                 StdoutTraceback;
                 PostToConnection (JStr "abc")
                   (JDict [("message", JStr "Search results for: hello");
                           ("results", JList []);
                           ("query", JStr "hello")]);
                 Stdout "Connection abc is gone."])).
    vm_compute. reflexivity.
Defined.

(** The answer to a body without the field, when the body is absent or
    an object. *)
Lemma missing_field_answers_400 (rt : runtime) (cfg : config)
  (w : world) (req : request) (t : trace) :
  method req = "POST" ->
  (missing_field "query" (json req) ->
   search_endpoint rt cfg w req t =
     (Ok (jsonify_error "Missing query in request body.", 400), t)) /\
  (missing_field "query" (json req)
   \/ missing_field "connection_id" (json req) ->
   process_search_endpoint rt cfg w req t =
     (Ok (jsonify_error "Missing query or connection_id in request body.",
          400), t)).
Proof.
  intros Hm.
  assert (He : String.eqb (method req) "OPTIONS" = false)
    by (rewrite Hm; reflexivity).
  split.
  - intros Hq.
    unfold search_endpoint. rewrite He.
    destruct Hq as [-> | (d & -> & Hq)]; [reflexivity |].
    unfold try_except, bind, lift, ret.
    destruct d; [reflexivity |].
    cbn [truthy negb contains rbind]. rewrite Hq. reflexivity.
  - intros Hq.
    unfold process_search_endpoint. rewrite He.
    destruct Hq as [[-> | (d & -> & Hq)] | [-> | (d & -> & Hq)]];
      try reflexivity;
      unfold try_except, bind, lift, ret;
      (destruct d; [reflexivity |]);
      cbn [truthy negb contains rbind].
    + rewrite Hq. reflexivity.
    + destruct (lookup "query" _); cbn [negb rbind contains].
      * rewrite Hq. reflexivity.
      * reflexivity.
Qed.

(** A body that is not an object leaves the trace as it was, in both
    views. *)
Lemma non_object_body_trace (rt : runtime) (cfg : config) (w : world)
  (req : request) (t : trace) :
  method req = "POST" ->
  (forall d, json req <> JDict d) ->
  snd (search_endpoint rt cfg w req t) = t /\
  snd (process_search_endpoint rt cfg w req t) = t.
Proof.
  intros Hm Hd.
  unfold search_endpoint, process_search_endpoint. rewrite Hm.
  cbn [String.eqb Ascii.eqb Bool.eqb].
  unfold try_except, bind, lift, ret.
  destruct (json req) as [| b | z | f | s | l | d] eqn:E;
    [| | | | | | exfalso; exact (Hd d eq_refl)];
    cbn [contains getitem rbind].
  - split; reflexivity.
  - destruct b; split; reflexivity.
  - destruct (truthy (JInt z)); split; reflexivity.
  - destruct (truthy (JFloat f)); split; reflexivity.
  - destruct (truthy (JStr s)); cbn [negb]; [| split; reflexivity].
    destruct (is_substring "query" s); cbn [negb rbind];
      [| split; reflexivity].
    destruct (is_substring "connection_id" s); split; reflexivity.
  - destruct (truthy (JList l)); cbn [negb]; [| split; reflexivity].
    destruct (existsb (fun x => eq_str x "query") l); cbn [negb rbind];
      [| split; reflexivity].
    destruct (existsb (fun x => eq_str x "connection_id") l);
      split; reflexivity.
Qed.

(** C2, as stated, fails: the body [5] has no [query] and no
    [connection_id], and both views answer it 500, not 400 (the membership
    test raises and the handler of the view catches it).  No outbound call
    is made. *)
Lemma number_body_is_answered_500 :
  lacks_field "query" (JInt 5) /\
  lacks_field "connection_id" (JInt 5) /\
  (exists resp,
      search_endpoint Scenario.demo_runtime Scenario.demo_config
        (Scenario.healthy_world Scenario.two_hits) (Scenario.post (JInt 5)) []
        = (Ok (resp, 500), [])) /\
  (exists resp,
      process_search_endpoint Scenario.demo_runtime Scenario.demo_config
        (Scenario.healthy_world Scenario.two_hits) (Scenario.post (JInt 5)) []
        = (Ok (resp, 500), [])) /\
  ~ (forall body : Py.json,
        lacks_field "query" body ->
        exists resp t',
          search_endpoint Scenario.demo_runtime Scenario.demo_config
            (Scenario.healthy_world Scenario.two_hits) (Scenario.post body) []
            = (Ok (resp, 400), t')).
Proof.
  split; [intros d H; discriminate H |].
  split; [intros d H; discriminate H |].
  split; [eexists; reflexivity |].
  split; [eexists; reflexivity |].
  intros H.
  destruct (H (JInt 5)) as (resp & t' & E).
  - intros d Hd. discriminate Hd.
  - discriminate E.
Qed.

(** C2, amended.  A [POST /search] whose body is absent or is an object
    without [query], and a [POST /process-search] whose body is absent or
    is an object without [query] or without [connection_id], is answered
    400.  And for every body that does not give the field, object or not,
    the trace after the handler is the trace before it: no embedding,
    search, notification or text-generation call was made (nor anything
    printed). *)
Theorem missing_field_400_no_outbound_call (rt : runtime) (cfg : config)
  (w : world) (req : request) (t : trace) :
  method req = "POST" ->
  (missing_field "query" (json req) ->
   search_endpoint rt cfg w req t =
     (Ok (jsonify_error "Missing query in request body.", 400), t) /\
   outbound (snd (search_endpoint rt cfg w req t)) = outbound t) /\
  (missing_field "query" (json req)
   \/ missing_field "connection_id" (json req) ->
   process_search_endpoint rt cfg w req t =
     (Ok (jsonify_error "Missing query or connection_id in request body.",
          400), t) /\
   outbound (snd (process_search_endpoint rt cfg w req t)) = outbound t) /\
  (lacks_field "query" (json req) ->
   snd (search_endpoint rt cfg w req t) = t) /\
  (lacks_field "query" (json req) \/ lacks_field "connection_id" (json req) ->
   snd (process_search_endpoint rt cfg w req t) = t).
Proof.
  intros Hm.
  destruct (missing_field_answers_400 rt cfg w req t Hm) as (Hs & Hp).
  split; [| split; [| split]].
  - intros Hq. rewrite (Hs Hq). split; reflexivity.
  - intros Hq. rewrite (Hp Hq). split; reflexivity.
  - intros Hl.
    destruct (json req) as [| b | z | f | s | l | d] eqn:E;
      try (rewrite <- E in *;
           apply (non_object_body_trace rt cfg w req t Hm);
           intros d' Hd; rewrite E in Hd; discriminate Hd).
    rewrite <- E in Hs. rewrite Hs; [reflexivity |].
    right. exists d. split; [exact E | exact (Hl d eq_refl)].
  - intros Hl.
    destruct (json req) as [| b | z | f | s | l | d] eqn:E;
      try (rewrite <- E in *;
           apply (non_object_body_trace rt cfg w req t Hm);
           intros d' Hd; rewrite E in Hd; discriminate Hd).
    rewrite <- E in Hp. rewrite Hp; [reflexivity |].
    destruct Hl as [Hl | Hl].
    + left. right. exists d. split; [exact E | exact (Hl d eq_refl)].
    + right. right. exists d. split; [exact E | exact (Hl d eq_refl)].
Qed.

Lemma missing_field_400_no_outbound_call_witness :
  (search_endpoint Scenario.demo_runtime Scenario.demo_config
     (Scenario.healthy_world Scenario.two_hits)
     (Scenario.post (JDict [("connection_id", JStr "abc")])) [] =
     (Ok (jsonify_error "Missing query in request body.", 400), []) /\
   outbound (snd (search_endpoint Scenario.demo_runtime Scenario.demo_config
                    (Scenario.healthy_world Scenario.two_hits)
                    (Scenario.post (JDict [("connection_id", JStr "abc")]))
                    [])) = outbound []) /\
  (process_search_endpoint Scenario.demo_runtime Scenario.demo_config
     (Scenario.healthy_world Scenario.two_hits)
     (Scenario.post (JDict [("query", JStr "hello")])) [] =
     (Ok (jsonify_error "Missing query or connection_id in request body.",
          400), []) /\
   outbound (snd (process_search_endpoint Scenario.demo_runtime
                    Scenario.demo_config
                    (Scenario.healthy_world Scenario.two_hits)
                    (Scenario.post (JDict [("query", JStr "hello")]))
                    [])) = outbound []) /\
  snd (search_endpoint Scenario.demo_runtime Scenario.demo_config
         (Scenario.healthy_world Scenario.two_hits)
         (Scenario.post (JStr "my query")) []) = [] /\
  snd (process_search_endpoint Scenario.demo_runtime Scenario.demo_config
         (Scenario.healthy_world Scenario.two_hits)
         (Scenario.post (JInt 5)) []) = [].
Proof.
  split; [| split; [| split]].
  - apply (proj1 (missing_field_400_no_outbound_call
                    Scenario.demo_runtime Scenario.demo_config
                    (Scenario.healthy_world Scenario.two_hits)
                    (Scenario.post (JDict [("connection_id", JStr "abc")]))
                    [] eq_refl)).
    right. exists [("connection_id", JStr "abc")].
    split; reflexivity.
  - apply (proj1 (proj2 (missing_field_400_no_outbound_call
                           Scenario.demo_runtime Scenario.demo_config
                           (Scenario.healthy_world Scenario.two_hits)
                           (Scenario.post (JDict [("query", JStr "hello")]))
                           [] eq_refl))).
    right. right. exists [("query", JStr "hello")].
    split; reflexivity.
  - apply (proj1 (proj2 (proj2 (missing_field_400_no_outbound_call
                                  Scenario.demo_runtime Scenario.demo_config
                                  (Scenario.healthy_world Scenario.two_hits)
                                  (Scenario.post (JStr "my query"))
                                  [] eq_refl)))).
    intros d H. discriminate H.
  - apply (proj2 (proj2 (proj2 (missing_field_400_no_outbound_call
                                  Scenario.demo_runtime Scenario.demo_config
                                  (Scenario.healthy_world Scenario.two_hits)
                                  (Scenario.post (JInt 5))
                                  [] eq_refl)))).
    left. intros d H. discriminate H.
Defined.

(** C5.  The notification sender returns normally for every connection id
    and payload, whatever the push channel answers.  When the channel
    reports the destination as gone, the sender prints one line and
    returns; on any other delivery error it prints the error and the
    traceback and returns. *)
Theorem send_websocket_message_swallows (rt : runtime) (cfg : config)
  (w : world) (connection_id data : Py.json) (t : trace) :
  (exists t',
      send_websocket_message rt cfg w connection_id data t = (Ok tt, t')) /\
  (forall e,
      apigw_management_client cfg = true ->
      post_to_connection w t connection_id data = Raise e ->
      send_websocket_message rt cfg w connection_id data t =
        (Ok tt,
         if is_gone e
         then t ++ [PostToConnection connection_id data;
                    Stdout ("Connection " ++ str rt connection_id
                            ++ " is gone.")]
         else t ++ [PostToConnection connection_id data;
                    Stdout ("Error sending WebSocket message to "
                            ++ str rt connection_id ++ ": " ++ str_exn e);
                    StdoutTraceback])%list).
Proof.
  split.
  - apply send_websocket_message_returns.
  - intros e Hc He. unfold send_websocket_message. rewrite Hc.
    cbn [negb]. unfold try_except, bind, call_post_to_connection.
    rewrite He.
    destruct e; cbn [is_gone]; unfold print, print_traceback, emit, append;
      rewrite <- ?app_assoc; reflexivity.
Qed.

(** C4, amended.  The formatter is a function of the raw hit alone (it
    lives in [result], not in [M]: no event, no call).  On every hit that
    is an object whose [_source], when present, is an object and whose
    [content], when present, is a string (a well-formed hit), it
    returns the record of the specification: source fields copied through,
    ["Untitled"] for a missing title, the first 200 characters of the
    content followed by ["..."] for a missing summary, ["Unknown"] and [0]
    for a missing sentiment label and score.  In particular a hit without
    [sentiment_label] is formatted without error. *)
Theorem format_hit_defaults (hit : Py.json) :
  well_formed_hit hit ->
  format_hit hit = Ok (formatted hit) /\
  (lookup "title" (source_of hit) = None ->
   field (formatted hit) "title" = JStr "Untitled") /\
  (lookup "summary" (source_of hit) = None ->
   field (formatted hit) "summary" =
     JStr (String.substring 0 200 (content_text (source_of hit)) ++ "...")) /\
  (lookup "sentiment_label" (source_of hit) = None ->
   field (field (formatted hit) "sentiment") "label" = JStr "Unknown") /\
  (lookup "sentiment_score" (source_of hit) = None ->
   field (field (formatted hit) "sentiment") "score" = JInt 0) /\
  (forall k v,
      In k ["title"; "summary"; "content"; "category"] ->
      lookup k (source_of hit) = Some v ->
      field (formatted hit) k = v) /\
  (forall v,
      lookup "sentiment_label" (source_of hit) = Some v ->
      field (field (formatted hit) "sentiment") "label" = v) /\
  (forall v,
      lookup "sentiment_score" (source_of hit) = Some v ->
      field (field (formatted hit) "sentiment") "score" = v).
Proof.
  intros (h & -> & Hsrc & Hcontent).
  split.
  - unfold format_hit, formatted, content_text.
    destruct Hsrc as [Hs | (src & Hs)];
      unfold source_of in *; cbn [get rbind] in *; rewrite Hs in *.
    + reflexivity.
    + cbn [get rbind].
      destruct Hcontent as [Hc | (c & Hc)]; rewrite Hc; reflexivity.
  - unfold formatted, field. cbn [getitem lookup String.eqb Ascii.eqb Bool.eqb].
    repeat split.
    + intros ->. reflexivity.
    + intros ->. reflexivity.
    + intros ->. reflexivity.
    + intros ->. reflexivity.
    + intros k v Hk Hv.
      destruct Hk as [<- | [<- | [<- | [<- | []]]]];
        cbn [lookup String.eqb Ascii.eqb Bool.eqb]; rewrite Hv; reflexivity.
    + intros v ->. reflexivity.
    + intros v ->. reflexivity.
Qed.

Lemma format_hit_defaults_witness :
  format_hit (JDict [("_score", JInt 2);
                     ("_source", JDict [("content", JStr "Some text")])]) =
    Ok (JDict [("title", JStr "Untitled");
               ("summary", JStr "Some text...");
               ("content", JStr "Some text");
               ("score", JInt 2);
               ("sentiment", JDict [("label", JStr "Unknown");
                                    ("score", JInt 0)]);
               ("category", JStr "Unknown")]).
Proof.
  apply (proj1 (format_hit_defaults
                  (JDict [("_score", JInt 2);
                          ("_source", JDict [("content", JStr "Some text")])])
                  (ex_intro _ [("_score", JInt 2);
                               ("_source",
                                JDict [("content", JStr "Some text")])]
                     (conj eq_refl
                        (conj (or_intror
                                 (ex_intro _ [("content", JStr "Some text")]
                                    eq_refl))
                              (or_intror
                                 (ex_intro _ "Some text" eq_refl))))))).
Defined.

(** The default of the summary is computed before the lookup: a hit whose
    [content] is not a string is rejected even when it has a summary. *)
Example format_hit_content_null :
  format_hit (JDict [("_source", JDict [("summary", JStr "s");
                                        ("content", JNull)])]) =
    Raise (TypeError "'NoneType' object is not subscriptable").
Proof. reflexivity. Qed.

(** C4, as stated, fails: a hit without [sentiment_label], with a
    summary, and whose [content] is [null] is not formatted.  The fallback
    of the summary is computed first, the slice of [None] raises, and the
    search flow returns the empty list. *)
Lemma format_hit_rejects_null_content :
  lookup "sentiment_label" (source_of Scenario.null_content_hit) = None /\
  lookup "summary" (source_of Scenario.null_content_hit)
    = Some (JStr "About Good day") /\
  (exists e, format_hit Scenario.null_content_hit = Raise e) /\
  ~ (exists r, format_hit Scenario.null_content_hit = Ok r) /\
  fst (perform_semantic_search Scenario.demo_config
         (Scenario.healthy_world [Scenario.null_content_hit])
         (JStr "hello") []) = Ok [].
Proof.
  split; [reflexivity |].
  split; [reflexivity |].
  split; [eexists; reflexivity |].
  split; [intros (r & H); discriminate H | reflexivity].
Qed.

(** C10.  [perform_semantic_search] returns a list for every query and in
    every world; it returns the empty list when the embedding step raises
    and when the search step raises; and then [POST /search] with a
    [query] answers 200 with no result and [total_results] 0. *)
Theorem perform_semantic_search_total (rt : runtime) (cfg : config)
  (w : world) (query_text : Py.json) (t : trace) :
  (exists results t',
      perform_semantic_search cfg w query_text t = (Ok results, t')) /\
  (upstream_failure cfg w query_text t ->
   fst (perform_semantic_search cfg w query_text t) = Ok []) /\
  (forall req d,
      method req = "POST" ->
      json req = JDict d ->
      lookup "query" d = Some query_text ->
      upstream_failure cfg w query_text t ->
      fst (search_endpoint rt cfg w req t) =
        Ok (JDict [("query", query_text);
                   ("results", JList []);
                   ("total_results", JInt 0)], 200)).
Proof.
  assert (Hfail : upstream_failure cfg w query_text t ->
                  fst (perform_semantic_search cfg w query_text t) = Ok []).
  { intros [(e & He) | (embedding & t1 & e & Hemb & Htr & He)];
      unfold perform_semantic_search, try_except, bind.
    - destruct (get_bedrock_embedding cfg w query_text t) as [[v | e'] t1];
        simpl in He; [discriminate | reflexivity].
    - rewrite Hemb, Htr. cbn [negb].
      destruct (search_opensearch_by_embedding cfg w embedding 10 t1)
        as [[v | e'] t2]; simpl in He; [discriminate | reflexivity]. }
  split; [apply perform_semantic_search_returns |].
  split; [exact Hfail |].
  intros req d Hm Hb Hq Hup.
  destruct (search_endpoint_with_query rt cfg w req d query_text t)
    as (results & t1 & t' & Hs & H); auto.
  { rewrite Hm. reflexivity. }
  specialize (Hfail Hup). rewrite Hs in Hfail. simpl in Hfail.
  injection Hfail as ->. rewrite H. reflexivity.
Qed.

Lemma perform_semantic_search_total_witness :
  fst (perform_semantic_search Scenario.demo_config Scenario.search_down_world
         (JStr "hello") []) = Ok [] /\
  fst (search_endpoint Scenario.demo_runtime Scenario.demo_config
         Scenario.broken_world (Scenario.post (JDict Scenario.hello_body)) [])
    = Ok (JDict [("query", JStr "hello");
                 ("results", JList []);
                 ("total_results", JInt 0)], 200).
Proof.
  split.
  - apply (proj1 (proj2 (perform_semantic_search_total
                           Scenario.demo_runtime Scenario.demo_config
                           Scenario.search_down_world (JStr "hello") []))).
    right. eexists. eexists. eexists.
    split; [reflexivity | split; reflexivity].
  - apply (proj2 (proj2 (perform_semantic_search_total
                           Scenario.demo_runtime Scenario.demo_config
                           Scenario.broken_world (JStr "hello") []))
             (Scenario.post (JDict Scenario.hello_body))
             Scenario.hello_body);
      try reflexivity.
    left. eexists. reflexivity.
Defined.

Lemma send_websocket_message_swallows_witness :
  send_websocket_message Scenario.demo_runtime Scenario.demo_config
    Scenario.broken_world (JStr "abc") (JDict [("status", JStr "processing")])
    [] =
    (Ok tt,
     [PostToConnection (JStr "abc") (JDict [("status", JStr "processing")]);
      Stdout "Connection abc is gone."]).
Proof.
  apply (proj2 (send_websocket_message_swallows
                  Scenario.demo_runtime Scenario.demo_config
                  Scenario.broken_world (JStr "abc")
                  (JDict [("status", JStr "processing")]) [])
           (GoneException "410"));
    reflexivity.
Defined.

(** *** What reaches the push channel *)

Section Notifications.

Variable rt : runtime.
Variable cfg : config.
Variable w : world.

Lemma notifications_append (t : trace) (e : event) :
  notifications (append t e) = (notifications t ++ notification e)%list.
Proof.
  unfold notifications, append. rewrite flat_map_app. simpl.
  rewrite app_nil_r. reflexivity.
Qed.

Lemma quiet_ret {A} (a : A) : quiet (ret a).
Proof. intros t r t' H. inversion H. reflexivity. Qed.

Lemma quiet_raise {A} (e : exn) : quiet (@raise A e).
Proof. intros t r t' H. inversion H. reflexivity. Qed.

Lemma quiet_lift {A} (x : result A) : quiet (lift x).
Proof. intros t r t' H. inversion H. reflexivity. Qed.

Lemma quiet_print (line : string) : quiet (print line).
Proof.
  intros t r t' H. inversion H. rewrite notifications_append.
  apply app_nil_r.
Qed.

Lemma quiet_print_traceback : quiet print_traceback.
Proof.
  intros t r t' H. inversion H. rewrite notifications_append.
  apply app_nil_r.
Qed.

Lemma quiet_session_get_credentials : quiet (session_get_credentials w).
Proof. intros t r t' H. inversion H. reflexivity. Qed.

Lemma quiet_call_invoke_model region model_id body :
  quiet (call_invoke_model w region model_id body).
Proof.
  intros t r t' H. inversion H. rewrite notifications_append.
  apply app_nil_r.
Qed.

Lemma quiet_call_requests_post url lines :
  quiet (call_requests_post w url lines).
Proof.
  intros t r t' H. inversion H. rewrite notifications_append.
  apply app_nil_r.
Qed.

Lemma quiet_bind {A B} (c : M A) (k : A -> M B) :
  quiet c -> (forall a, quiet (k a)) -> quiet (bind c k).
Proof.
  intros Hc Hk t r t' H. unfold bind in H.
  destruct (c t) as [[a | e] t1] eqn:E.
  - rewrite (Hk a _ _ _ H). exact (Hc _ _ _ E).
  - inversion H; subst. exact (Hc _ _ _ E).
Qed.

Lemma quiet_try_except {A} (c : M A) (h : exn -> M A) :
  quiet c -> (forall e, quiet (h e)) -> quiet (try_except c h).
Proof.
  intros Hc Hh t r t' H. unfold try_except in H.
  destruct (c t) as [[a | e] t1] eqn:E.
  - inversion H; subst. exact (Hc _ _ _ E).
  - rewrite (Hh e _ _ _ H). exact (Hc _ _ _ E).
Qed.

Lemma quiet_if {A} (b : bool) (c1 c2 : M A) :
  quiet c1 -> quiet c2 -> quiet (if b then c1 else c2).
Proof. destruct b; auto. Qed.

Ltac quiet_steps :=
  repeat first
    [ assumption | apply quiet_try_except | apply quiet_bind | apply quiet_if
    | apply quiet_ret | apply quiet_raise | apply quiet_lift
    | apply quiet_print | apply quiet_print_traceback
    | apply quiet_session_get_credentials
    | apply quiet_call_invoke_model | apply quiet_call_requests_post
    | match goal with |- forall _, _ => intro end ].

Lemma get_bedrock_embedding_quiet text :
  quiet (get_bedrock_embedding cfg w text).
Proof. unfold get_bedrock_embedding. quiet_steps. Qed.

Lemma search_opensearch_by_embedding_quiet embedding k :
  quiet (search_opensearch_by_embedding cfg w embedding k).
Proof. unfold search_opensearch_by_embedding. quiet_steps. Qed.

(** The search flow never touches the push channel. *)
Lemma perform_semantic_search_quiet query_text :
  quiet (perform_semantic_search cfg w query_text).
Proof.
  unfold perform_semantic_search.
  pose proof get_bedrock_embedding_quiet.
  pose proof search_opensearch_by_embedding_quiet.
  quiet_steps; auto.
Qed.

(** With a push endpoint configured, one call of the sender is one
    delivery attempt, whatever its outcome. *)
Lemma send_websocket_message_notifies connection_id data t :
  apigw_management_client cfg = true ->
  exists t',
    send_websocket_message rt cfg w connection_id data t = (Ok tt, t') /\
    notifications t' = (notifications t ++ [data])%list.
Proof.
  intros Hc. unfold send_websocket_message. rewrite Hc. cbn [negb].
  unfold try_except, bind, call_post_to_connection.
  destruct (post_to_connection w t connection_id data) as [[] | e].
  - eexists. split; [reflexivity |].
    unfold print, emit. rewrite !notifications_append. simpl.
    rewrite app_nil_r. reflexivity.
  - destruct e; eexists; (split; [reflexivity |]);
      unfold print, print_traceback, emit, bind;
      rewrite !notifications_append; simpl;
      rewrite ?app_nil_r; reflexivity.
Qed.

(** A search cluster without hits makes the search flow return no
    result, whatever the embedding model does. *)
Lemma perform_semantic_search_zero_hits query_text t :
  (forall t0 url lines, zero_hits (requests_post w t0 url lines)) ->
  fst (perform_semantic_search cfg w query_text t) = Ok [].
Proof.
  intros Hz. unfold perform_semantic_search, try_except, bind.
  destruct (get_bedrock_embedding cfg w query_text t) as [[emb | e] t1];
    [| reflexivity].
  destruct (truthy emb); [| reflexivity]. cbn [negb].
  unfold search_opensearch_by_embedding, try_except, bind, raise.
  destruct (env_truthy (OPENSEARCH_ENDPOINT cfg)); [| reflexivity].
  cbn [negb]. unfold session_get_credentials.
  destruct (get_credentials w t1); [| reflexivity]. cbn [negb].
  unfold call_requests_post.
  match goal with
  | |- context [requests_post w ?t0 ?u ?l] =>
      destruct (Hz t0 u l)
        as (resp & body & outer & hits & -> & Hok & Hb & Ho & Hh & Hf)
  end.
  rewrite Hok. cbn [negb]. unfold lift. rewrite Hb, Ho, Hh, Hf.
  reflexivity.
Qed.

(** The two payloads of a search without result. *)
Definition processing_payload (query_text : Py.json) : Py.json :=
  JDict [("status", JStr "processing");
         ("message", JStr ("Processing semantic search for: "
                           ++ str rt query_text))].

Definition no_results_payload (query_text : Py.json) : Py.json :=
  JDict [("status", JStr "no_results");
         ("message", JStr ("No results found for '" ++ str rt query_text
                           ++ "'. Try rephrasing your query."));
         ("results", JList []);
         ("query", query_text)].

Lemma process_semantic_search_no_results query_text connection_id t :
  apigw_management_client cfg = true ->
  (forall t0 url lines, zero_hits (requests_post w t0 url lines)) ->
  exists t',
    process_semantic_search rt cfg w query_text connection_id t =
      (Ok (JDict [("status", JStr "no_results");
                  ("message", JStr "No results found")]), t') /\
    notifications t' =
      (notifications t ++ [processing_payload query_text;
                           no_results_payload query_text])%list.
Proof.
  intros Hc Hz. unfold process_semantic_search, try_except, bind.
  destruct (send_websocket_message_notifies connection_id
              (processing_payload query_text) t Hc) as (t1 & Hs1 & Hn1).
  unfold processing_payload in Hs1. rewrite Hs1.
  pose proof (perform_semantic_search_zero_hits query_text t1 Hz) as Hp.
  destruct (perform_semantic_search cfg w query_text t1) as [r t2] eqn:E.
  simpl in Hp. subst r. cbn [truthy negb].
  destruct (send_websocket_message_notifies connection_id
              (no_results_payload query_text) t2 Hc) as (t3 & Hs3 & Hn3).
  unfold no_results_payload in Hs3. rewrite Hs3.
  exists t3. split; [reflexivity |].
  rewrite Hn3, (perform_semantic_search_quiet query_text _ _ _ E), Hn1.
  rewrite <- app_assoc. reflexivity.
Qed.

End Notifications.

(** C7.  With a push endpoint configured and a search cluster that
    answers without hits, [POST /process-search] with a [query] and a
    [connection_id] is answered 202 and the background flow hands two
    payloads to the push channel, the [processing] notice and then the
    [no_results] notification: exactly one of them has status
    [no_results]. *)
Theorem process_search_no_results_once (rt : runtime) (cfg : config)
  (w : world) (req : request) d (query_text connection_id : Py.json)
  (t : trace) :
  method req = "POST" ->
  json req = JDict d ->
  lookup "query" d = Some query_text ->
  lookup "connection_id" d = Some connection_id ->
  apigw_management_client cfg = true ->
  (forall t0 url lines, zero_hits (requests_post w t0 url lines)) ->
  exists resp t' sent,
    process_search_endpoint rt cfg w req t = (Ok (resp, 202), t') /\
    notifications t' = (notifications t ++ sent)%list /\
    sent = [processing_payload rt query_text;
            no_results_payload rt query_text] /\
    length (filter (has_status "no_results") sent) = 1.
Proof.
  intros Hm Hb Hq Hi Hc Hz.
  destruct (process_semantic_search_no_results rt cfg w query_text
              connection_id t Hc Hz) as (t' & Hp & Hn).
  unfold process_search_endpoint. rewrite Hm, Hb.
  cbn [String.eqb Ascii.eqb Bool.eqb].
  assert (Ht : truthy (JDict d) = true).
  { destruct d; [discriminate Hq | reflexivity]. }
  unfold try_except, bind, lift, ret.
  rewrite Ht. cbn [negb contains rbind getitem]. rewrite Hq.
  cbn [negb rbind]. rewrite Hi. cbn [negb]. rewrite Hp.
  eexists. exists t'. eexists.
  split; [reflexivity |]. split; [exact Hn |].
  split; reflexivity.
Qed.

Lemma process_search_no_results_once_witness :
  exists resp t' sent,
    process_search_endpoint Scenario.demo_runtime Scenario.demo_config
      (Scenario.healthy_world []) (Scenario.post (JDict Scenario.hello_body))
      [] = (Ok (resp, 202), t') /\
    notifications t' = (notifications [] ++ sent)%list /\
    sent = [processing_payload Scenario.demo_runtime (JStr "hello");
            no_results_payload Scenario.demo_runtime (JStr "hello")] /\
    length (filter (has_status "no_results") sent) = 1.
Proof.
  apply (process_search_no_results_once
           Scenario.demo_runtime Scenario.demo_config
           (Scenario.healthy_world [])
           (Scenario.post (JDict Scenario.hello_body))
           Scenario.hello_body (JStr "hello") (JStr "abc") []);
    try reflexivity.
  intros t0 url lines.
  exists (Scenario.http_ok (Scenario.search_body [])).
  exists (Scenario.search_body []).
  exists (JDict [("hits", JList [])]). exists (JList []).
  repeat split; reflexivity.
Defined.

(** *** The message of the background flow *)

Section Message.

Variable rt : runtime.

(** What the formatter builds is a record with the six entries. *)
Definition shaped (r : Py.json) : Prop :=
  exists title summary content score label sentiment_score category,
    r = JDict [("title", title);
               ("summary", summary);
               ("content", content);
               ("score", score);
               ("sentiment", JDict [("label", label);
                                    ("score", sentiment_score)]);
               ("category", category)].

Lemma format_hit_shaped hit r : format_hit hit = Ok r -> shaped r.
Proof.
  unfold format_hit, rbind. intros H.
  repeat match type of H with
         | match ?x with Ok _ => _ | Raise _ => _ end = _ =>
             destruct x; [| discriminate H]
         end.
  injection H as <-. unfold shaped. do 7 eexists. reflexivity.
Qed.

Lemma is_formatted_shaped results :
  Forall is_formatted results -> Forall shaped results.
Proof.
  intros H. eapply Forall_impl; [| exact H].
  intros r (hit & Hr). eapply format_hit_shaped. exact Hr.
Qed.

Lemma Forall_filter_keep {A} (P : A -> Prop) f (l : list A) :
  Forall P l -> Forall P (filter f l).
Proof.
  induction 1 as [| x l Hx Hl IH]; simpl; [constructor |].
  destruct (f x); [constructor |]; assumption.
Qed.

Lemma Forall_firstn_keep {A} (P : A -> Prop) n (l : list A) :
  Forall P l -> Forall P (firstn n l).
Proof.
  intros H. revert n.
  induction H as [| x l Hx Hl IH]; intros [| n]; simpl; constructor; auto.
Qed.

Lemma select_label_filter label results :
  Forall shaped results ->
  select_label label results = Ok (filter (label_is label) results).
Proof.
  induction 1 as [| r results Hr Hrs IH]; [reflexivity |].
  destruct Hr as (ti & su & co & sc & la & ss & ca & ->).
  cbn [select_label]. cbn [getitem lookup String.eqb Ascii.eqb Bool.eqb rbind].
  rewrite IH. reflexivity.
Qed.

Lemma append_sentiment_items_numbered items :
  Forall shaped items -> Forall (printable rt) items ->
  forall i parts,
    append_sentiment_items rt i items parts =
      Ok (parts ++ numbered rt true i items)%list.
Proof.
  induction 1 as [| r items Hr Hrs IH]; intros Hp i parts.
  - simpl. rewrite app_nil_r. reflexivity.
  - inversion Hp as [| ? ? [(s1 & H1) (s2 & H2)] Hp']; subst.
    destruct Hr as (ti & su & co & sc & la & ss & ca & ->).
    unfold field in H1, H2.
    cbn [getitem lookup String.eqb Ascii.eqb Bool.eqb] in H1, H2.
    cbn [append_sentiment_items].
    cbn [getitem lookup String.eqb Ascii.eqb Bool.eqb rbind].
    unfold fmt3. rewrite H1. cbn [rbind]. rewrite H2. cbn [rbind].
    rewrite (IH Hp'). unfold append.
    cbn [numbered]. unfold item_lines, three_decimals, field.
    cbn [getitem lookup String.eqb Ascii.eqb Bool.eqb].
    rewrite H1, H2. rewrite <- !app_assoc. reflexivity.
Qed.

Lemma append_top_items_numbered items :
  Forall shaped items -> Forall (printable rt) items ->
  forall i parts,
    append_top_items rt i items parts =
      Ok (parts ++ numbered rt false i items)%list.
Proof.
  induction 1 as [| r items Hr Hrs IH]; intros Hp i parts.
  - simpl. rewrite app_nil_r. reflexivity.
  - inversion Hp as [| ? ? [(s1 & H1) _] Hp']; subst.
    destruct Hr as (ti & su & co & sc & la & ss & ca & ->).
    unfold field in H1.
    cbn [getitem lookup String.eqb Ascii.eqb Bool.eqb] in H1.
    cbn [append_top_items].
    cbn [getitem lookup String.eqb Ascii.eqb Bool.eqb rbind].
    unfold fmt3. rewrite H1. cbn [rbind].
    rewrite (IH Hp'). unfold append.
    cbn [numbered]. unfold item_lines, three_decimals, field.
    cbn [getitem lookup String.eqb Ascii.eqb Bool.eqb].
    rewrite H1. rewrite <- !app_assoc. reflexivity.
Qed.

(** The loops of [compose_message] build the sections of
    [message_parts]. *)
Lemma compose_message_parts query_text results :
  Forall shaped results -> Forall (printable rt) results ->
  compose_message rt query_text results =
    Ok (join_lines (message_parts rt query_text results)).
Proof.
  intros Hs Hp. unfold compose_message, message_parts.
  rewrite !select_label_filter by assumption. cbn [rbind].
  set (pos := filter (label_is "POSITIVE") results).
  set (neg := filter (label_is "NEGATIVE") results).
  change (truthy (JList pos)) with (nonempty pos).
  change (truthy (JList neg)) with (nonempty neg).
  fold (found_line rt query_text (length results)).
  assert (Hpos : forall i parts,
             append_sentiment_items rt i (firstn 3 pos) parts =
               Ok (parts ++ numbered rt true i (firstn 3 pos))%list).
  { apply append_sentiment_items_numbered;
      apply Forall_firstn_keep, Forall_filter_keep; assumption. }
  assert (Hneg : forall i parts,
             append_sentiment_items rt i (firstn 3 neg) parts =
               Ok (parts ++ numbered rt true i (firstn 3 neg))%list).
  { apply append_sentiment_items_numbered;
      apply Forall_firstn_keep, Forall_filter_keep; assumption. }
  assert (Htop : forall i parts,
             append_top_items rt i (firstn 5 results) parts =
               Ok (parts ++ numbered rt false i (firstn 5 results))%list).
  { apply append_top_items_numbered;
      apply Forall_firstn_keep; assumption. }
  destruct (nonempty pos), (nonempty neg);
    rewrite ?Hpos, ?Hneg, ?Htop; cbn [rbind negb andb];
    rewrite ?Hpos, ?Hneg, ?Htop; cbn [rbind];
    unfold section, append; f_equal; f_equal;
    rewrite <- ?app_assoc; cbn [app]; rewrite ?app_nil_r;
    reflexivity.
Qed.

Lemma label_is_other a b r :
  label_is a r = true -> String.eqb a b = false -> label_is b r = false.
Proof.
  unfold label_is, eq_str.
  destruct (field (field r "sentiment") "label"); try discriminate.
  intros H Hab. apply String.eqb_eq in H. subst. exact Hab.
Qed.

(** Two results, one of each sentiment: one section each, one item each. *)
Lemma compose_message_two query_text results rp rn :
  Forall shaped results -> Forall (printable rt) results ->
  results = [rp; rn] \/ results = [rn; rp] ->
  label_is "POSITIVE" rp = true ->
  label_is "NEGATIVE" rn = true ->
  compose_message rt query_text results =
    Ok (join_lines
          ([found_line rt query_text 2; "**Positive Sentiment Results:**"]
           ++ item_lines rt true 1 rp
           ++ ["**Negative Sentiment Results:**"]
           ++ item_lines rt true 1 rn)%list).
Proof.
  intros Hs Hp Hr Hpos Hneg.
  rewrite compose_message_parts by assumption.
  pose proof (label_is_other _ "NEGATIVE" _ Hpos eq_refl) as Hpn.
  pose proof (label_is_other _ "POSITIVE" _ Hneg eq_refl) as Hnp.
  unfold message_parts.
  destruct Hr as [-> | ->]; cbn [filter];
    rewrite Hpos, Hneg, Hpn, Hnp; cbn [nonempty negb andb section firstn];
    cbn [numbered length]; rewrite !app_nil_r; reflexivity.
Qed.

Lemma format_hits_shaped hits :
  forall formatted_results results,
    Forall shaped formatted_results ->
    format_hits hits formatted_results = Ok results ->
    Forall shaped results.
Proof.
  induction hits as [| hit hits IH]; intros acc results Hacc H.
  - injection H as <-. exact Hacc.
  - cbn [format_hits] in H. unfold rbind in H.
    destruct (format_hit hit) as [r |] eqn:E; [| discriminate H].
    eapply IH; [| exact H]. unfold append.
    apply Forall_app. split; [exact Hacc |].
    constructor; [| constructor]. eapply format_hit_shaped. exact E.
Qed.

Lemma perform_semantic_search_shaped cfg w query_text t results t' :
  perform_semantic_search cfg w query_text t = (Ok results, t') ->
  Forall shaped results.
Proof.
  unfold perform_semantic_search, try_except. intros H.
  destruct (bind _ _ t) as [[a | e] t0] eqn:E.
  - injection H as -> ->. revert E. unfold bind, lift, ret.
    destruct (get_bedrock_embedding cfg w query_text t) as [[emb | e] t1];
      [| discriminate].
    destruct (truthy emb); cbn [negb];
      [| intros E; injection E as <- _; constructor].
    destruct (search_opensearch_by_embedding cfg w emb 10 t1)
      as [[found | e] t2]; [| discriminate].
    destruct (get found "hits" (JDict [])) as [outer | e]; [| discriminate].
    destruct (get outer "hits" (JList [])) as [hits | e]; [| discriminate].
    destruct (truthy hits); cbn [negb];
      [| intros E; injection E as <- _; constructor].
    destruct (iter hits) as [hit_list | e]; [| discriminate].
    destruct (format_hits hit_list []) as [rs | e] eqn:F; [| discriminate].
    intros E. injection E as <- _.
    eapply format_hits_shaped; [| exact F]. constructor.
  - injection H as <- _. constructor.
Qed.

Definition search_complete_payload (query_text : Py.json)
  (results : list Py.json) : Py.json :=
  JDict [("status", JStr "search_complete");
         ("message", JStr (join_lines (message_parts rt query_text results)));
         ("results", JList results);
         ("query", query_text);
         ("total_results", JInt (Z.of_nat (length results)))].

Lemma process_semantic_search_complete cfg w query_text connection_id
  results t t0 t1 :
  apigw_management_client cfg = true ->
  send_websocket_message rt cfg w connection_id
    (processing_payload rt query_text) t = (Ok tt, t0) ->
  perform_semantic_search cfg w query_text t0 = (Ok results, t1) ->
  results <> [] ->
  Forall (printable rt) results ->
  exists t',
    process_semantic_search rt cfg w query_text connection_id t =
      (Ok (JDict [("status", JStr "success");
                  ("message", JStr "Search completed successfully")]), t') /\
    notifications t' =
      (notifications t ++ [processing_payload rt query_text;
                           search_complete_payload query_text results])%list.
Proof.
  intros Hc Hs Hp Hne Hpr.
  pose proof (perform_semantic_search_shaped _ _ _ _ _ _ Hp) as Hsh.
  unfold process_semantic_search, try_except, bind.
  unfold processing_payload in Hs. rewrite Hs, Hp.
  destruct results as [| r results']; [contradiction Hne; reflexivity |].
  cbn [truthy negb]. unfold lift.
  rewrite (compose_message_parts query_text _ Hsh Hpr).
  destruct (send_websocket_message_notifies rt cfg w connection_id
              (search_complete_payload query_text (r :: results')) t1 Hc)
    as (t3 & Hs3 & Hn3).
  unfold search_complete_payload in Hs3. rewrite Hs3.
  exists t3. split; [reflexivity |].
  rewrite Hn3, (perform_semantic_search_quiet cfg w query_text _ _ _ Hp).
  destruct (send_websocket_message_notifies rt cfg w connection_id
              (processing_payload rt query_text) t Hc) as (t0' & Hs0 & Hn0).
  unfold processing_payload in Hs0. rewrite Hs in Hs0.
  injection Hs0 as <-. rewrite Hn0, <- app_assoc. reflexivity.
Qed.

End Message.

(** *** The scores the message has to print *)

Section Listed.

Variable rt : runtime.

Lemma item_printable_printable r :
  item_printable rt true r = true -> printable rt r.
Proof.
  unfold item_printable, printable, can_print. cbn [negb orb].
  destruct (format_3f rt (field r "score")) as [s1 |]; [| discriminate].
  destruct (format_3f rt (field (field r "sentiment") "score")) as [s2 |];
    [| discriminate].
  intros _. split; eexists; reflexivity.
Qed.

Lemma forallb_printable items :
  forallb (item_printable rt true) items = true ->
  Forall (printable rt) items.
Proof.
  induction items as [| r items IH]; cbn [forallb]; [constructor |].
  intros H. apply andb_true_iff in H. destruct H as [Hr Hi].
  constructor; [apply item_printable_printable; exact Hr | exact (IH Hi)].
Qed.

Lemma append_sentiment_items_listed items :
  Forall shaped items ->
  forallb (item_printable rt true) items = true ->
  forall i parts,
    append_sentiment_items rt i items parts =
      Ok (parts ++ numbered rt true i items)%list.
Proof.
  intros Hs Hp.
  apply (append_sentiment_items_numbered rt items Hs (forallb_printable _ Hp)).
Qed.

Lemma append_top_items_listed items :
  Forall shaped items ->
  forallb (item_printable rt false) items = true ->
  forall i parts,
    append_top_items rt i items parts =
      Ok (parts ++ numbered rt false i items)%list.
Proof.
  induction 1 as [| r items Hr Hrs IH]; intros Hp i parts.
  - simpl. rewrite app_nil_r. reflexivity.
  - cbn [forallb] in Hp. apply andb_true_iff in Hp. destruct Hp as [Hh Hp].
    destruct Hr as (ti & su & co & sc & la & ss & ca & ->).
    unfold item_printable, can_print, field in Hh.
    cbn [getitem lookup String.eqb Ascii.eqb Bool.eqb negb orb] in Hh.
    destruct (format_3f rt sc) as [s1 |] eqn:H1; [| discriminate Hh].
    cbn [append_top_items].
    cbn [getitem lookup String.eqb Ascii.eqb Bool.eqb rbind].
    unfold fmt3. rewrite H1. cbn [rbind].
    rewrite (IH Hp). unfold append.
    cbn [numbered]. unfold item_lines, three_decimals, field.
    cbn [getitem lookup String.eqb Ascii.eqb Bool.eqb].
    rewrite H1. rewrite <- !app_assoc. reflexivity.
Qed.



(** The message is the join of the parts. *)
Lemma compose_message_response_parts query_text results :
  compose_message rt query_text results =
    (parts <~ response_parts rt query_text results ;; Ok (join_lines parts)).
Proof.
  unfold compose_message, response_parts, rbind.
  destruct (select_label "POSITIVE" results) as [pos |]; [| reflexivity].
  destruct (select_label "NEGATIVE" results) as [neg |]; [| reflexivity].
  destruct (if truthy (JList pos) then _ else _) as [p1 |]; [| reflexivity].
  destruct (if truthy (JList neg) then _ else _) as [p2 |]; [| reflexivity].
  destruct (if negb (truthy (JList pos)) && negb (truthy (JList neg))
            then _ else _) as [p3 |]; reflexivity.
Qed.

(** The loops build the sections of [message_parts] as soon as the
    scores of the listed items can be printed. *)
Lemma response_parts_listed query_text results :
  Forall shaped results ->
  listed_printable rt results = true ->
  response_parts rt query_text results =
    Ok (message_parts rt query_text results).
Proof.
  intros Hs Hl. unfold response_parts, message_parts.
  rewrite !select_label_filter by assumption. cbn [rbind].
  unfold listed_printable in Hl.
  set (pos := filter (label_is "POSITIVE") results) in *.
  set (neg := filter (label_is "NEGATIVE") results) in *.
  change (truthy (JList pos)) with (nonempty pos).
  change (truthy (JList neg)) with (nonempty neg).
  fold (found_line rt query_text (length results)).
  apply andb_true_iff in Hl. destruct Hl as [Hl Htop].
  apply andb_true_iff in Hl. destruct Hl as [Hpos Hneg].
  assert (Spos : Forall shaped (firstn 3 pos))
    by (apply Forall_firstn_keep, Forall_filter_keep; assumption).
  assert (Sneg : Forall shaped (firstn 3 neg))
    by (apply Forall_firstn_keep, Forall_filter_keep; assumption).
  assert (Stop : Forall shaped (firstn 5 results))
    by (apply Forall_firstn_keep; assumption).
  destruct (nonempty pos), (nonempty neg); cbn [negb andb] in Htop |- *;
    cbn [rbind];
    rewrite ?(append_sentiment_items_listed _ Spos Hpos); cbn [rbind];
    rewrite ?(append_sentiment_items_listed _ Sneg Hneg); cbn [rbind];
    try rewrite (append_top_items_listed _ Stop Htop); cbn [rbind];
    unfold section, append; f_equal;
    rewrite <- ?app_assoc; cbn [app]; rewrite ?app_nil_r;
    reflexivity.
Qed.

Lemma compose_message_listed query_text results :
  Forall shaped results ->
  listed_printable rt results = true ->
  compose_message rt query_text results =
    Ok (join_lines (message_parts rt query_text results)).
Proof.
  intros Hs Hl. rewrite compose_message_response_parts.
  rewrite (response_parts_listed query_text results Hs Hl). reflexivity.
Qed.






End Listed.



Lemma two_results_printable :
  Forall (printable Scenario.demo_runtime) Scenario.two_results.
Proof.
  repeat constructor; eexists; reflexivity.
Defined.

Lemma two_results_formatted : Forall is_formatted Scenario.two_results.
Proof.
  constructor; [| constructor; [| constructor]].
  - exists (Scenario.hit "Good day" "POSITIVE" 2). reflexivity.
  - exists (Scenario.hit "Bad day" "NEGATIVE" 1). reflexivity.
Defined.


End AppProps.

(* ===================================================================== *)
(** ** Properties of the embedding client *)
(* ===================================================================== *)

Module EmbeddingProps.
Import Py Eff Spec.

(** C3, as stated, fails: when the model call succeeds and the answer
    has no [embedding], neither client raises.  Both return [None]. *)
Lemma embedding_without_vector_is_not_an_error :
  invoke_model Scenario.no_vector_world [] "us-east-1"
    "amazon.titan-embed-text-v1" (JDict [("inputText", JStr "hello")])
    = Ok (JDict [("inputTextTokenCount", JInt 1)]) /\
  fst (App.get_bedrock_embedding Scenario.demo_config
         Scenario.no_vector_world (JStr "hello") []) = Ok JNull /\
  fst (BedrockEmbeddings.get_bedrock_embedding Scenario.no_vector_world
         (JStr "hello") "amazon.titan-embed-text-v1" "us-east-1" [])
    = Ok JNull /\
  ~ (forall (w : world) (text : json) (t : trace) body,
        invoke_model w t "us-east-1" "amazon.titan-embed-text-v1"
          (JDict [("inputText", text)]) = Ok body ->
        get body "embedding" JNull = Ok JNull ->
        (exists e,
            fst (App.get_bedrock_embedding Scenario.demo_config w text t)
              = Raise e) /\
        (exists e,
            fst (BedrockEmbeddings.get_bedrock_embedding w text
                   "amazon.titan-embed-text-v1" "us-east-1" t) = Raise e)).
Proof.
  repeat split; try reflexivity.
  intros H.
  destruct (H Scenario.no_vector_world (JStr "hello") []
              (JDict [("inputTextTokenCount", JInt 1)]) eq_refl eq_refl)
    as [(e & He) _].
  discriminate He.
Qed.

(** C3, amended.  Both embedding clients propagate the error of a failed
    model call unchanged; when the model answers with an object they
    return its [embedding] (a non-empty list is returned as it is), and
    [None], not an error, when the answer has no [embedding]. *)
Theorem embedding_client_result (cfg : config) (w : world) (text : json)
  (t : trace) :
  let answer :=
    invoke_model w t (AWS_REGION cfg) (MODEL_ID cfg)
      (JDict [("inputText", text)]) in
  let app := fst (App.get_bedrock_embedding cfg w text t) in
  let lib :=
    fst (BedrockEmbeddings.get_bedrock_embedding w text
           (MODEL_ID cfg) (AWS_REGION cfg) t) in
  (forall e, answer = Raise e -> app = Raise e /\ lib = Raise e) /\
  (forall d x l,
      answer = Ok (JDict d) ->
      lookup "embedding" d = Some (JList (x :: l)) ->
      app = Ok (JList (x :: l)) /\ lib = Ok (JList (x :: l))) /\
  (forall d,
      answer = Ok (JDict d) ->
      lookup "embedding" d = None ->
      app = Ok JNull /\ lib = Ok JNull).
Proof.
  cbv zeta.
  unfold App.get_bedrock_embedding, BedrockEmbeddings.get_bedrock_embedding,
    try_except, bind, call_invoke_model, lift.
  repeat split; intros; rewrite H; cbn [get fst]; rewrite ?H0; reflexivity.
Qed.

Lemma embedding_client_result_witness :
  fst (App.get_bedrock_embedding Scenario.demo_config
         Scenario.no_vector_world (JStr "hello") []) = Ok JNull /\
  fst (BedrockEmbeddings.get_bedrock_embedding Scenario.no_vector_world
         (JStr "hello") "amazon.titan-embed-text-v1" "us-east-1" [])
    = Ok JNull.
Proof.
  apply (proj2 (proj2 (embedding_client_result Scenario.demo_config
                         Scenario.no_vector_world (JStr "hello") []))
           [("inputTextTokenCount", JInt 1)]);
    reflexivity.
Defined.

End EmbeddingProps.

(* ===================================================================== *)
(** ** Properties of the summarization composer *)
(* ===================================================================== *)

Module SummarizeProps.
Import Py Eff Spec LlmSummarize.

Section Facts.

Variable rt : runtime.
Variable cfg : config.
Variable w : world.


End Facts.



End SummarizeProps.

(* ===================================================================== *)
(** ** Properties of the bulk upsert *)
(* ===================================================================== *)

Module BulkProps.
Import Py Eff Spec OpensearchClient.

(** An item that carries an error passes the filter of the code. *)
Lemma select_errors_keeps items :
  forall errors item,
    select_errors items = Ok errors ->
    In item items -> carries_error item -> In item errors.
Proof.
  induction items as [| i items IH]; intros errors item Hs Hin Hc.
  - destruct Hin.
  - cbn [select_errors] in Hs. unfold rbind in Hs.
    destruct (get i "index" (JDict [])) as [index |] eqn:Hg;
      [| discriminate Hs].
    destruct (contains "error" index) as [has |] eqn:Hh; [| discriminate Hs].
    destruct (select_errors items) as [rest |] eqn:Hr; [| discriminate Hs].
    injection Hs as <-.
    destruct Hin as [-> | Hin].
    + destruct Hc as (d & e & x & -> & Hi & He).
      cbn [get] in Hg. rewrite Hi in Hg. injection Hg as <-.
      cbn [contains] in Hh. rewrite He in Hh. injection Hh as <-.
      left. reflexivity.
    + specialize (IH rest item eq_refl Hin Hc).
      destruct has; [right |]; exact IH.
Qed.

Section Facts.

Variable cfg : config.
Variable w : world.

(** The request the code sends for [documents]. *)
Definition bulk_call (t : trace) (documents : list json)
  : result http_response :=
  requests_post w t
    ("https://" ++ env_str (OPENSEARCH_ENDPOINT cfg) ++ "/_bulk")
    (bulk_lines cfg 0 documents []).

Lemma bulk_add_documents_returns documents t :
  exists b t', bulk_add_documents cfg w documents t = (Ok b, t').
Proof.
  unfold bulk_add_documents, try_except.
  destruct (_ t) as [[b | e] t1].
  - eauto.
  - eexists. eexists. reflexivity.
Qed.

Lemma bulk_add_documents_true documents t :
  fst (bulk_add_documents cfg w documents t) = Ok true ->
  exists response result items item_list,
    bulk_call t documents = Ok response /\
    ok response = true /\
    json_body response = Ok result /\
    get result "items" (JList []) = Ok items /\
    iter items = Ok item_list /\
    forall item, In item item_list -> ~ carries_error item.
Proof.
  unfold bulk_add_documents, bulk_call, try_except, bind, raise,
    session_get_credentials, call_requests_post, lift.
  destruct (env_truthy (OPENSEARCH_ENDPOINT cfg)); cbn [negb];
    [| discriminate].
  destruct (get_credentials w t); cbn [negb]; [| discriminate].
  destruct (requests_post w t _ _) as [response | e]; [| discriminate].
  destruct (ok response) eqn:Hok; [| discriminate].
  destruct (json_body response) as [result | e] eqn:Hj; [| discriminate].
  destruct (get result "items" (JList [])) as [items | e] eqn:Hg;
    [| discriminate].
  destruct (iter items) as [item_list | e] eqn:Hi; [| discriminate].
  destruct (select_errors item_list) as [errors | e] eqn:Hs;
    [| discriminate].
  destruct errors as [| x errors]; cbn [truthy]; [| discriminate].
  intros _. exists response, result, items, item_list.
  do 5 (split; [assumption || reflexivity |]).
  intros item Hin Hc.
  exact (select_errors_keeps _ _ _ Hs Hin Hc).
Qed.

Lemma bulk_add_documents_item_error documents t response result items
  item_list item :
  bulk_call t documents = Ok response ->
  json_body response = Ok result ->
  get result "items" (JList []) = Ok items ->
  iter items = Ok item_list ->
  In item item_list ->
  carries_error item ->
  fst (bulk_add_documents cfg w documents t) = Ok false.
Proof.
  intros Hcall Hj Hg Hi Hin Hc.
  destruct (bulk_add_documents_returns documents t) as (b & t' & Hb).
  rewrite Hb. destruct b; [| reflexivity].
  assert (Ht : fst (bulk_add_documents cfg w documents t) = Ok true)
    by (rewrite Hb; reflexivity).
  destruct (bulk_add_documents_true documents t Ht)
    as (response' & result' & items' & item_list' & Hcall' & _ & Hj' & Hg'
        & Hi' & Hno).
  rewrite Hcall in Hcall'. injection Hcall' as <-.
  rewrite Hj in Hj'. injection Hj' as <-.
  rewrite Hg in Hg'. injection Hg' as <-.
  rewrite Hi in Hi'. injection Hi' as <-.
  exfalso. exact (Hno item Hin Hc).
Qed.

End Facts.

(** C9.  The bulk upsert always reports a boolean.  It reports success
    only if the bulk request was answered with a success status and no
    item of the answer carries an error; whenever an item of the answer
    carries an error it reports failure, and so it does on an answer
    with a failure status. *)
Theorem bulk_add_documents_success (cfg : config) (w : world)
  (documents : list json) (t : trace) :
  (exists b t', bulk_add_documents cfg w documents t = (Ok b, t')) /\
  (fst (bulk_add_documents cfg w documents t) = Ok true ->
   exists response result items item_list,
     bulk_call cfg w t documents = Ok response /\
     ok response = true /\
     json_body response = Ok result /\
     get result "items" (JList []) = Ok items /\
     iter items = Ok item_list /\
     forall item, In item item_list -> ~ carries_error item) /\
  (forall response result items item_list item,
      bulk_call cfg w t documents = Ok response ->
      json_body response = Ok result ->
      get result "items" (JList []) = Ok items ->
      iter items = Ok item_list ->
      In item item_list ->
      carries_error item ->
      fst (bulk_add_documents cfg w documents t) = Ok false) /\
  (forall response,
      bulk_call cfg w t documents = Ok response ->
      ok response = false ->
      fst (bulk_add_documents cfg w documents t) = Ok false).
Proof.
  split; [apply bulk_add_documents_returns |].
  split; [apply bulk_add_documents_true |].
  split; [intros; eapply bulk_add_documents_item_error; eauto |].
  intros response Hcall Hok.
  destruct (bulk_add_documents_returns cfg w documents t) as (b & t' & Hb).
  rewrite Hb. destruct b; [| reflexivity].
  assert (Ht : fst (bulk_add_documents cfg w documents t) = Ok true)
    by (rewrite Hb; reflexivity).
  destruct (bulk_add_documents_true cfg w documents t Ht)
    as (response' & _ & _ & _ & Hcall' & Hok' & _).
  rewrite Hcall in Hcall'. injection Hcall' as <-.
  rewrite Hok in Hok'. discriminate Hok'.
Qed.

Lemma bulk_add_documents_success_witness :
  fst (bulk_add_documents Scenario.demo_config
         (Scenario.bulk_world Scenario.bulk_response_with_error)
         [JDict [("title", JStr "a")]; JDict [("title", JStr "b")]] [])
    = Ok false /\
  exists response result items item_list,
    bulk_call Scenario.demo_config
      (Scenario.bulk_world Scenario.bulk_response_clean) []
      [JDict [("title", JStr "a")]] = Ok response /\
    ok response = true /\
    json_body response = Ok result /\
    get result "items" (JList []) = Ok items /\
    iter items = Ok item_list /\
    forall item, In item item_list -> ~ carries_error item.
Proof.
  split.
  - eapply (proj1 (proj2 (proj2 (bulk_add_documents_success
                            Scenario.demo_config
                            (Scenario.bulk_world
                               Scenario.bulk_response_with_error)
                            [JDict [("title", JStr "a")];
                             JDict [("title", JStr "b")]] [])))).
    + reflexivity.
    + reflexivity.
    + reflexivity.
    + reflexivity.
    + right. left. reflexivity.
    + eexists. eexists. eexists. repeat split; reflexivity.
  - apply (proj1 (proj2 (bulk_add_documents_success
                           Scenario.demo_config
                           (Scenario.bulk_world Scenario.bulk_response_clean)
                           [JDict [("title", JStr "a")]] []))).
    reflexivity.
Defined.

End BulkProps.

(* ===================================================================== *)
(** ** Further properties of app.py *)
(* ===================================================================== *)

Module AppMore.
Import Py Eff App AppMessage Spec AppProps.

(** *** The search call *)

(** X1.  Without a search endpoint, or without AWS credentials, the search
    step of either module raises before any request is sent: the only
    thing that happens is the error line (and the traceback in
    opensearch_client.py).  Without an endpoint the credentials are not
    even looked up. *)
Theorem search_not_attempted (cfg : config) (w : world) (embedding : Py.json)
  (k : Z) (t : trace) :
  env_truthy (OPENSEARCH_ENDPOINT cfg) = false \/ get_credentials w t = false ->
  exists msg,
    (msg = (if env_truthy (OPENSEARCH_ENDPOINT cfg)
            then "Unable to get AWS credentials"
            else "OpenSearch endpoint not configured")) /\
    App.search_opensearch_by_embedding cfg w embedding k t =
      (Raise (Exception msg),
       (t ++ [Stdout ("Error searching OpenSearch: " ++ msg)])%list) /\
    OpensearchClient.search_opensearch_by_embedding cfg w embedding k t =
      (Raise (Exception msg),
       (t ++ [Stdout ("Error searching OpenSearch: " ++ msg);
              StdoutTraceback])%list).
Proof.
  intros H. eexists. split; [reflexivity |].
  unfold App.search_opensearch_by_embedding,
    OpensearchClient.search_opensearch_by_embedding,
    try_except, bind, raise, session_get_credentials, print,
    print_traceback, emit, append.
  destruct (env_truthy (OPENSEARCH_ENDPOINT cfg)); cbn [negb].
  - destruct H as [H | H]; [discriminate H |]. rewrite H. cbn [negb].
    rewrite <- app_assoc. split; reflexivity.
  - rewrite <- app_assoc. split; reflexivity.
Qed.

Lemma search_not_attempted_witness :
  exists msg,
    (msg = "Unable to get AWS credentials") /\
    App.search_opensearch_by_embedding Scenario.demo_config
      {| get_credentials := fun _ => false;
         invoke_model := fun _ _ _ _ => Ok Scenario.embedding_body;
         requests_post := fun _ _ _ => Ok (Scenario.http_ok (JDict []));
         post_to_connection := fun _ _ _ => Ok tt |}
      (JList [JInt 1]) 10 [] =
      (Raise (Exception msg),
       [Stdout ("Error searching OpenSearch: " ++ msg)]) /\
    OpensearchClient.search_opensearch_by_embedding Scenario.demo_config
      {| get_credentials := fun _ => false;
         invoke_model := fun _ _ _ _ => Ok Scenario.embedding_body;
         requests_post := fun _ _ _ => Ok (Scenario.http_ok (JDict []));
         post_to_connection := fun _ _ _ => Ok tt |}
      (JList [JInt 1]) 10 [] =
      (Raise (Exception msg),
       [Stdout ("Error searching OpenSearch: " ++ msg); StdoutTraceback]).
Proof.
  apply (search_not_attempted Scenario.demo_config
           {| get_credentials := fun _ => false;
              invoke_model := fun _ _ _ _ => Ok Scenario.embedding_body;
              requests_post := fun _ _ _ => Ok (Scenario.http_ok (JDict []));
              post_to_connection := fun _ _ _ => Ok tt |}
           (JList [JInt 1]) 10 []).
  right. reflexivity.
Defined.



(** *** The search flow *)

Section Flow.

Variable cfg : config.
Variable w : world.

Lemma format_hit_well_formed hit :
  well_formed_hit hit -> format_hit hit = Ok (formatted hit).
Proof.
  intros (h & -> & Hsrc & Hcontent).
  unfold format_hit, formatted, content_text.
  destruct Hsrc as [Hs | (src & Hs)];
    unfold source_of in *; cbn [get rbind] in *; rewrite Hs in *.
  - reflexivity.
  - cbn [get rbind].
    destruct Hcontent as [Hc | (c & Hc)]; rewrite Hc; reflexivity.
Qed.

Lemma format_hits_map hits :
  Forall well_formed_hit hits ->
  forall formatted_results,
    format_hits hits formatted_results =
      Ok (formatted_results ++ map formatted hits)%list.
Proof.
  induction 1 as [| hit hits Hh Hhs IH]; intros acc.
  - simpl. rewrite app_nil_r. reflexivity.
  - cbn [format_hits]. rewrite (format_hit_well_formed hit Hh).
    cbn [rbind]. rewrite IH. unfold append.
    rewrite <- app_assoc. reflexivity.
Qed.

Lemma format_hits_fails hits hit e :
  In hit hits -> format_hit hit = Raise e ->
  forall formatted_results,
    exists e', format_hits hits formatted_results = Raise e'.
Proof.
  induction hits as [| h hits IH]; intros Hin He acc; [destruct Hin |].
  cbn [format_hits]. unfold rbind.
  destruct (format_hit h) as [r | e0] eqn:E.
  - destruct Hin as [-> | Hin].
    + rewrite He in E. discriminate E.
    + apply IH; assumption.
  - eauto.
Qed.

(** X3.  When the embedding client returns nothing usable ([None], an
    empty list), the search flow returns the empty list at once: the trace
    is the one the embedding client left, so no search request is sent. *)
Theorem perform_semantic_search_skips_search query_text t embedding t1 :
  get_bedrock_embedding cfg w query_text t = (Ok embedding, t1) ->
  truthy embedding = false ->
  perform_semantic_search cfg w query_text t = (Ok [], t1).
Proof.
  intros He Ht. unfold perform_semantic_search, try_except, bind.
  rewrite He, Ht. reflexivity.
Qed.

(** X4.  When the embedding and the search succeed and the hits are
    well formed, the search flow returns exactly the formatted hits, in
    the order of the search answer and as many as there are hits. *)
Theorem perform_semantic_search_formats_all query_text t embedding t1
  found t2 outer hits :
  get_bedrock_embedding cfg w query_text t = (Ok embedding, t1) ->
  truthy embedding = true ->
  search_opensearch_by_embedding cfg w embedding 10 t1 = (Ok found, t2) ->
  get found "hits" (JDict []) = Ok outer ->
  get outer "hits" (JList []) = Ok (JList hits) ->
  Forall well_formed_hit hits ->
  perform_semantic_search cfg w query_text t = (Ok (map formatted hits), t2)
  /\ length (map formatted hits) = length hits.
Proof.
  intros He Ht Hs Ho Hh Hwf.
  split; [| apply length_map].
  unfold perform_semantic_search, try_except, bind, lift, ret.
  rewrite He, Ht. cbn [negb]. rewrite Hs, Ho, Hh.
  destruct hits as [| hit hits']; [reflexivity |].
  cbn [truthy negb iter]. rewrite (format_hits_map _ Hwf). reflexivity.
Qed.

(** X5.  The formatting is all or nothing: one hit that the formatter
    rejects makes the search flow return the empty list, whatever the
    other hits are. *)
Theorem perform_semantic_search_one_bad_hit query_text t embedding t1
  found t2 outer hits hit e :
  get_bedrock_embedding cfg w query_text t = (Ok embedding, t1) ->
  truthy embedding = true ->
  search_opensearch_by_embedding cfg w embedding 10 t1 = (Ok found, t2) ->
  get found "hits" (JDict []) = Ok outer ->
  get outer "hits" (JList []) = Ok (JList hits) ->
  In hit hits ->
  format_hit hit = Raise e ->
  fst (perform_semantic_search cfg w query_text t) = Ok [].
Proof.
  intros He Ht Hs Ho Hh Hin Hf.
  unfold perform_semantic_search, try_except, bind, lift, ret.
  rewrite He, Ht. cbn [negb]. rewrite Hs, Ho, Hh.
  destruct hits as [| h hits']; [destruct Hin |].
  cbn [truthy negb iter].
  destruct (format_hits_fails _ _ _ Hin Hf []) as (e' & ->).
  reflexivity.
Qed.

End Flow.

(** X27.  The formatter accepts exactly the well-formed hits: it returns
    a result if and only if the hit is an object whose [_source], when
    present, is an object and whose [content], when present, is a string,
    and the result is then the record of the specification. *)
Theorem format_hit_domain (hit : Py.json) :
  ((exists r, format_hit hit = Ok r) <-> well_formed_hit hit) /\
  (forall r, format_hit hit = Ok r -> r = formatted hit).
Proof.
  assert (Hdom : (exists r, format_hit hit = Ok r) -> well_formed_hit hit).
  { intros (r & H). unfold format_hit, rbind in H.
    destruct hit as [| | | | | | h]; cbn [get] in H; try discriminate H.
    destruct (lookup "_source" h) as [src |] eqn:Hs.
    - destruct src as [| | | | | | d]; cbn [get] in H; try discriminate H.
      exists h. split; [reflexivity |].
      split; [right; exists d; exact Hs |].
      unfold source_of. cbn [get]. rewrite Hs.
      destruct (lookup "content" d) as [c |] eqn:Hc; [| left; reflexivity].
      destruct c; cbn [slice200_dots] in H; try discriminate H.
      right. eexists. reflexivity.
    - exists h. split; [reflexivity |].
      split; [left; exact Hs |].
      unfold source_of. cbn [get]. rewrite Hs. left. reflexivity. }
  split.
  - split; [exact Hdom |].
    intros Hwf. exists (formatted hit). apply format_hit_well_formed.
    exact Hwf.
  - intros r H.
    assert (Hwf : well_formed_hit hit) by (apply Hdom; eauto).
    rewrite (format_hit_well_formed hit Hwf) in H. injection H as <-.
    reflexivity.
Qed.

Lemma format_hit_domain_witness :
  ~ well_formed_hit Scenario.null_content_hit.
Proof.
  intros Hwf.
  destruct (proj2 (proj1 (format_hit_domain Scenario.null_content_hit)) Hwf)
    as (r & H).
  discriminate H.
Defined.

Lemma perform_semantic_search_skips_search_witness :
  perform_semantic_search Scenario.demo_config Scenario.no_vector_world
    (JStr "hello") [] =
    (Ok [],
     [InvokeModel "us-east-1" "amazon.titan-embed-text-v1"
        (JDict [("inputText", JStr "hello")])]).
Proof.
  apply (perform_semantic_search_skips_search Scenario.demo_config
           Scenario.no_vector_world (JStr "hello") [] JNull);
    reflexivity.
Defined.

Lemma two_hits_well_formed : Forall well_formed_hit Scenario.two_hits.
Proof.
  repeat constructor; eexists;
    (split; [reflexivity |]);
    (split; right; eexists; reflexivity).
Defined.

Lemma perform_semantic_search_formats_all_witness :
  perform_semantic_search Scenario.demo_config
    (Scenario.healthy_world Scenario.two_hits) (JStr "hello") [] =
    (Ok (map formatted Scenario.two_hits),
     snd (perform_semantic_search Scenario.demo_config
            (Scenario.healthy_world Scenario.two_hits) (JStr "hello") []))
  /\ length (map formatted Scenario.two_hits) = length Scenario.two_hits.
Proof.
  eapply (perform_semantic_search_formats_all Scenario.demo_config
            (Scenario.healthy_world Scenario.two_hits) (JStr "hello") []);
    try reflexivity.
  exact two_hits_well_formed.
Defined.

Lemma perform_semantic_search_one_bad_hit_witness :
  fst (perform_semantic_search Scenario.demo_config
         (Scenario.healthy_world
            [Scenario.hit "Good day" "POSITIVE" 2;
             JDict [("_source", JStr "lost")]])
         (JStr "hello") []) = Ok [].
Proof.
  eapply (perform_semantic_search_one_bad_hit Scenario.demo_config
            (Scenario.healthy_world
               [Scenario.hit "Good day" "POSITIVE" 2;
                JDict [("_source", JStr "lost")]])
            (JStr "hello") [] _ _ _ _ _ _
            (JDict [("_source", JStr "lost")]));
    try reflexivity.
  right. left. reflexivity.
Defined.

(** *** The fallback summary *)

Lemma length_append_string (a b : string) :
  String.length (a ++ b) = String.length a + String.length b.
Proof. induction a as [| c a IH]; simpl; [| rewrite IH]; reflexivity. Qed.

Lemma length_substring_le (n : nat) (s : string) :
  String.length (String.substring 0 n s) <= n.
Proof.
  revert s. induction n as [| n IH]; intros [| c s]; simpl;
    try lia.
  specialize (IH s). lia.
Qed.

Lemma substring_short (n : nat) (s : string) :
  String.length s <= n -> String.substring 0 n s = s.
Proof.
  revert s. induction n as [| n IH]; intros [| c s]; simpl; intros H;
    try reflexivity; try lia.
  rewrite IH by lia. reflexivity.
Qed.

(** X6.  For a well-formed hit without [summary], the summary of the
    formatted result is a string of at most 203 characters; the three
    dots are appended even when the content is short enough to be shown
    whole (an absent content gives ["..."]). *)
Theorem format_hit_fallback_summary (hit : Py.json) :
  well_formed_hit hit ->
  lookup "summary" (source_of hit) = None ->
  exists r s,
    format_hit hit = Ok r /\
    getitem r "summary" = Ok (JStr s) /\
    String.length s <= 203 /\
    (String.length (content_text (source_of hit)) <= 200 ->
     s = content_text (source_of hit) ++ "...").
Proof.
  intros Hwf Hs.
  exists (formatted hit).
  exists (String.substring 0 200 (content_text (source_of hit)) ++ "...").
  split; [apply format_hit_well_formed; exact Hwf |].
  split.
  - unfold formatted. cbn [getitem lookup String.eqb Ascii.eqb Bool.eqb].
    rewrite Hs. reflexivity.
  - split.
    + rewrite length_append_string.
      pose proof (length_substring_le 200 (content_text (source_of hit))).
      simpl String.length. lia.
    + intros Hl. rewrite substring_short by exact Hl. reflexivity.
Qed.

Lemma format_hit_fallback_summary_witness :
  exists r s,
    format_hit (JDict [("_source", JDict [("content", JStr "Short")])])
      = Ok r /\
    getitem r "summary" = Ok (JStr s) /\
    String.length s <= 203 /\
    (String.length
       (content_text
          (source_of (JDict [("_source", JDict [("content", JStr "Short")])])))
       <= 200 ->
     s = content_text
           (source_of (JDict [("_source", JDict [("content", JStr "Short")])]))
         ++ "...").
Proof.
  apply (format_hit_fallback_summary
           (JDict [("_source", JDict [("content", JStr "Short")])])).
  - eexists. split; [reflexivity |].
    split; right; eexists; reflexivity.
  - reflexivity.
Defined.

(** *** The handlers *)

Section Handlers.

Variable rt : runtime.
Variable cfg : config.
Variable w : world.

Ltac run_send :=
  match goal with
  | |- context [send_websocket_message rt cfg w ?c ?m ?t0] =>
      let t2 := fresh "t" in
      let Hw := fresh "Hw" in
      destruct (send_websocket_message_returns rt cfg w c m t0) as (t2 & Hw);
      rewrite Hw
  end.

Lemma process_semantic_search_returns query_text connection_id t :
  exists r t',
    process_semantic_search rt cfg w query_text connection_id t = (Ok r, t').
Proof.
  unfold process_semantic_search, try_except, bind.
  run_send.
  destruct (perform_semantic_search_returns cfg w query_text t0)
    as (results & t1 & ->).
  destruct results as [| r results']; cbn [truthy negb].
  - run_send. do 2 eexists. reflexivity.
  - unfold lift.
    destruct (compose_message rt query_text (r :: results')) as [m | e].
    + run_send. do 2 eexists. reflexivity.
    + unfold print, print_traceback, emit. run_send.
      do 2 eexists. reflexivity.
Qed.

Lemma search_endpoint_status req t :
  exists resp status t',
    search_endpoint rt cfg w req t = (Ok (resp, status), t') /\
    In status [200; 204; 400; 500].
Proof.
  unfold search_endpoint.
  destruct (String.eqb (method req) "OPTIONS").
  { do 3 eexists. split; [reflexivity | simpl; auto]. }
  unfold try_except, bind, lift, ret.
  destruct (if negb (truthy (json req)) then _ else _) as [[|] | e];
    try (do 3 eexists; split; [reflexivity | simpl; auto]; fail).
  destruct (getitem (json req) "query") as [q | e];
    try (do 3 eexists; split; [reflexivity | simpl; auto]; fail).
  destruct (get (json req) "connection_id" JNull) as [c | e];
    try (do 3 eexists; split; [reflexivity | simpl; auto]; fail).
  destruct (perform_semantic_search_returns cfg w q t)
    as (results & t1 & ->).
  destruct (truthy c && apigw_management_client cfg).
  - run_send. do 3 eexists. split; [reflexivity | simpl; auto].
  - do 3 eexists. split; [reflexivity | simpl; auto].
Qed.

Lemma process_search_endpoint_status req t :
  exists resp status t',
    process_search_endpoint rt cfg w req t = (Ok (resp, status), t') /\
    In status [202; 204; 400; 500].
Proof.
  unfold process_search_endpoint.
  destruct (String.eqb (method req) "OPTIONS").
  { do 3 eexists. split; [reflexivity | simpl; auto]. }
  unfold try_except, bind, lift, ret.
  destruct (if negb (truthy (json req)) then _ else _) as [[|] | e];
    try (do 3 eexists; split; [reflexivity | simpl; auto]; fail).
  destruct (getitem (json req) "query") as [q | e];
    try (do 3 eexists; split; [reflexivity | simpl; auto]; fail).
  destruct (getitem (json req) "connection_id") as [c | e];
    try (do 3 eexists; split; [reflexivity | simpl; auto]; fail).
  destruct (process_semantic_search_returns q c t) as (r & t1 & ->).
  do 3 eexists. split; [reflexivity | simpl; auto].
Qed.

End Handlers.

(** X7.  Neither view ever raises: [/search] answers 200, 204, 400 or
    500 and [/process-search] answers 202, 204, 400 or 500, for every
    request and in every world. *)
Theorem views_always_answer (rt : runtime) (cfg : config) (w : world)
  (req : request) (t : trace) :
  (exists resp status t',
      search_endpoint rt cfg w req t = (Ok (resp, status), t') /\
      In status [200; 204; 400; 500]) /\
  (exists resp status t',
      process_search_endpoint rt cfg w req t = (Ok (resp, status), t') /\
      In status [202; 204; 400; 500]).
Proof.
  split; [apply search_endpoint_status | apply process_search_endpoint_status].
Qed.

(** X8.  A [POST /process-search] whose body has a [query] and a
    [connection_id] is answered 202, echoing both, whatever the embedding
    model, the search cluster and the push channel do. *)
Theorem process_search_always_accepted (rt : runtime) (cfg : config)
  (w : world) (req : request) d (query_text connection_id : Py.json)
  (t : trace) :
  method req = "POST" ->
  json req = JDict d ->
  lookup "query" d = Some query_text ->
  lookup "connection_id" d = Some connection_id ->
  fst (process_search_endpoint rt cfg w req t) =
    Ok (JDict [("message",
                JStr ("Semantic search processing started. "
                      ++ "Results will be sent via WebSocket."));
               ("query", query_text);
               ("connection_id", connection_id)], 202).
Proof.
  intros Hm Hb Hq Hi.
  unfold process_search_endpoint. rewrite Hm, Hb.
  cbn [String.eqb Ascii.eqb Bool.eqb].
  assert (Ht : truthy (JDict d) = true).
  { destruct d; [discriminate Hq | reflexivity]. }
  unfold try_except, bind, lift, ret.
  rewrite Ht. cbn [negb contains rbind getitem]. rewrite Hq.
  cbn [negb rbind]. rewrite Hi. cbn [negb].
  destruct (process_semantic_search_returns rt cfg w query_text
              connection_id t) as (r & t1 & ->).
  reflexivity.
Qed.

Lemma process_search_always_accepted_witness :
  fst (process_search_endpoint Scenario.demo_runtime Scenario.demo_config
         Scenario.broken_world (Scenario.post (JDict Scenario.hello_body)) [])
    = Ok (JDict [("message",
                  JStr ("Semantic search processing started. "
                        ++ "Results will be sent via WebSocket."));
                 ("query", JStr "hello");
                 ("connection_id", JStr "abc")], 202).
Proof.
  apply (process_search_always_accepted Scenario.demo_runtime
           Scenario.demo_config Scenario.broken_world
           (Scenario.post (JDict Scenario.hello_body)) Scenario.hello_body);
    reflexivity.
Defined.

(** X9.  [POST /search] pushes its results to the client at most once:
    exactly one payload, carrying the results, when the body has a truthy
    [connection_id] and a push endpoint is configured, and none
    otherwise.  The answer is the same 200 in both cases. *)
Theorem search_endpoint_push (rt : runtime) (cfg : config) (w : world)
  (req : request) d (query_text : Py.json) (t : trace) :
  method req = "POST" ->
  json req = JDict d ->
  lookup "query" d = Some query_text ->
  let connection_id := or_default (lookup "connection_id" d) JNull in
  exists results t',
    search_endpoint rt cfg w req t =
      (Ok (JDict [("query", query_text);
                  ("results", JList results);
                  ("total_results", JInt (Z.of_nat (length results)))],
           200), t') /\
    notifications t' =
      (notifications t
       ++ (if truthy connection_id && apigw_management_client cfg
           then [JDict [("message", JStr ("Search results for: "
                                          ++ str rt query_text));
                        ("results", JList results);
                        ("query", query_text)]]
           else []))%list.
Proof.
  intros Hm Hb Hq connection_id.
  destruct (perform_semantic_search_returns cfg w query_text t)
    as (results & t1 & Hs).
  pose proof (perform_semantic_search_quiet cfg w query_text _ _ _ Hs) as Hn.
  unfold search_endpoint. rewrite Hm, Hb.
  cbn [String.eqb Ascii.eqb Bool.eqb].
  assert (Ht : truthy (JDict d) = true).
  { destruct d; [discriminate Hq | reflexivity]. }
  unfold try_except, bind, lift, ret.
  rewrite Ht. cbn [negb contains rbind getitem get].
  rewrite Hq. cbn [negb]. rewrite Hs.
  fold (or_default (lookup "connection_id" d) JNull). fold connection_id.
  destruct (truthy connection_id) eqn:Hc; cbn [andb].
  - destruct (apigw_management_client cfg) eqn:Ha.
    + match goal with
      | |- context [send_websocket_message rt cfg w ?c ?m ?t0] =>
          destruct (send_websocket_message_notifies rt cfg w c m t0 Ha)
            as (t2 & Hw & Hn2)
      end.
      rewrite Hw. exists results, t2. split; [reflexivity |].
      rewrite Hn2, Hn. reflexivity.
    + exists results, t1. split; [reflexivity |].
      rewrite Hn, app_nil_r. reflexivity.
  - exists results, t1. split; [reflexivity |].
    rewrite Hn, app_nil_r. reflexivity.
Qed.

Lemma search_endpoint_push_witness :
  exists results t',
    search_endpoint Scenario.demo_runtime Scenario.demo_config
      (Scenario.healthy_world []) (Scenario.post (JDict Scenario.hello_body))
      [] =
      (Ok (JDict [("query", JStr "hello");
                  ("results", JList results);
                  ("total_results", JInt (Z.of_nat (length results)))],
           200), t') /\
    notifications t' =
      (notifications []
       ++ [JDict [("message", JStr "Search results for: hello");
                  ("results", JList results);
                  ("query", JStr "hello")]])%list.
Proof.
  apply (search_endpoint_push Scenario.demo_runtime Scenario.demo_config
           (Scenario.healthy_world [])
           (Scenario.post (JDict Scenario.hello_body)) Scenario.hello_body
           (JStr "hello") []);
    reflexivity.
Defined.



(** *** The background flow *)

(** X11.  With a push endpoint configured, every run of the background
    flow hands exactly two payloads to the push channel: the
    [processing] notice, then one terminal notification whose status is
    [no_results], [search_complete] or [search_error]; the value returned
    by the task has the matching status ([no_results], [success],
    [error]).  The flow itself never raises. *)
Theorem process_semantic_search_one_terminal (rt : runtime) (cfg : config)
  (w : world) (query_text connection_id : Py.json) (t : trace) :
  apigw_management_client cfg = true ->
  exists r final t',
    process_semantic_search rt cfg w query_text connection_id t = (Ok r, t') /\
    notifications t' =
      (notifications t ++ [processing_payload rt query_text; final])%list /\
    ((has_status "no_results" final = true
      /\ getitem r "status" = Ok (JStr "no_results"))
     \/ (has_status "search_complete" final = true
         /\ getitem r "status" = Ok (JStr "success"))
     \/ (has_status "search_error" final = true
         /\ getitem r "status" = Ok (JStr "error"))).
Proof.
  intros Hc. unfold process_semantic_search, try_except, bind.
  destruct (send_websocket_message_notifies rt cfg w connection_id
              (processing_payload rt query_text) t Hc) as (t0 & Hs0 & Hn0).
  unfold processing_payload in Hs0. rewrite Hs0.
  destruct (perform_semantic_search_returns cfg w query_text t0)
    as (results & t1 & Hp).
  pose proof (perform_semantic_search_quiet cfg w query_text _ _ _ Hp) as Hq.
  rewrite Hp.
  destruct results as [| r0 results']; cbn [truthy negb].
  - match goal with
    | |- context [send_websocket_message rt cfg w ?c ?m ?tx] =>
        destruct (send_websocket_message_notifies rt cfg w c m tx Hc)
          as (t2 & Hs2 & Hn2)
    end.
    rewrite Hs2. do 3 eexists. split; [reflexivity |].
    split; [rewrite Hn2, Hq, Hn0, <- app_assoc; reflexivity |].
    left. split; reflexivity.
  - unfold lift.
    destruct (compose_message rt query_text (r0 :: results')) as [m | e].
    + match goal with
      | |- context [send_websocket_message rt cfg w ?c ?m ?tx] =>
          destruct (send_websocket_message_notifies rt cfg w c m tx Hc)
            as (t2 & Hs2 & Hn2)
      end.
      rewrite Hs2. do 3 eexists. split; [reflexivity |].
      split; [rewrite Hn2, Hq, Hn0, <- app_assoc; reflexivity |].
      right. left. split; reflexivity.
    + unfold print, print_traceback, emit.
      match goal with
      | |- context [send_websocket_message rt cfg w ?c ?m ?tx] =>
          destruct (send_websocket_message_notifies rt cfg w c m tx Hc)
            as (t2 & Hs2 & Hn2)
      end.
      rewrite Hs2. do 3 eexists. split; [reflexivity |].
      split.
      * rewrite Hn2, !notifications_append, Hq, Hn0. simpl.
        rewrite !app_nil_r, <- app_assoc. reflexivity.
      * right. right. split; reflexivity.
Qed.

Lemma process_semantic_search_one_terminal_witness :
  exists r final t',
    process_semantic_search Scenario.demo_runtime Scenario.demo_config
      Scenario.search_down_world (JStr "hello") (JStr "abc") [] = (Ok r, t') /\
    notifications t' =
      (notifications []
       ++ [processing_payload Scenario.demo_runtime (JStr "hello"); final])%list
    /\
    ((has_status "no_results" final = true
      /\ getitem r "status" = Ok (JStr "no_results"))
     \/ (has_status "search_complete" final = true
         /\ getitem r "status" = Ok (JStr "success"))
     \/ (has_status "search_error" final = true
         /\ getitem r "status" = Ok (JStr "error"))).
Proof.
  apply (process_semantic_search_one_terminal Scenario.demo_runtime
           Scenario.demo_config Scenario.search_down_world
           (JStr "hello") (JStr "abc") []).
  reflexivity.
Defined.

Section Failure.

Variable rt : runtime.
Variable cfg : config.
Variable w : world.

(** The first result is listed in the positive section; a score the
    format spec rejects stops the composition. *)
Lemma compose_message_unprintable query_text r results :
  Forall shaped (r :: results) ->
  label_is "POSITIVE" r = true ->
  format_3f rt (field r "score") = None ->
  compose_message rt query_text (r :: results) =
    Raise (TypeError "unsupported format string").
Proof.
  intros Hs Hl Hf. unfold compose_message.
  rewrite !select_label_filter by assumption. cbn [rbind filter].
  rewrite Hl. cbn [truthy firstn].
  inversion Hs as [| ? ? Hr _]; subst.
  destruct Hr as (ti & su & co & sc & la & ss & ca & ->).
  unfold field in Hf.
  cbn [getitem lookup String.eqb Ascii.eqb Bool.eqb] in Hf.
  cbn [append_sentiment_items].
  cbn [getitem lookup String.eqb Ascii.eqb Bool.eqb rbind].
  unfold fmt3. rewrite Hf. reflexivity.
Qed.

End Failure.

(** X12.  When the first result of a search is labelled POSITIVE and its
    relevance score cannot be printed with three decimals (a [null]
    score, for instance), the background flow does not deliver the
    results: it prints the error, sends a [search_error] notification
    with an empty result list and returns status [error]. *)
Theorem process_semantic_search_unprintable_score (rt : runtime)
  (cfg : config) (w : world) (query_text connection_id : Py.json)
  (t t0 t1 : trace) (r : Py.json) (results : list Py.json) :
  apigw_management_client cfg = true ->
  send_websocket_message rt cfg w connection_id
    (processing_payload rt query_text) t = (Ok tt, t0) ->
  perform_semantic_search cfg w query_text t0 = (Ok (r :: results), t1) ->
  label_is "POSITIVE" r = true ->
  format_3f rt (field r "score") = None ->
  exists e t',
    process_semantic_search rt cfg w query_text connection_id t =
      (Ok (JDict [("status", JStr "error");
                  ("message", JStr ("Error in semantic search: "
                                    ++ str_exn e))]), t') /\
    notifications t' =
      (notifications t
       ++ [processing_payload rt query_text;
           JDict [("status", JStr "search_error");
                  ("message",
                   JStr ("Sorry, I encountered an error while searching: "
                         ++ str_exn e));
                  ("results", JList []);
                  ("query", query_text)]])%list.
Proof.
  intros Hc Hs0 Hp Hl Hf.
  pose proof (perform_semantic_search_shaped _ _ _ _ _ _ Hp) as Hsh.
  pose proof (perform_semantic_search_quiet cfg w query_text _ _ _ Hp) as Hq.
  destruct (send_websocket_message_notifies rt cfg w connection_id
              (processing_payload rt query_text) t Hc) as (t0' & Hs0' & Hn0).
  rewrite Hs0 in Hs0'. injection Hs0' as <-.
  unfold process_semantic_search, try_except, bind.
  unfold processing_payload in Hs0. rewrite Hs0, Hp.
  cbn [truthy negb]. unfold lift.
  rewrite (compose_message_unprintable rt query_text r results Hsh Hl Hf).
  unfold print, print_traceback, emit.
  match goal with
  | |- context [send_websocket_message rt cfg w ?c ?m ?tx] =>
      destruct (send_websocket_message_notifies rt cfg w c m tx Hc)
        as (t2 & Hs2 & Hn2)
  end.
  rewrite Hs2. do 2 eexists. split; [reflexivity |].
  rewrite Hn2, !notifications_append, Hq, Hn0. simpl.
  rewrite !app_nil_r, <- app_assoc. reflexivity.
Qed.

Lemma process_semantic_search_unprintable_score_witness :
  exists e t',
    process_semantic_search Scenario.demo_runtime Scenario.demo_config
      (Scenario.healthy_world
         [JDict [("_score", JNull);
                 ("_source", JDict [("sentiment_label", JStr "POSITIVE")])]])
      (JStr "hello") (JStr "abc") [] =
      (Ok (JDict [("status", JStr "error");
                  ("message", JStr ("Error in semantic search: "
                                    ++ str_exn e))]), t') /\
    notifications t' =
      (notifications []
       ++ [processing_payload Scenario.demo_runtime (JStr "hello");
           JDict [("status", JStr "search_error");
                  ("message",
                   JStr ("Sorry, I encountered an error while searching: "
                         ++ str_exn e));
                  ("results", JList []);
                  ("query", JStr "hello")]])%list.
Proof.
  eapply (process_semantic_search_unprintable_score Scenario.demo_runtime
            Scenario.demo_config
            (Scenario.healthy_world
               [JDict [("_score", JNull);
                       ("_source",
                        JDict [("sentiment_label", JStr "POSITIVE")])]])
            (JStr "hello") (JStr "abc") []);
    reflexivity.
Defined.

Lemma length_numbered rt b i items :
  length (numbered rt b i items) = 3 * length items.
Proof.
  revert i. induction items as [| r items IH]; intros i; [reflexivity |].
  cbn [numbered]. rewrite length_app, IH. simpl. lia.
Qed.

Lemma length_section shown header lines :
  length (section shown header lines) =
    if shown then S (length lines) else 0.
Proof. destruct shown; reflexivity. Qed.

Lemma firstn_nonempty {A} n (l : list A) :
  nonempty l = true -> 1 <= length (firstn (S n) l).
Proof. destruct l; [discriminate | simpl; lia]. Qed.

(** X13.  The message of a [search_complete] notification is short
    whatever the number of results: for a non-empty list of formatted
    results whose listed scores can be printed, the list of parts that
    the flow joins with newlines is the one of the specification, it
    starts with the head line and it has at least 5 and at most 21
    elements (the head line, then one or two sentiment sections of at
    most three items, or the flat section of at most five). *)
Theorem compose_message_size (rt : runtime) (query_text : Py.json)
  (results : list Py.json) :
  results <> [] ->
  Forall is_formatted results ->
  listed_printable rt results = true ->
  response_parts rt query_text results =
    Ok (message_parts rt query_text results) /\
  compose_message rt query_text results =
    Ok (join_lines (message_parts rt query_text results)) /\
  hd "" (message_parts rt query_text results)
    = found_line rt query_text (length results) /\
  5 <= length (message_parts rt query_text results) <= 21.
Proof.
  intros Hne Hf Hp.
  pose proof (is_formatted_shaped results Hf) as Hs.
  split; [apply response_parts_listed; assumption |].
  split; [apply compose_message_listed; assumption |].
  split; [reflexivity |].
  unfold message_parts. cbn [length].
  rewrite !length_app, !length_section, !length_numbered.
  set (pos := filter (label_is "POSITIVE") results).
  set (neg := filter (label_is "NEGATIVE") results).
  pose proof (firstn_le_length 3 pos).
  pose proof (firstn_le_length 3 neg).
  pose proof (firstn_le_length 5 results).
  assert (1 <= length (firstn 5 results)).
  { destruct results; [contradiction Hne; reflexivity | simpl; lia]. }
  destruct (nonempty pos) eqn:Ep; destruct (nonempty neg) eqn:En;
    cbn [negb andb];
    try pose proof (firstn_nonempty 2 pos Ep);
    try pose proof (firstn_nonempty 2 neg En);
    lia.
Qed.

Lemma compose_message_size_witness :
  response_parts Scenario.demo_runtime (JStr "hello") Scenario.two_results =
    Ok (message_parts Scenario.demo_runtime (JStr "hello")
          Scenario.two_results) /\
  compose_message Scenario.demo_runtime (JStr "hello") Scenario.two_results
    = Ok (join_lines (message_parts Scenario.demo_runtime (JStr "hello")
                        Scenario.two_results)) /\
  hd "" (message_parts Scenario.demo_runtime (JStr "hello")
           Scenario.two_results) =
    found_line Scenario.demo_runtime (JStr "hello")
      (length Scenario.two_results) /\
  5 <= length (message_parts Scenario.demo_runtime (JStr "hello")
                 Scenario.two_results) <= 21.
Proof.
  apply (compose_message_size Scenario.demo_runtime (JStr "hello")
           Scenario.two_results).
  - discriminate.
  - exact two_results_formatted.
  - reflexivity.
Defined.

End AppMore.

(* ===================================================================== *)
(** ** Properties of the batch client and of the connection test *)
(* ===================================================================== *)

Module BedrockToolsProps.
Import Py Eff Spec BedrockTools.

Section Facts.

Variable w : world.

Lemma batch_loop_length texts :
  forall i total embeddings model_id region t,
  exists result t',
    batch_loop w i total texts embeddings model_id region t = (Ok result, t')
    /\ length result = length embeddings + length texts.
Proof.
  induction texts as [| text texts IH];
    intros i total embeddings model_id region t.
  - exists embeddings, t. split; [reflexivity | simpl; lia].
  - cbn [batch_loop]. unfold bind at 1. unfold try_except.
    destruct (bind (BedrockEmbeddings.get_bedrock_embedding w text model_id
                      region) _ t) as [[acc | e] t1] eqn:E.
    + assert (Hl : length acc = S (length embeddings)).
      { revert E. unfold bind, print, emit, ret.
        destruct (BedrockEmbeddings.get_bedrock_embedding w text model_id
                    region t) as [[emb | e] t0]; [| discriminate].
        intros E. injection E as <- _. unfold append.
        rewrite length_app. simpl. lia. }
      destruct (IH (S i) total acc model_id region t1)
        as (result & t' & -> & Hr).
      exists result, t'. split; [reflexivity |]. simpl. lia.
    + unfold bind, print, emit, ret.
      match goal with
      | |- context [batch_loop w ?a ?b ?c ?d ?m ?r ?tx] =>
          destruct (IH a b d m r tx) as (result & t' & -> & Hr)
      end.
      exists result, t'. split; [reflexivity |].
      unfold append in Hr. rewrite length_app in Hr. simpl in *. lia.
Qed.

Lemma batch_loop_all_fail texts :
  (forall t region model_id body,
      exists e, invoke_model w t region model_id body = Raise e) ->
  forall i total embeddings model_id region t,
    fst (batch_loop w i total texts embeddings model_id region t) =
      Ok (embeddings ++ repeat JNull (length texts))%list.
Proof.
  intros Hfail.
  induction texts as [| text texts IH];
    intros i total embeddings model_id region t.
  - simpl. rewrite app_nil_r. reflexivity.
  - cbn [batch_loop]. unfold bind at 1. unfold try_except.
    unfold BedrockEmbeddings.get_bedrock_embedding at 1.
    unfold try_except, bind, call_invoke_model.
    destruct (Hfail t region model_id (JDict [("inputText", text)]))
      as (e & ->).
    unfold print, print_traceback, emit, raise, ret.
    rewrite IH. unfold append. rewrite <- app_assoc. reflexivity.
Qed.

End Facts.

(** X14.  The batch client never raises and returns one entry per text,
    in every world; when every model call fails, each entry is [None]. *)
Theorem get_bedrock_embedding_batch_entries (w : world) (texts : list json)
  (model_id region : string) (t : trace) :
  (exists embeddings t',
      get_bedrock_embedding_batch w texts model_id region t
        = (Ok embeddings, t') /\
      length embeddings = length texts) /\
  ((forall t0 r m body, exists e, invoke_model w t0 r m body = Raise e) ->
   fst (get_bedrock_embedding_batch w texts model_id region t) =
     Ok (repeat JNull (length texts))).
Proof.
  unfold get_bedrock_embedding_batch. split.
  - destruct (batch_loop_length w texts 0 (length texts) [] model_id region t)
      as (result & t' & H & Hl).
    exists result, t'. split; [exact H | exact Hl].
  - intros Hfail.
    rewrite (batch_loop_all_fail w texts Hfail). reflexivity.
Qed.

Lemma get_bedrock_embedding_batch_entries_witness :
  fst (get_bedrock_embedding_batch Scenario.broken_world
         [JStr "a"; JStr "b"; JStr "c"] "amazon.titan-embed-text-v1"
         "us-east-1" []) = Ok [JNull; JNull; JNull].
Proof.
  apply (proj2 (get_bedrock_embedding_batch_entries Scenario.broken_world
                  [JStr "a"; JStr "b"; JStr "c"]
                  "amazon.titan-embed-text-v1" "us-east-1" [])).
  intros t0 r m body. unfold Scenario.broken_world. simpl.
  destruct (String.prefix "amazon.titan-embed" m); eexists; reflexivity.
Defined.

Lemma lib_embedding_cases (w : world) text model_id region t r t' :
  BedrockEmbeddings.get_bedrock_embedding w text model_id region t = (r, t') ->
  match r with
  | Raise _ => True
  | Ok emb =>
      emb = JNull \/
      exists body n,
        invoke_model w t region model_id (JDict [("inputText", text)])
          = Ok body /\
        get body "embedding" JNull = Ok emb /\
        truthy emb = true /\
        len emb = Ok n
  end.
Proof.
  unfold BedrockEmbeddings.get_bedrock_embedding, try_except, bind,
    call_invoke_model, lift, print, print_traceback, emit, raise, ret.
  destruct (invoke_model w t region model_id (JDict [("inputText", text)]))
    as [body | e] eqn:Hi.
  - destruct (get body "embedding" JNull) as [v | e] eqn:Hg.
    + destruct (truthy v) eqn:Hv.
      * destruct (len v) as [n | e] eqn:Hl; intros H; injection H as <- _.
        -- right. exists body, n.
           repeat split; first [assumption | reflexivity].
        -- exact I.
      * intros H. injection H as <- _. left. reflexivity.
    + intros H. injection H as <- _. exact I.
  - intros H. injection H as <- _. exact I.
Qed.

Lemma lib_embedding_raise (w : world) text model_id region t e :
  invoke_model w t region model_id (JDict [("inputText", text)]) = Raise e ->
  fst (BedrockEmbeddings.get_bedrock_embedding w text model_id region t)
    = Raise e.
Proof.
  intros H.
  unfold BedrockEmbeddings.get_bedrock_embedding, try_except, bind,
    call_invoke_model.
  rewrite H. reflexivity.
Qed.

(** X15.  The connection test never raises: it answers [False] when the
    model call fails, and it answers [True] only if the model answered
    with an embedding that is truthy. *)
Theorem test_bedrock_connection_verdict (w : world)
  (model_id region : string) (t : trace) :
  (exists b t', test_bedrock_connection w model_id region t = (Ok b, t')) /\
  (forall e,
      invoke_model w t region model_id (JDict [("inputText", test_text)])
        = Raise e ->
      fst (test_bedrock_connection w model_id region t) = Ok false) /\
  (fst (test_bedrock_connection w model_id region t) = Ok true ->
   exists body v,
     invoke_model w t region model_id (JDict [("inputText", test_text)])
       = Ok body /\
     get body "embedding" JNull = Ok v /\
     truthy v = true).
Proof.
  assert (H : exists b t',
             test_bedrock_connection w model_id region t = (Ok b, t') /\
             (forall e,
                 invoke_model w t region model_id
                   (JDict [("inputText", test_text)]) = Raise e ->
                 b = false) /\
             (b = true ->
              exists body v,
                invoke_model w t region model_id
                  (JDict [("inputText", test_text)]) = Ok body /\
                get body "embedding" JNull = Ok v /\
                truthy v = true)).
  { pose proof (lib_embedding_cases w test_text model_id region t) as Hcases.
    unfold test_bedrock_connection, try_except. unfold bind at 1.
    destruct (BedrockEmbeddings.get_bedrock_embedding w test_text model_id
                region t) as [[emb | e] t1].
    - specialize (Hcases _ _ eq_refl). cbn beta iota in Hcases.
      destruct Hcases as [-> | (body & n & Hi & Hg & Hv & Hl)].
      + do 2 eexists. split; [reflexivity |].
        split; [intros; reflexivity | discriminate].
      + unfold bind, lift, print, emit, ret.
        rewrite Hv, Hl. cbn [rbind].
        destruct (Nat.ltb 0 n).
        * do 2 eexists. split; [reflexivity |].
          split; [intros e He; rewrite Hi in He; discriminate He |].
          intros _. exists body, emb. auto.
        * do 2 eexists. split; [reflexivity |].
          split; [intros; reflexivity | discriminate].
    - do 2 eexists. split; [reflexivity |].
      split; [intros; reflexivity | discriminate]. }
  destruct H as (b & t' & H & Hfalse & Htrue). rewrite H. cbn [fst].
  split; [eauto |].
  split.
  - intros e He. rewrite (Hfalse e He). reflexivity.
  - intros Hb. injection Hb as ->. apply Htrue. reflexivity.
Qed.

Lemma test_bedrock_connection_verdict_witness :
  fst (test_bedrock_connection Scenario.broken_world
         "amazon.titan-embed-text-v1" "us-east-1" []) = Ok false.
Proof.
  apply (proj1 (proj2 (test_bedrock_connection_verdict Scenario.broken_world
                         "amazon.titan-embed-text-v1" "us-east-1" []))
           (Exception "model unavailable")).
  reflexivity.
Defined.

End BedrockToolsProps.

(* ===================================================================== *)
(** ** Further properties of the bulk upsert *)
(* ===================================================================== *)

Module BulkMore.
Import Py Eff Spec OpensearchClient BulkProps.

(** The action line that precedes a document in the bulk payload. *)
Definition index_action (cfg : config) (id : nat) : json :=
  JDict [("index", JDict [("_index", JStr (INDEX_NAME cfg));
                          ("_id", JStr (str_nat id))])].

(** The payload as pairs of lines, the first document being number
    [i + 1]. *)
Fixpoint bulk_pairs (cfg : config) (i : nat) (documents : list json)
  : list json :=
  match documents with
  | [] => []
  | doc :: documents' =>
      index_action cfg (i + 1) :: doc :: bulk_pairs cfg (S i) documents'
  end.

Lemma bulk_lines_pairs cfg documents :
  forall i bulk_data,
    bulk_lines cfg i documents bulk_data =
      (bulk_data ++ bulk_pairs cfg i documents)%list.
Proof.
  induction documents as [| doc documents IH]; intros i acc.
  - simpl. rewrite app_nil_r. reflexivity.
  - cbn [bulk_lines bulk_pairs]. rewrite IH. unfold append, index_action.
    rewrite <- !app_assoc. reflexivity.
Qed.

Lemma bulk_pairs_length cfg documents :
  forall i, length (bulk_pairs cfg i documents) = 2 * length documents.
Proof.
  induction documents as [| doc documents IH]; intros i; [reflexivity |].
  cbn [bulk_pairs length]. rewrite IH. lia.
Qed.

Lemma bulk_pairs_nth cfg documents :
  forall i k doc,
    nth_error documents k = Some doc ->
    nth_error (bulk_pairs cfg i documents) (2 * k)
      = Some (index_action cfg (i + k + 1)) /\
    nth_error (bulk_pairs cfg i documents) (2 * k + 1) = Some doc.
Proof.
  induction documents as [| d documents IH]; intros i k doc Hk.
  - destruct k; discriminate Hk.
  - destruct k as [| k].
    + injection Hk as ->. cbn [bulk_pairs]. simpl.
      replace (i + 0 + 1) with (i + 1) by lia. split; reflexivity.
    + cbn [nth_error] in Hk. destruct (IH (S i) k doc Hk) as (Ha & Hd).
      cbn [bulk_pairs].
      replace (2 * S k) with (S (S (2 * k))) by lia.
      replace (S (S (2 * k)) + 1) with (S (S (2 * k + 1))) by lia.
      cbn [nth_error].
      replace (i + S k + 1) with (S i + k + 1) by lia.
      split; assumption.
Qed.

(** X16.  The bulk payload has two lines per document: the document
    number [k] (counting from 0) is line [2k + 1] and is preceded by an
    index action whose [_id] is the decimal of [k + 1].  The ids depend
    on the position of a document only, not on its content. *)
Theorem bulk_payload_lines (cfg : config) (documents : list json) :
  length (bulk_lines cfg 0 documents []) = 2 * length documents /\
  (forall k doc,
      nth_error documents k = Some doc ->
      nth_error (bulk_lines cfg 0 documents []) (2 * k)
        = Some (index_action cfg (k + 1)) /\
      nth_error (bulk_lines cfg 0 documents []) (2 * k + 1) = Some doc).
Proof.
  rewrite bulk_lines_pairs. cbn [app]. split.
  - apply bulk_pairs_length.
  - intros k doc Hk. apply (bulk_pairs_nth cfg documents 0 k doc Hk).
Qed.

Lemma bulk_payload_lines_witness :
  nth_error (bulk_lines Scenario.demo_config 0
               [JDict [("title", JStr "a")]; JDict [("title", JStr "b")]] [])
    (2 * 1)
    = Some (index_action Scenario.demo_config (1 + 1)) /\
  nth_error (bulk_lines Scenario.demo_config 0
               [JDict [("title", JStr "a")]; JDict [("title", JStr "b")]] [])
    (2 * 1 + 1)
    = Some (JDict [("title", JStr "b")]).
Proof.
  apply (proj2 (bulk_payload_lines Scenario.demo_config
                  [JDict [("title", JStr "a")]; JDict [("title", JStr "b")]])).
  reflexivity.
Defined.

(** X17.  Without a search endpoint, or without AWS credentials, the
    bulk upsert reports failure without sending anything: it prints the
    error and the traceback and returns [False]. *)
Theorem bulk_not_attempted (cfg : config) (w : world)
  (documents : list json) (t : trace) :
  env_truthy (OPENSEARCH_ENDPOINT cfg) = false \/ get_credentials w t = false ->
  exists msg,
    bulk_add_documents cfg w documents t =
      (Ok false,
       (t ++ [Stdout ("❌ Error in bulk operation: " ++ msg);
              StdoutTraceback])%list) /\
    outbound (snd (bulk_add_documents cfg w documents t)) = outbound t.
Proof.
  intros H.
  assert (E : exists msg,
             bulk_add_documents cfg w documents t =
               (Ok false,
                (t ++ [Stdout ("❌ Error in bulk operation: " ++ msg);
                       StdoutTraceback])%list)).
  { unfold bulk_add_documents, try_except, bind, raise,
      session_get_credentials, print, print_traceback, emit, append, ret.
    destruct (env_truthy (OPENSEARCH_ENDPOINT cfg)); cbn [negb].
    - destruct H as [H | H]; [discriminate H |]. rewrite H. cbn [negb].
      rewrite <- app_assoc. eexists. reflexivity.
    - rewrite <- app_assoc. eexists. reflexivity. }
  destruct E as (msg & E). exists msg. split; [exact E |].
  rewrite E. cbn [snd]. unfold outbound. rewrite filter_app. simpl.
  apply app_nil_r.
Qed.

Lemma bulk_not_attempted_witness :
  exists msg,
    bulk_add_documents Scenario.quiet_config
      {| get_credentials := fun _ => false;
         invoke_model := fun _ _ _ _ => Ok Scenario.embedding_body;
         requests_post := fun _ _ _ => Ok (Scenario.http_ok (JDict []));
         post_to_connection := fun _ _ _ => Ok tt |}
      [JDict [("title", JStr "a")]] [] =
      (Ok false,
       ([] ++ [Stdout ("❌ Error in bulk operation: " ++ msg);
               StdoutTraceback])%list) /\
    outbound (snd (bulk_add_documents Scenario.quiet_config
                     {| get_credentials := fun _ => false;
                        invoke_model := fun _ _ _ _ =>
                                          Ok Scenario.embedding_body;
                        requests_post := fun _ _ _ =>
                                           Ok (Scenario.http_ok (JDict []));
                        post_to_connection := fun _ _ _ => Ok tt |}
                     [JDict [("title", JStr "a")]] [])) = outbound [].
Proof.
  apply (bulk_not_attempted Scenario.quiet_config
           {| get_credentials := fun _ => false;
              invoke_model := fun _ _ _ _ => Ok Scenario.embedding_body;
              requests_post := fun _ _ _ => Ok (Scenario.http_ok (JDict []));
              post_to_connection := fun _ _ _ => Ok tt |}
           [JDict [("title", JStr "a")]] []).
  right. reflexivity.
Defined.

(** X18.  A bulk answer with a success status is reported as a success
    as soon as it lists no item with an error: in particular an answer
    without any [items] entry counts as a success, whatever the number
    of documents sent. *)
Theorem bulk_success_without_items (cfg : config) (w : world)
  (documents : list json) (t : trace) (response : http_response) d :
  env_truthy (OPENSEARCH_ENDPOINT cfg) = true ->
  get_credentials w t = true ->
  bulk_call cfg w t documents = Ok response ->
  ok response = true ->
  json_body response = Ok (JDict d) ->
  lookup "items" d = None ->
  fst (bulk_add_documents cfg w documents t) = Ok true.
Proof.
  intros He Hc Hcall Hok Hj Hi.
  unfold bulk_call in Hcall.
  unfold bulk_add_documents, try_except, bind, raise,
    session_get_credentials, call_requests_post, lift.
  rewrite He. cbn [negb]. rewrite Hc. cbn [negb].
  rewrite Hcall, Hok, Hj. cbn [get]. rewrite Hi. reflexivity.
Qed.

Lemma bulk_success_without_items_witness :
  fst (bulk_add_documents Scenario.demo_config
         (Scenario.bulk_world (JDict [("took", JInt 3)]))
         [JDict [("title", JStr "a")]] []) = Ok true.
Proof.
  apply (bulk_success_without_items Scenario.demo_config
           (Scenario.bulk_world (JDict [("took", JInt 3)]))
           [JDict [("title", JStr "a")]] []
           (Scenario.http_ok (JDict [("took", JInt 3)]))
           [("took", JInt 3)]);
    reflexivity.
Defined.

End BulkMore.

(* ===================================================================== *)
(** ** Further properties of the summarization composer *)
(* ===================================================================== *)

Module SummarizeMore.
Import Py Eff Spec LlmSummarize.

(** The text block of snippet number [i]. *)
Definition snippet_block (rt : runtime) (i : nat) (hit : json) : string :=
  let src := source_of hit in
  "Snippet " ++ str_nat i ++ " (Sentiment: "
  ++ str rt (or_default (lookup "sentiment_label" src) (JStr "")) ++ "):" ++ nl
  ++ "Title: " ++ str rt (or_default (lookup "title" src) (JStr "")) ++ nl
  ++ "Summary: " ++ str rt (or_default (lookup "summary" src) (JStr "")) ++ nl
  ++ "Content: " ++ str rt (or_default (lookup "content" src) (JStr "")) ++ nl.

Fixpoint snippet_blocks (rt : runtime) (i : nat) (hits : list json)
  : list string :=
  match hits with
  | [] => []
  | hit :: hits' => snippet_block rt (i + 1) hit :: snippet_blocks rt (S i) hits'
  end.

(** A hit the snippet formatter accepts: an object whose [_source], when
    present, is an object. *)
Definition object_hit (hit : json) : Prop :=
  exists h,
    hit = JDict h /\
    (lookup "_source" h = None
     \/ exists src, lookup "_source" h = Some (JDict src)).

Lemma format_snippets_blocks rt hits :
  Forall object_hit hits ->
  forall i formatted,
    format_snippets rt i hits formatted =
      Ok (formatted ++ snippet_blocks rt i hits)%list.
Proof.
  induction 1 as [| hit hits Hh Hhs IH]; intros i acc.
  - simpl. rewrite app_nil_r. reflexivity.
  - destruct Hh as (h & -> & Hsrc).
    cbn [format_snippets snippet_blocks]. unfold snippet_block, source_of.
    destruct Hsrc as [Hs | (src & Hs)]; cbn [get rbind]; rewrite Hs;
      cbn [get rbind lookup or_default]; rewrite IH; unfold append;
      rewrite <- app_assoc; reflexivity.
Qed.

Lemma snippet_blocks_length rt hits :
  forall i, length (snippet_blocks rt i hits) = length hits.
Proof.
  induction hits as [| hit hits IH]; intros i; [reflexivity |].
  cbn [snippet_blocks length]. rewrite IH. reflexivity.
Qed.

Lemma snippet_blocks_nth rt hits :
  forall i k hit,
    nth_error hits k = Some hit ->
    nth_error (snippet_blocks rt i hits) k
      = Some (snippet_block rt (i + k + 1) hit).
Proof.
  induction hits as [| h hits IH]; intros i k hit Hk.
  - destruct k; discriminate Hk.
  - destruct k as [| k]; cbn [snippet_blocks nth_error] in *.
    + injection Hk as ->. replace (i + 0 + 1) with (i + 1) by lia.
      reflexivity.
    + rewrite (IH (S i) k hit Hk).
      replace (S i + k + 1) with (i + S k + 1) by lia. reflexivity.
Qed.

(** X19.  On hits that are objects (with an object [_source] or none)
    the snippet formatter never fails and writes one block per hit, in
    order, numbered from 1; a field missing from the source is printed
    as the empty string. *)
Theorem format_snippets_one_block_per_hit (rt : runtime) (hits : list json) :
  Forall object_hit hits ->
  exists blocks,
    format_snippets_for_prompt rt (JList hits) = Ok (join_lines blocks) /\
    length blocks = length hits /\
    (forall k hit,
        nth_error hits k = Some hit ->
        nth_error blocks k = Some (snippet_block rt (k + 1) hit)).
Proof.
  intros Hh. exists (snippet_blocks rt 0 hits).
  split.
  - unfold format_snippets_for_prompt. cbn [iter rbind].
    rewrite (format_snippets_blocks rt hits Hh). reflexivity.
  - split; [apply snippet_blocks_length |].
    intros k hit Hk. apply (snippet_blocks_nth rt hits 0 k hit Hk).
Qed.

Lemma two_hits_objects : Forall object_hit Scenario.two_hits.
Proof.
  repeat constructor; eexists;
    (split; [reflexivity | right; eexists; reflexivity]).
Defined.

Lemma format_snippets_one_block_per_hit_witness :
  exists blocks,
    format_snippets_for_prompt Scenario.demo_runtime
      (JList Scenario.two_hits) = Ok (join_lines blocks) /\
    length blocks = length Scenario.two_hits /\
    (forall k hit,
        nth_error Scenario.two_hits k = Some hit ->
        nth_error blocks k
          = Some (snippet_block Scenario.demo_runtime (k + 1) hit)).
Proof.
  apply (format_snippets_one_block_per_hit Scenario.demo_runtime
           Scenario.two_hits two_hits_objects).
Defined.

Section Facts.

Variable rt : runtime.
Variable cfg : config.
Variable w : world.

(** X20.  The composer has no handler of its own: a failure of the
    embedding model is raised to the caller unchanged, after the client
    has logged it, and neither the search cluster nor the text model is
    called. *)
Theorem llm_summarize_propagates query k t e :
  invoke_model w t (AWS_REGION cfg) (MODEL_ID cfg)
    (JDict [("inputText", query)]) = Raise e ->
  llm_summarize rt cfg w query k t =
    (Raise e,
     (t ++ [InvokeModel (AWS_REGION cfg) (MODEL_ID cfg)
              (JDict [("inputText", query)]);
            Stdout ("Error getting Bedrock embedding: " ++ str_exn e);
            StdoutTraceback])%list).
Proof.
  intros H.
  unfold llm_summarize, bind at 1.
  unfold BedrockEmbeddings.get_bedrock_embedding, try_except, bind,
    call_invoke_model, print, print_traceback, emit, raise, append.
  rewrite H. rewrite <- !app_assoc. reflexivity.
Qed.

(** X21.  When the text model's answer has neither [results] nor
    [completion] nor [outputText], the composer does not fail: it returns
    the printed form of [None]. *)
Theorem llm_summarize_without_text query k t t1 t2 embedding results
  outer hits snippets_text d :
  BedrockEmbeddings.get_bedrock_embedding w query (MODEL_ID cfg)
    (AWS_REGION cfg) t = (Ok embedding, t1) ->
  OpensearchClient.search_opensearch_by_embedding cfg w embedding k t1
    = (Ok results, t2) ->
  get results "hits" (JDict []) = Ok outer ->
  get outer "hits" (JList []) = Ok hits ->
  truthy hits = true ->
  format_snippets_for_prompt rt hits = Ok snippets_text ->
  invoke_model w t2 (AWS_REGION cfg) (LLM_MODEL_ID cfg)
    (request_body (LLM_MODEL_ID cfg) (render_template rt snippets_text))
    = Ok (JDict d) ->
  lookup "results" d = None ->
  lookup "completion" d = None ->
  lookup "outputText" d = None ->
  fst (llm_summarize rt cfg w query k t) = Ok (repr rt JNull).
Proof.
  intros He Hs Ho Hh Ht Hf Ha Hr Hc Hx.
  unfold llm_summarize, bind, lift, ret.
  rewrite He, Hs, Ho, Hh, Ht. cbn [negb]. rewrite Hf.
  unfold get_bedrock_llm_response, bind, call_invoke_model, lift, ret.
  rewrite Ha. cbn [contains getitem get rbind]. rewrite Hr.
  cbn [rbind]. rewrite Hc. cbn [truthy]. rewrite Hx. reflexivity.
Qed.

(** X22.  The composer does not check the embedding: when the embedding
    client returns [None], the search request is still sent, with a
    [null] vector. *)
Theorem llm_summarize_null_vector query k t t1 :
  BedrockEmbeddings.get_bedrock_embedding w query (MODEL_ID cfg)
    (AWS_REGION cfg) t = (Ok JNull, t1) ->
  env_truthy (OPENSEARCH_ENDPOINT cfg) = true ->
  get_credentials w t1 = true ->
  exists url source_fields r t',
    llm_summarize rt cfg w query k t = (r, t') /\
    In (HttpPost url
          [JDict [("size", JInt k);
                  ("query",
                   JDict [("knn",
                           JDict [("embedding",
                                   JDict [("vector", JNull);
                                          ("k", JInt k)])])]);
                  ("_source", source_fields)]]) t'.
Proof.
  intros He Hc Hg.
  unfold llm_summarize. unfold bind at 1. rewrite He.
  unfold bind at 1.
  unfold OpensearchClient.search_opensearch_by_embedding, try_except.
  unfold bind at 1. unfold raise, session_get_credentials.
  rewrite Hc. cbn [negb]. unfold bind at 1. rewrite Hg. cbn [negb].
  unfold bind at 1. unfold call_requests_post.
  set (ev := HttpPost _ _).
  assert (Hin : forall l, In ev (append t1 ev ++ l)%list).
  { intros l. unfold append. rewrite <- app_assoc.
    apply in_or_app. right. left. reflexivity. }
  assert (Hin0 : In ev (append t1 ev)).
  { unfold append. apply in_or_app. right. left. reflexivity. }
  do 2 eexists.
  destruct (requests_post w t1 _ _) as [response | e].
  - destruct (ok response); cbn [negb].
    + unfold lift. destruct (json_body response) as [results | e].
      * unfold bind at 1. unfold lift.
        destruct (get results "hits" (JDict [])) as [outer | e];
          [| do 2 eexists; split; [reflexivity | exact Hin0]].
        unfold bind at 1.
        destruct (get outer "hits" (JList [])) as [hits | e];
          [| do 2 eexists; split; [reflexivity | exact Hin0]].
        destruct (truthy hits); cbn [negb];
          [| do 2 eexists; split; [reflexivity | exact Hin0]].
        unfold bind at 1.
        destruct (format_snippets_for_prompt rt hits) as [text | e];
          [| do 2 eexists; split; [reflexivity | exact Hin0]].
        unfold bind at 1.
        destruct (get_bedrock_llm_response cfg w (render_template rt text)
                    (append t1 ev)) as [[a | e] t3] eqn:El.
        -- do 2 eexists. split; [reflexivity |].
           revert El.
           unfold get_bedrock_llm_response, bind, call_invoke_model, lift, ret.
           repeat match goal with
                  | |- context [match ?x with _ => _ end] => destruct x
                  end;
             intros El; injection El as _ <-;
             unfold append; apply in_or_app; left; exact Hin0.
        -- do 2 eexists. split; [reflexivity |].
           revert El.
           unfold get_bedrock_llm_response, bind, call_invoke_model, lift, ret.
           repeat match goal with
                  | |- context [match ?x with _ => _ end] => destruct x
                  end;
             intros El; injection El as _ <-;
             unfold append; apply in_or_app; left; exact Hin0.
      * unfold print, print_traceback, emit, bind, raise.
        do 2 eexists. split; [reflexivity |].
        unfold append. rewrite <- app_assoc. apply Hin.
    + unfold print, print_traceback, emit, bind, raise.
      do 2 eexists. split; [reflexivity |].
      unfold append. rewrite <- app_assoc. apply Hin.
  - unfold print, print_traceback, emit, bind, raise.
    do 2 eexists. split; [reflexivity |].
    unfold append. rewrite <- app_assoc. apply Hin.
Qed.

End Facts.

Lemma llm_summarize_propagates_witness :
  llm_summarize Scenario.demo_runtime Scenario.demo_config
    Scenario.broken_world (JStr "hello") 5 [] =
    (Raise (Exception "model unavailable"),
     [InvokeModel "us-east-1" "amazon.titan-embed-text-v1"
        (JDict [("inputText", JStr "hello")]);
      Stdout "Error getting Bedrock embedding: model unavailable";
      StdoutTraceback]).
Proof.
  apply (llm_summarize_propagates Scenario.demo_runtime Scenario.demo_config
           Scenario.broken_world (JStr "hello") 5 []
           (Exception "model unavailable")).
  reflexivity.
Defined.

Lemma llm_summarize_without_text_witness :
  fst (llm_summarize Scenario.demo_runtime Scenario.demo_config
         (Scenario.scripted_world (Ok Scenario.embedding_body)
            (Ok (JDict [("inputTextTokenCount", JInt 12)]))
            (Ok (Scenario.http_ok (Scenario.search_body Scenario.two_hits)))
            (Ok tt))
         (JStr "hello") 5 []) = Ok "None".
Proof.
  eapply (llm_summarize_without_text Scenario.demo_runtime
            Scenario.demo_config
            (Scenario.scripted_world (Ok Scenario.embedding_body)
               (Ok (JDict [("inputTextTokenCount", JInt 12)]))
               (Ok (Scenario.http_ok
                      (Scenario.search_body Scenario.two_hits)))
               (Ok tt))
            (JStr "hello") 5 []);
    reflexivity.
Defined.

Lemma llm_summarize_null_vector_witness :
  exists url source_fields r t',
    llm_summarize Scenario.demo_runtime Scenario.demo_config
      Scenario.no_vector_world (JStr "hello") 5 [] = (r, t') /\
    In (HttpPost url
          [JDict [("size", JInt 5);
                  ("query",
                   JDict [("knn",
                           JDict [("embedding",
                                   JDict [("vector", JNull);
                                          ("k", JInt 5)])])]);
                  ("_source", source_fields)]]) t'.
Proof.
  eapply (llm_summarize_null_vector Scenario.demo_runtime
            Scenario.demo_config Scenario.no_vector_world (JStr "hello") 5 []);
    reflexivity.
Defined.

End SummarizeMore.

(* ===================================================================== *)
(** ** Properties of the index administration *)
(* ===================================================================== *)

Module AdminProps.
Import Py Spec OpensearchAdmin.

(** A cluster that gives one answer to every request. *)
Definition steady_cluster (has_credentials : bool)
  (reply : result Eff.http_response) : cluster := {|
  credentials := fun _ => has_credentials;
  answer := fun _ _ => reply
|}.

Definition no_generated_id (document : json) : result string :=
  Raise (TypeError "unsupported operand type(s) for +").

Lemma requests_sent_append l e :
  requests_sent (append l e) =
    (requests_sent l ++ match e with Sent r => [r] | _ => [] end)%list.
Proof.
  unfold requests_sent, append. rewrite flat_map_app. simpl.
  rewrite app_nil_r. reflexivity.
Qed.

(** X23.  [create_opensearch_index] reports [False] without looking for
    credentials when no endpoint is configured; it raises to its caller
    when the endpoint is configured and there are no credentials (the
    lookup is made before the [try]); otherwise it sends one PUT with the
    index definition and returns [True] exactly when the answer has a
    success status. *)
Theorem create_opensearch_index_outcomes (cfg : Eff.config) (c : cluster)
  (l : log) :
  (Eff.env_truthy (Eff.OPENSEARCH_ENDPOINT cfg) = false ->
   create_opensearch_index cfg c l =
     (Ok false, (l ++ [Printed "OpenSearch endpoint not configured"])%list))
  /\
  (Eff.env_truthy (Eff.OPENSEARCH_ENDPOINT cfg) = true ->
   credentials c l = false ->
   create_opensearch_index cfg c l =
     (Raise (Exception "Unable to get AWS credentials"), l)) /\
  (Eff.env_truthy (Eff.OPENSEARCH_ENDPOINT cfg) = true ->
   credentials c l = true ->
   let request :=
     Put ("https://" ++ endpoint cfg ++ "/" ++ Eff.INDEX_NAME cfg)
       index_mapping in
   exists b l',
     create_opensearch_index cfg c l = (Ok b, l') /\
     requests_sent l' = (requests_sent l ++ [request])%list /\
     (b = true <->
      exists response,
        answer c l request = Ok response /\ Eff.ok response = true)).
Proof.
  unfold create_opensearch_index, bind, try_except, session_get_credentials,
    send, print, print_traceback, raise, ret.
  split; [| split].
  - intros ->. reflexivity.
  - intros He Hc. rewrite He. cbn [negb]. rewrite Hc. reflexivity.
  - intros He Hc. rewrite He. cbn [negb]. rewrite Hc. cbn [negb].
    destruct (answer c l _) as [response | e] eqn:Ha.
    + destruct (Eff.ok response) eqn:Hok.
      * do 2 eexists. split; [reflexivity |].
        split; [rewrite !requests_sent_append, app_nil_r; reflexivity |].
        split; [intros _; eauto | reflexivity].
      * do 2 eexists. split; [reflexivity |].
        split; [rewrite !requests_sent_append, app_nil_r; reflexivity |].
        split; [discriminate |].
        intros (r & Hr & Hk). injection Hr as <-. congruence.
    + do 2 eexists. split; [reflexivity |].
      split; [rewrite !requests_sent_append, !app_nil_r; reflexivity |].
      split; [discriminate |].
      intros (r & Hr & _). discriminate Hr.
Qed.

Lemma create_opensearch_index_outcomes_witness :
  create_opensearch_index Scenario.demo_config
    (steady_cluster false (Ok (Scenario.http_ok (JDict [])))) [] =
    (Raise (Exception "Unable to get AWS credentials"), []).
Proof.
  apply (proj1 (proj2 (create_opensearch_index_outcomes Scenario.demo_config
                         (steady_cluster false
                            (Ok (Scenario.http_ok (JDict [])))) [])));
    reflexivity.
Defined.

(** X24.  [add_document_to_opensearch] never raises.  With an endpoint,
    credentials and a document id given by the caller, it sends exactly
    one PUT, to [.../_doc/<id>] with the document as body, and returns
    [True] exactly when the answer has a success status.  Without a
    usable id (none, or the empty string) the id is computed from the
    document, and when that fails nothing is sent and the result is
    [False]. *)
Theorem add_document_outcomes (rt : runtime) (cfg : Eff.config)
  (c : cluster) (generated_id : json -> result string)
  (document doc_id : json) (l : log) :
  (exists b l',
      add_document_to_opensearch rt cfg c generated_id document doc_id l
        = (Ok b, l')) /\
  (Eff.env_truthy (Eff.OPENSEARCH_ENDPOINT cfg) = true ->
   credentials c l = true ->
   truthy doc_id = true ->
   let request :=
     Put ("https://" ++ endpoint cfg ++ "/" ++ Eff.INDEX_NAME cfg
          ++ "/_doc/" ++ str rt doc_id) document in
   exists b l',
     add_document_to_opensearch rt cfg c generated_id document doc_id l
       = (Ok b, l') /\
     requests_sent l' = (requests_sent l ++ [request])%list /\
     (b = true <->
      exists response,
        answer c l request = Ok response /\ Eff.ok response = true)) /\
  (forall e,
      truthy doc_id = false ->
      generated_id document = Raise e ->
      exists l',
        add_document_to_opensearch rt cfg c generated_id document doc_id l
          = (Ok false, l') /\
        requests_sent l' = requests_sent l).
Proof.
  split; [| split].
  - unfold add_document_to_opensearch, try_except.
    match goal with
    | |- context [match ?x l with _ => _ end] =>
        destruct (x l) as [[b | e] l1]
    end.
    + eauto.
    + do 2 eexists. reflexivity.
  - intros He Hc Ht request.
    unfold add_document_to_opensearch, bind, try_except,
      session_get_credentials, send, lift, print, print_traceback, raise, ret.
    rewrite He. cbn [negb]. rewrite Hc. cbn [negb]. rewrite Ht. cbn [negb].
    fold request.
    destruct (answer c l request) as [response | e] eqn:Ha.
    + destruct (Eff.ok response) eqn:Hok.
      * do 2 eexists. split; [reflexivity |].
        split; [rewrite !requests_sent_append, app_nil_r; reflexivity |].
        split; [intros _; eauto | reflexivity].
      * do 2 eexists. split; [reflexivity |].
        split; [rewrite !requests_sent_append, app_nil_r; reflexivity |].
        split; [discriminate |].
        intros (r & Hr & Hk). injection Hr as <-. congruence.
    + do 2 eexists. split; [reflexivity |].
      split; [rewrite !requests_sent_append, !app_nil_r; reflexivity |].
      split; [discriminate |].
      intros (r & Hr & _). discriminate Hr.
  - intros e Ht Hg.
    unfold add_document_to_opensearch, bind, try_except,
      session_get_credentials, send, lift, print, print_traceback, raise, ret.
    destruct (Eff.env_truthy (Eff.OPENSEARCH_ENDPOINT cfg)); cbn [negb].
    + destruct (credentials c l); cbn [negb].
      * rewrite Ht. cbn [negb]. rewrite Hg.
        eexists. split; [reflexivity |].
        rewrite !requests_sent_append, !app_nil_r. reflexivity.
      * eexists. split; [reflexivity |].
        rewrite !requests_sent_append, !app_nil_r. reflexivity.
    + eexists. split; [reflexivity |].
      rewrite !requests_sent_append, !app_nil_r. reflexivity.
Qed.

Lemma add_document_outcomes_witness :
  exists l',
    add_document_to_opensearch Scenario.demo_runtime Scenario.demo_config
      (steady_cluster true (Ok (Scenario.http_ok (JDict []))))
      no_generated_id (JDict [("title", JInt 7)]) (JStr "") []
      = (Ok false, l') /\
    requests_sent l' = requests_sent [].
Proof.
  apply (proj2 (proj2 (add_document_outcomes Scenario.demo_runtime
                         Scenario.demo_config
                         (steady_cluster true
                            (Ok (Scenario.http_ok (JDict []))))
                         no_generated_id (JDict [("title", JInt 7)])
                         (JStr "") []))
           (TypeError "unsupported operand type(s) for +"));
    reflexivity.
Defined.

(** X25.  [get_index_info] never raises: it returns either an object
    with the single entry [error] or an object with the entries [stats]
    and [mapping].  The two requests are independent: when the stats
    request is answered with a failure status, the mapping is still
    fetched and returned, next to the error text of the stats. *)
Theorem get_index_info_outcomes (cfg : Eff.config) (c : cluster) (l : log) :
  (exists r l',
      get_index_info cfg c l = (Ok r, l') /\
      ((exists msg, r = JDict [("error", JStr msg)])
       \/ (exists stats mapping,
              r = JDict [("stats", stats); ("mapping", mapping)]))) /\
  (forall stats_resp mapping_resp mapping,
      Eff.env_truthy (Eff.OPENSEARCH_ENDPOINT cfg) = true ->
      credentials c l = true ->
      let stats_request :=
        Get ("https://" ++ endpoint cfg ++ "/" ++ Eff.INDEX_NAME cfg
             ++ "/_stats") in
      let mapping_request :=
        Get ("https://" ++ endpoint cfg ++ "/" ++ Eff.INDEX_NAME cfg
             ++ "/_mapping") in
      answer c l stats_request = Ok stats_resp ->
      answer c (append l (Sent stats_request)) mapping_request
        = Ok mapping_resp ->
      Eff.ok stats_resp = false ->
      Eff.ok mapping_resp = true ->
      Eff.json_body mapping_resp = Ok mapping ->
      get_index_info cfg c l =
        (Ok (JDict [("stats", JStr ("Error: " ++ Eff.text stats_resp));
                    ("mapping", mapping)]),
         (l ++ [Sent stats_request; Sent mapping_request])%list)).
Proof.
  split.
  - unfold get_index_info, try_except.
    match goal with
    | |- context [match ?x l with _ => _ end] =>
        destruct (x l) as [[r | e] l1] eqn:E
    end.
    + exists r, l1. split; [reflexivity |]. right.
      revert E.
      unfold bind, session_get_credentials, send, lift, raise, ret.
      destruct (Eff.env_truthy (Eff.OPENSEARCH_ENDPOINT cfg)); cbn [negb];
        [| discriminate].
      destruct (credentials c l); cbn [negb]; [| discriminate].
      destruct (answer c l _) as [rs | e]; [| discriminate].
      destruct (answer c _ _) as [rm | e]; [| discriminate].
      destruct (json_or_error rs) as [s | e]; [| discriminate].
      destruct (json_or_error rm) as [m | e]; [| discriminate].
      intros E. injection E as <- _. eauto.
    + do 2 eexists. split; [reflexivity |]. left. eauto.
  - intros rs rm m He Hc stats_request mapping_request Hs Hm Hks Hkm Hj.
    unfold get_index_info, try_except, bind, session_get_credentials, send,
      lift, raise, ret.
    rewrite He. cbn [negb]. rewrite Hc. cbn [negb].
    fold stats_request. rewrite Hs.
    fold mapping_request. rewrite Hm.
    unfold json_or_error. rewrite Hks, Hkm, Hj.
    unfold append. rewrite <- app_assoc. reflexivity.
Qed.

Lemma get_index_info_outcomes_witness :
  get_index_info Scenario.demo_config
    {| credentials := fun _ => true;
       answer := fun l _ =>
                   match l with
                   | [] => Ok (Scenario.http_error 404 "no such index")
                   | _ :: _ => Ok (Scenario.http_ok (JDict [("mappings", JDict [])]))
                   end |} [] =
    (Ok (JDict [("stats", JStr "Error: no such index");
                ("mapping", JDict [("mappings", JDict [])])]),
     [Sent (Get "https://search.example.com/semantic-search-index/_stats");
      Sent (Get "https://search.example.com/semantic-search-index/_mapping")]).
Proof.
  apply (proj2 (get_index_info_outcomes Scenario.demo_config
                  {| credentials := fun _ => true;
                     answer := fun l _ =>
                                 match l with
                                 | [] => Ok (Scenario.http_error 404
                                               "no such index")
                                 | _ :: _ =>
                                     Ok (Scenario.http_ok
                                           (JDict [("mappings", JDict [])]))
                                 end |} [])
           (Scenario.http_error 404 "no such index")
           (Scenario.http_ok (JDict [("mappings", JDict [])]))
           (JDict [("mappings", JDict [])]));
    reflexivity.
Defined.

(** X26.  [test_opensearch_connection] never raises.  It sends nothing
    and answers [False] when the endpoint or the credentials are missing;
    it answers [True] only if the health request was answered with a
    success status and a JSON object. *)
Theorem test_opensearch_connection_verdict (rt : runtime)
  (cfg : Eff.config) (c : cluster) (l : log) :
  exists b l',
    test_opensearch_connection rt cfg c l = (Ok b, l') /\
    (Eff.env_truthy (Eff.OPENSEARCH_ENDPOINT cfg) = false
     \/ credentials c l = false ->
     b = false /\ requests_sent l' = requests_sent l) /\
    (b = true ->
     exists response d,
       answer c l (Get ("https://" ++ endpoint cfg ++ "/_cluster/health"))
         = Ok response /\
       Eff.ok response = true /\
       Eff.json_body response = Ok (JDict d)).
Proof.
  unfold test_opensearch_connection, try_except, bind,
    session_get_credentials, send, lift, print, raise, ret.
  destruct (Eff.env_truthy (Eff.OPENSEARCH_ENDPOINT cfg)); cbn [negb].
  - destruct (credentials c l); cbn [negb].
    + destruct (answer c l _) as [response | e] eqn:Ha.
      * destruct (Eff.ok response) eqn:Hok.
        -- destruct (Eff.json_body response) as [health | e] eqn:Hj.
           ++ destruct health as [| b | z | f | s | hl | d];
                cbn [get];
                try (do 2 eexists; split; [reflexivity |];
                     split; [intros [H | H]; discriminate H
                            | discriminate]).
              do 2 eexists. split; [reflexivity |].
              split; [intros [H | H]; discriminate H |].
              intros _. exists response, d. auto.
           ++ do 2 eexists. split; [reflexivity |].
              split; [intros [H | H]; discriminate H | discriminate].
        -- do 2 eexists. split; [reflexivity |].
           split; [intros [H | H]; discriminate H | discriminate].
      * do 2 eexists. split; [reflexivity |].
        split; [intros [H | H]; discriminate H | discriminate].
    + do 2 eexists. split; [reflexivity |].
      split; [| discriminate].
      intros _. split; [reflexivity |].
      rewrite requests_sent_append, app_nil_r. reflexivity.
  - do 2 eexists. split; [reflexivity |].
    split; [| discriminate].
    intros _. split; [reflexivity |].
    rewrite requests_sent_append, app_nil_r. reflexivity.
Qed.

Lemma test_opensearch_connection_verdict_witness :
  exists b l',
    test_opensearch_connection Scenario.demo_runtime Scenario.quiet_config
      (steady_cluster false (Ok (Scenario.http_ok (JDict [])))) []
      = (Ok b, l') /\
    b = false /\ requests_sent l' = requests_sent [].
Proof.
  destruct (test_opensearch_connection_verdict Scenario.demo_runtime
              Scenario.quiet_config
              (steady_cluster false (Ok (Scenario.http_ok (JDict [])))) [])
    as (b & l' & H & Hmissing & _).
  exists b, l'. split; [exact H |].
  apply Hmissing. right. reflexivity.
Defined.

End AdminProps.
